(** * Coupon engine: eligibility, discount arithmetic, cart annotation, ranking

    A shallow embedding of the class [CouponService] of
    [src/services/couponService.js] (the definition at the top of the file;
    a second, later draft of the class further down is not embedded),
    together with the three instance methods of the coupon model
    ([isExpired], [isUsageLimitReached], [isApplicable]) it relies on.

    Conventions of the embedding.
    - JavaScript numbers that carry money or percentages are exact rationals
      ([Q]): the source rounds nowhere, and the rounding of double-precision
      arithmetic itself is not modelled.  Product ids, quantities, counters
      and timestamps are integers ([Z]), as the request validators and the
      model schema require.
    - [Math.floor (a / b)] on integers is [Z.div]; the two agree whenever
      [b >= 1], which the model schema enforces on every buy and get
      quantity ([min: 1]).
    - An optional property is an [option]; the guards of the source that test
      a property for truthiness go through [truthyQ] / [truthyZ], so that an
      absent property and a stored [0] behave alike, as they do in the source.
    - [new Date ()] is the explicit parameter [now].
    - A thrown exception is the [Throw] outcome; [TypeError] is what the
      runtime raises when a property of [null] / [undefined] is read.
    - Template literals keep their interpolated numbers as numbers
      ([message] is a list of text and number fragments), so no number
      formatting has to be modelled.
    - Objects that the code mutates in place live in a store ([heap]); the
      functions that only read work on a snapshot of the cart ([cart]). *)

From Stdlib Require Import ZArith QArith Qminmax Lqa String List Permutation Sorted.
From stdpp Require Import base option list gmap.

Local Open Scope Z_scope.

(** ** Outcomes and messages *)

Inductive frag :=
| Txt (s : string)
| Num (q : Q).

Definition message := list frag.

Inductive exn :=
| Error (msg : message)
| TypeError.

Inductive outcome (A : Type) :=
| Ok (a : A)
| Throw (e : exn).

Arguments Ok {A} a.
Arguments Throw {A} e.

#[global] Instance outcome_ret : MRet outcome := fun _ a => Ok a.
#[global] Instance outcome_bind : MBind outcome :=
  fun _ _ f m => match m with Ok a => f a | Throw e => Throw e end.

(** ** Data model *)

Inductive couponType := CART_WISE | PRODUCT_WISE | BXGY | OTHER_TYPE.
Inductive discountKind := PERCENTAGE | FIXED_AMOUNT.
Inductive discountLabel := percentage | fixed | free_items.

(** A cart line.  The last three properties are absent on a validated
    request cart and are written by [applyCouponToCart] on its copy. *)
Module Item.
Record t := mk {
  productId : Z;
  quantity : Z;
  price : Q;
  totalDiscount : option Q;
  discountedPrice : option Q;
  freeQuantity : option Z
}.
End Item.

Definition line (productId quantity : Z) (price : Q) : Item.t :=
  Item.mk productId quantity price None None None.

(** An entry of [buyProducts] / [getProducts]. *)
Module Req.
Record t := mk { productId : Z; quantity : Z }.
End Req.

Module Coupon.
Record t := mk {
  _id : Z;
  code : string;
  type : couponType;
  discountValue : Q;
  discountType : option discountKind;
  minCartValue : option Q;
  maxDiscount : option Q;
  applicableProducts : option (list Z);
  buyProducts : option (list Req.t);
  getProducts : option (list Req.t);
  repetitionLimit : option Z;
  expirationDate : option Z;
  isActive : bool;
  usageLimit : option Z;
  currentUsage : Z
}.
End Coupon.

(** The cart argument as the functions that only read see it: [null]
    ([undefined] behaves alike there), or an object whose [items] property
    is an array or is missing. *)
Inductive cart :=
| CartNull
| CartObject (items : option (list Item.t)).

Module ItemDiscount.
Record t := mk { productId : Z; quantity : Z; itemDiscount : Q }.
End ItemDiscount.

Module FreeItem.
Record t := mk {
  productId : Z;
  freeQuantity : Z;
  itemDiscount : Q;
  note : option string
}.
End FreeItem.

(** The object returned by [isCouponApplicable]: [{applicable: false, reason}]
    or [{applicable: true, ...context}], the context depending on the branch
    that built it. *)
Inductive applicability :=
| Inapplicable (reason : message)
| ApplicableCartWise (cartTotal : Q)
| ApplicableProductWise (applicableItems : list Item.t) (applicableTotal : Q)
| ApplicableBxGy (maxApplications : Z) (cartProducts : gmap Z Z).

Definition applicable (a : applicability) : bool :=
  match a with Inapplicable _ => false | _ => true end.

Module DiscountResult.
Record t := mk {
  discount : Q;
  applicable : option bool;
  reason : option message;
  cartTotal : option Q;
  applicableTotal : option Q;
  itemDiscounts : option (list ItemDiscount.t);
  maxApplications : option Z;
  freeItems : option (list FreeItem.t);
  discountType : option discountLabel
}.
End DiscountResult.

(** ** Truthiness of optional numbers *)

Definition truthyQ (v : option Q) : bool :=
  match v with
  | Some q => negb (Qeq_bool q 0)
  | None => false
  end.

Definition truthyZ (v : option Z) : bool :=
  match v with
  | Some z => negb (z =? 0)
  | None => false
  end.

(** [q > 0]. *)
Definition positiveQ (q : Q) : bool := negb (Qle_bool q 0).

(** [v || d] on an optional number. *)
Definition orQ (v : option Q) (d : Q) : Q :=
  match v with
  | Some q => if Qeq_bool q 0 then d else q
  | None => d
  end.

Definition orZ (v : option Z) (d : Z) : Z :=
  match v with
  | Some z => if z =? 0 then d else z
  | None => d
  end.

(** ** Methods of the coupon model *)

Definition isExpired (now : Z) (c : Coupon.t) : bool :=
  match Coupon.expirationDate c with
  | None => false
  | Some d => d <? now
  end.

Definition isUsageLimitReached (c : Coupon.t) : bool :=
  if negb (truthyZ (Coupon.usageLimit c)) then false
  else match Coupon.usageLimit c with
       | Some u => u <=? Coupon.currentUsage c
       | None => false
       end.

Definition isApplicable (now : Z) (c : Coupon.t) : bool :=
  Coupon.isActive c && negb (isExpired now c) && negb (isUsageLimitReached c).

(** ** Eligibility *)

Definition subtotal (item : Item.t) : Q :=
  (Item.price item * inject_Z (Item.quantity item))%Q.

Definition calculateCartTotal (c : cart) : Q :=
  match c with
  | CartNull => 0%Q
  | CartObject None => 0%Q
  | CartObject (Some items) =>
      fold_left (fun total item => (total + subtotal item)%Q) items 0%Q
  end.

Definition checkCartWiseApplicability (coupon : Coupon.t) (c : cart) (cartTotal : Q)
  : applicability :=
  ApplicableCartWise cartTotal.

(** [cart.items] read for a method call: a [TypeError] on [null] and on a
    missing array. *)
Definition cartItems (c : cart) : outcome (list Item.t) :=
  match c with
  | CartObject (Some items) => Ok items
  | _ => Throw TypeError
  end.

Definition includes (products : list Z) (productId : Z) : bool :=
  existsb (Z.eqb productId) products.

Definition checkProductWiseApplicability (coupon : Coupon.t) (c : cart)
  : outcome applicability :=
  match Coupon.applicableProducts coupon with
  | None | Some [] => Ok (Inapplicable [Txt "No applicable products defined"])
  | Some products =>
      items ← cartItems c;
      let applicableItems :=
        List.filter (fun item => includes products (Item.productId item)) items in
      match applicableItems with
      | [] => Ok (Inapplicable [Txt "No applicable products in cart"])
      | _ =>
          let applicableTotal :=
            fold_left (fun total item => (total + subtotal item)%Q)
                      applicableItems 0%Q in
          Ok (ApplicableProductWise applicableItems applicableTotal)
      end
  end.

(** [cartProducts[item.productId] = item.quantity] for every line in turn. *)
Definition buildCartProducts (items : list Item.t) : gmap Z Z :=
  fold_left (fun cartProducts item =>
               <[Item.productId item := Item.quantity item]> cartProducts)
            items ∅.

(** One round of the loop over [coupon.buyProducts]. *)
Definition buyStep (cartProducts : gmap Z Z) (maxApplications : Z) (buyReq : Req.t) : Z :=
  let cartQuantity := orZ (cartProducts !! Req.productId buyReq) 0 in
  let possibleApplications := cartQuantity / Req.quantity buyReq in
  if (maxApplications =? 0) || (possibleApplications <? maxApplications)
  then possibleApplications
  else maxApplications.

Definition nonEmpty {A : Type} (l : option (list A)) : bool :=
  match l with
  | Some (_ :: _) => true
  | _ => false
  end.

Definition checkBxGyApplicability (coupon : Coupon.t) (c : cart)
  : outcome applicability :=
  if negb (nonEmpty (Coupon.buyProducts coupon))
     || negb (nonEmpty (Coupon.getProducts coupon))
  then Ok (Inapplicable [Txt "Invalid BxGy configuration"])
  else
    items ← cartItems c;
    let cartProducts := buildCartProducts items in
    let maxApplications :=
      fold_left (buyStep cartProducts)
                (default [] (Coupon.buyProducts coupon)) 0 in
    let repetitionLimit := orZ (Coupon.repetitionLimit coupon) 1 in
    let maxApplications := Z.min maxApplications repetitionLimit in
    if maxApplications =? 0
    then Ok (Inapplicable [Txt "Insufficient quantity of buy products"])
    else Ok (ApplicableBxGy maxApplications cartProducts).

Definition belowMinimum (coupon : Coupon.t) (cartTotal : Q) : bool :=
  truthyQ (Coupon.minCartValue coupon)
  && negb (Qle_bool (default 0%Q (Coupon.minCartValue coupon)) cartTotal).

Definition isCouponApplicable (now : Z) (coupon : Coupon.t) (c : cart)
  : outcome applicability :=
  if negb (isApplicable now coupon)
  then Ok (Inapplicable
             [Txt "Coupon is not active, expired, or usage limit reached"])
  else
    let cartTotal := calculateCartTotal c in
    if belowMinimum coupon cartTotal
    then Ok (Inapplicable
               [Txt "Cart total ("; Num cartTotal;
                Txt ") is less than minimum required (";
                Num (default 0%Q (Coupon.minCartValue coupon)); Txt ")"])
    else
      match Coupon.type coupon with
      | CART_WISE => Ok (checkCartWiseApplicability coupon c cartTotal)
      | PRODUCT_WISE => checkProductWiseApplicability coupon c
      | BXGY => checkBxGyApplicability coupon c
      | OTHER_TYPE => Ok (Inapplicable [Txt "Unknown coupon type"])
      end.

(** ** Discount calculation *)

Definition labelOf (coupon : Coupon.t) : discountLabel :=
  if Qle_bool (Coupon.discountValue coupon) 100 then percentage else fixed.

(** The three calculators receive the applicability object and read the
    context properties of their own variant from it.  An object of another
    variant does not carry these properties; [isCouponApplicable] never hands
    one over ([dispatch_consistent] below), and that case is closed here with
    [Throw TypeError]. *)
Definition calculateCartWiseDiscount (coupon : Coupon.t) (c : cart)
    (a : applicability) : outcome DiscountResult.t :=
  match a with
  | ApplicableCartWise cartTotal =>
      let discount :=
        if Qle_bool (Coupon.discountValue coupon) 100
        then (cartTotal * Coupon.discountValue coupon / 100)%Q
        else Coupon.discountValue coupon in
      let discount :=
        if truthyQ (Coupon.maxDiscount coupon)
           && negb (Qle_bool discount (default 0%Q (Coupon.maxDiscount coupon)))
        then default 0%Q (Coupon.maxDiscount coupon)
        else discount in
      let discount := Qmin discount cartTotal in
      Ok (DiscountResult.mk discount None None (Some cartTotal) None None None None
                            (Some (labelOf coupon)))
  | _ => Throw TypeError
  end.

(** The body of the [forEach] over [applicability.applicableItems]. *)
Definition productWiseItemDiscount (coupon : Coupon.t) (item : Item.t) : Q :=
  let itemDiscount :=
    if Qle_bool (Coupon.discountValue coupon) 100
    then (Item.price item * inject_Z (Item.quantity item)
          * Coupon.discountValue coupon / 100)%Q
    else (Coupon.discountValue coupon * inject_Z (Item.quantity item))%Q in
  let itemDiscount :=
    if truthyQ (Coupon.maxDiscount coupon)
    then Qmin itemDiscount (default 0%Q (Coupon.maxDiscount coupon))
    else itemDiscount in
  let itemTotal := (Item.price item * inject_Z (Item.quantity item))%Q in
  Qmin itemDiscount itemTotal.

Definition productWiseStep (coupon : Coupon.t)
    (acc : Q * list ItemDiscount.t) (item : Item.t) : Q * list ItemDiscount.t :=
  let itemDiscount := productWiseItemDiscount coupon item in
  ((acc.1 + itemDiscount)%Q,
   acc.2 ++ [ItemDiscount.mk (Item.productId item) (Item.quantity item) itemDiscount]).

Definition calculateProductWiseDiscount (coupon : Coupon.t) (c : cart)
    (a : applicability) : outcome DiscountResult.t :=
  match a with
  | ApplicableProductWise applicableItems applicableTotal =>
      let '(totalDiscount, itemDiscounts) :=
        fold_left (productWiseStep coupon) applicableItems (0%Q, []) in
      Ok (DiscountResult.mk totalDiscount None None None (Some applicableTotal)
                            (Some itemDiscounts) None None (Some (labelOf coupon)))
  | _ => Throw TypeError
  end.

Definition findItem (productId : Z) (items : list Item.t) : option Item.t :=
  List.find (fun item => Item.productId item =? productId) items.

(** The body of the [forEach] over [coupon.getProducts]. *)
Definition freeItemFor (items : list Item.t) (maxApplications : Z) (getReq : Req.t)
  : FreeItem.t :=
  match findItem (Req.productId getReq) items with
  | Some cartItem =>
      let freeQuantity := Req.quantity getReq * maxApplications in
      let actualFreeQuantity := Z.min freeQuantity (Item.quantity cartItem) in
      let itemDiscount := (Item.price cartItem * inject_Z actualFreeQuantity)%Q in
      FreeItem.mk (Req.productId getReq) actualFreeQuantity itemDiscount None
  | None =>
      FreeItem.mk (Req.productId getReq) (Req.quantity getReq * maxApplications)
                  0%Q (Some "Item not in cart"%string)
  end.

Definition bxGyStep (items : list Item.t) (maxApplications : Z)
    (acc : Q * list FreeItem.t) (getReq : Req.t) : Q * list FreeItem.t :=
  let freeItem := freeItemFor items maxApplications getReq in
  (match findItem (Req.productId getReq) items with
   | Some _ => (acc.1 + FreeItem.itemDiscount freeItem)%Q
   | None => acc.1
   end,
   acc.2 ++ [freeItem]).

Definition calculateBxGyDiscount (coupon : Coupon.t) (c : cart)
    (a : applicability) : outcome DiscountResult.t :=
  match a with
  | ApplicableBxGy maxApplications _ =>
      match Coupon.getProducts coupon with
      | None => Throw TypeError
      | Some getProducts =>
          match getProducts with
          | [] =>
              Ok (DiscountResult.mk 0%Q None None None None None
                                    (Some maxApplications) (Some []) (Some free_items))
          | _ =>
              items ← cartItems c;
              let '(totalDiscount, freeItems) :=
                fold_left (bxGyStep items maxApplications) getProducts (0%Q, []) in
              Ok (DiscountResult.mk totalDiscount None None None None None
                                    (Some maxApplications) (Some freeItems)
                                    (Some free_items))
          end
      end
  | _ => Throw TypeError
  end.

Definition calculateDiscount (now : Z) (coupon : Coupon.t) (c : cart)
  : outcome DiscountResult.t :=
  a ← isCouponApplicable now coupon c;
  match a with
  | Inapplicable reason =>
      Ok (DiscountResult.mk 0%Q (Some false) (Some reason) None None None None None None)
  | _ =>
      match Coupon.type coupon with
      | CART_WISE => calculateCartWiseDiscount coupon c a
      | PRODUCT_WISE => calculateProductWiseDiscount coupon c a
      | BXGY => calculateBxGyDiscount coupon c a
      | OTHER_TYPE =>
          Ok (DiscountResult.mk 0%Q None (Some [Txt "Unknown coupon type"])
                                None None None None None None)
      end
  end.

(** ** Sample data *)

Definition withCartWise (discountValue : Q) (minCartValue maxDiscount : option Q)
  : Coupon.t :=
  Coupon.mk 1 "SAVE10" CART_WISE discountValue (Some PERCENTAGE)
            minCartValue maxDiscount None None None None None true None 0.

Definition withProductWise (discountValue : Q) (kind : discountKind)
    (maxDiscount : option Q) (products : list Z) : Coupon.t :=
  Coupon.mk 2 "PROD20" PRODUCT_WISE discountValue (Some kind)
            None maxDiscount (Some products) None None None None true None 0.

Definition withBxGy (buy get : list Req.t) (repetitionLimit : Z) : Coupon.t :=
  Coupon.mk 3 "BUY2GET1" BXGY 0%Q None None None None (Some buy) (Some get)
            (Some repetitionLimit) None true None 0.

Definition cartOf (items : list Item.t) : cart := CartObject (Some items).

(** 20 percent off product 101, at most 250 per line. *)
Definition percentCoupon : Coupon.t :=
  withProductWise 20 PERCENTAGE (Some 250%Q) [101].

Definition twoLines : list Item.t := [line 101 3 500; line 999 1 10].

(** 10 percent off carts of 1000 and more, at most 500. *)
Definition saveTen : Coupon.t := withCartWise 10 (Some 1000%Q) (Some 500%Q).

Definition bigCart : list Item.t := [line 1 10 1000].
Definition smallCart : list Item.t := [line 1 1 500].

(** Buy two of 101 and one of 102, get one of 201, up to three times. *)
Definition twoBuyCoupon : Coupon.t :=
  withBxGy [Req.mk 101 2; Req.mk 102 1] [Req.mk 201 1] 3.

(** A cart without product 101. *)
Definition missingFirstBuy : list Item.t := [line 102 3 10; line 201 2 100].

(** A fixed amount of 50 off each unit of product 102. *)
Definition fixedFifty : Coupon.t := withProductWise 50 FIXED_AMOUNT None [102].

Definition threeOfB : list Item.t := [line 102 3 500].

(** Three coupons that yield 50, 200 and 0 on [thousandCart]. *)
Definition fivePercent : Coupon.t :=
  Coupon.mk 11 "FIVE" CART_WISE 5%Q (Some PERCENTAGE)
            None None None None None None None true None 0.

Definition twentyPercent : Coupon.t :=
  Coupon.mk 12 "TWENTY" CART_WISE 20%Q (Some PERCENTAGE)
            None None None None None None None true None 0.

Definition switchedOff : Coupon.t :=
  Coupon.mk 13 "OFF" CART_WISE 50%Q (Some PERCENTAGE)
            None None None None None None None false None 0.

Definition thousandCart : list Item.t := [line 1 1 1000].

(** Buy one of 101, get one of 201. *)
Definition buyOneGetOne : Coupon.t := withBxGy [Req.mk 101 1] [Req.mk 201 1] 1.

(** Product 101 and product 201 each on two lines. *)
Definition repeatedLines : list Item.t :=
  [line 101 5 10; line 201 1 100; line 101 1 10; line 201 4 100].

(** ** The store

    [applyCouponToCart] copies the cart and then writes to the copy in
    place.  Cart objects, their [items] arrays, the cart lines and the coupon
    document are cells of a store; a reference is a location of it. *)

Definition loc := positive.

Module Stamp.
Record t := mk {
  couponId : Z;
  code : string;
  type : couponType;
  discountValue : Q
}.
End Stamp.

Module CartObj.
Record t := mk {
  items : option loc;
  totalPrice : option Q;
  totalDiscount : option Q;
  finalPrice : option Q;
  appliedCoupon : option Stamp.t
}.
End CartObj.

Inductive cell :=
| ItemCell (item : Item.t)
| ArrayCell (elems : list loc)
| CartCell (c : CartObj.t)
| CouponCell (coupon : Coupon.t).

Abbreviation heap := (gmap loc cell).

Definition readItem (h : heap) (l : loc) : option Item.t :=
  match h !! l with
  | Some (ItemCell item) => Some item
  | _ => None
  end.

Definition readArray (h : heap) (l : loc) : option (list loc) :=
  match h !! l with
  | Some (ArrayCell elems) => Some elems
  | _ => None
  end.

Definition readCartObj (h : heap) (l : loc) : option CartObj.t :=
  match h !! l with
  | Some (CartCell c) => Some c
  | _ => None
  end.

Definition readItems (h : heap) (a : loc) : option (list Item.t) :=
  elems ← readArray h a; mapM (readItem h) elems.

(** The snapshot of the cart a reference ([None] is [null]) denotes. *)
Definition readCart (h : heap) (r : option loc) : cart :=
  match r with
  | None => CartNull
  | Some l =>
      match readCartObj h l with
      | Some c => CartObject (CartObj.items c ≫= readItems h)
      | None => CartNull
      end
  end.

Definition alloc (h : heap) (c : cell) : heap * loc :=
  let l := fresh (dom h) in (<[l := c]> h, l).

Fixpoint allocItems (h : heap) (items : list Item.t) : heap * list loc :=
  match items with
  | [] => (h, [])
  | item :: rest =>
      let '(h1, l) := alloc h (ItemCell item) in
      let '(h2, ls) := allocItems h1 rest in
      (h2, l :: ls)
  end.

(** [JSON.parse (JSON.stringify (cart))]: the cart is read in full, then
    every object and array of it is rebuilt in newly allocated cells. *)
Definition jsonClone (h : heap) (r : option loc) : heap * option loc :=
  match r with
  | None => (h, None)
  | Some l =>
      match readCartObj h l with
      | None => (h, None)
      | Some c =>
          match CartObj.items c ≫= readItems h with
          | None =>
              let '(h1, l') :=
                alloc h (CartCell (CartObj.mk None
                                     (CartObj.totalPrice c)
                                     (CartObj.totalDiscount c)
                                     (CartObj.finalPrice c)
                                     (CartObj.appliedCoupon c))) in
              (h1, Some l')
          | Some items =>
              let '(h1, elems') := allocItems h items in
              let '(h2, a') := alloc h1 (ArrayCell elems') in
              let '(h3, l') :=
                alloc h2 (CartCell (CartObj.mk (Some a')
                                      (CartObj.totalPrice c)
                                      (CartObj.totalDiscount c)
                                      (CartObj.finalPrice c)
                                      (CartObj.appliedCoupon c))) in
              (h3, Some l')
          end
      end
  end.

(** [updatedCart.items], read for [find]. *)
Definition updatedCartItems (h : heap) (updatedCart : option loc)
  : outcome (list loc) :=
  match updatedCart ≫= readCartObj h with
  | Some c =>
      match CartObj.items c ≫= readArray h with
      | Some elems => Ok elems
      | None => Throw TypeError
      end
  | None => Throw TypeError
  end.

Definition findItemLoc (h : heap) (productId : Z) (elems : list loc) : option loc :=
  List.find (fun l => match readItem h l with
                      | Some item => Item.productId item =? productId
                      | None => false
                      end) elems.

(** [item.totalDiscount = (item.totalDiscount || 0) + d] followed by
    [item.discountedPrice = item.price * item.quantity - item.totalDiscount]. *)
Definition addItemDiscount (item : Item.t) (d : Q) : Item.t :=
  let totalDiscount := (orQ (Item.totalDiscount item) 0 + d)%Q in
  Item.mk (Item.productId item) (Item.quantity item) (Item.price item)
          (Some totalDiscount)
          (Some (Item.price item * inject_Z (Item.quantity item) - totalDiscount)%Q)
          (Item.freeQuantity item).

Definition setFreeQuantity (item : Item.t) (n : Z) : Item.t :=
  Item.mk (Item.productId item) (Item.quantity item) (Item.price item)
          (Item.totalDiscount item) (Item.discountedPrice item) (Some n).

Definition applyItemDiscount (updatedCart : option loc) (acc : outcome heap)
    (itemDiscount : ItemDiscount.t) : outcome heap :=
  h ← acc;
  elems ← updatedCartItems h updatedCart;
  match findItemLoc h (ItemDiscount.productId itemDiscount) elems with
  | Some l =>
      match readItem h l with
      | Some item =>
          Ok (<[l := ItemCell (addItemDiscount item
                                 (ItemDiscount.itemDiscount itemDiscount))]> h)
      | None => Ok h
      end
  | None => Ok h
  end.

Definition applyFreeItem (updatedCart : option loc) (acc : outcome heap)
    (freeItem : FreeItem.t) : outcome heap :=
  h ← acc;
  elems ← updatedCartItems h updatedCart;
  match findItemLoc h (FreeItem.productId freeItem) elems with
  | Some l =>
      match readItem h l with
      | Some item =>
          if positiveQ (FreeItem.itemDiscount freeItem)
          then Ok (<[l := ItemCell (setFreeQuantity
                                      (addItemDiscount item
                                         (FreeItem.itemDiscount freeItem))
                                      (FreeItem.freeQuantity freeItem))]> h)
          else Ok h
      | None => Ok h
      end
  | None => Ok h
  end.

(** The three assignments [updatedCart.totalPrice = ...],
    [updatedCart.totalDiscount = ...], [updatedCart.finalPrice = ...]. *)
Definition setTotals (h : heap) (updatedCart : option loc) (cartTotal discount : Q)
  : outcome heap :=
  match updatedCart with
  | Some l =>
      match readCartObj h l with
      | Some c =>
          Ok (<[l := CartCell (CartObj.mk (CartObj.items c) (Some cartTotal)
                                 (Some discount)
                                 (Some (cartTotal - discount)%Q)
                                 (CartObj.appliedCoupon c))]> h)
      | None => Throw TypeError
      end
  | None => Throw TypeError
  end.

Definition setAppliedCoupon (h : heap) (updatedCart : option loc) (s : Stamp.t)
  : outcome heap :=
  match updatedCart with
  | Some l =>
      match readCartObj h l with
      | Some c =>
          Ok (<[l := CartCell (CartObj.mk (CartObj.items c) (CartObj.totalPrice c)
                                 (CartObj.totalDiscount c) (CartObj.finalPrice c)
                                 (Some s))]> h)
      | None => Throw TypeError
      end
  | None => Throw TypeError
  end.

Definition property {A : Type} (v : option A) : outcome A :=
  match v with
  | Some a => Ok a
  | None => Throw TypeError
  end.

Definition cannotApply (discountResult : DiscountResult.t) : message :=
  Txt "Cannot apply coupon: "
  :: default [Txt "Invalid coupon"] (DiscountResult.reason discountResult).

Definition applyCouponToCart (now : Z) (h : heap) (couponRef : loc)
    (cartRef : option loc) : outcome (heap * (option loc * DiscountResult.t)) :=
  match h !! couponRef with
  | Some (CouponCell coupon) =>
      let c := readCart h cartRef in
      discountResult ← calculateDiscount now coupon c;
      let discount := DiscountResult.discount discountResult in
      if Qeq_bool discount 0
      then Throw (Error (cannotApply discountResult))
      else
        let '(h, updatedCart) := jsonClone h cartRef in
        let cartTotal := calculateCartTotal c in
        h ← match Coupon.type coupon with
            | CART_WISE => setTotals h updatedCart cartTotal discount
            | PRODUCT_WISE =>
                itemDiscounts ← property (DiscountResult.itemDiscounts discountResult);
                h ← fold_left (applyItemDiscount updatedCart) itemDiscounts (Ok h);
                setTotals h updatedCart cartTotal discount
            | BXGY =>
                freeItems ← property (DiscountResult.freeItems discountResult);
                h ← fold_left (applyFreeItem updatedCart) freeItems (Ok h);
                setTotals h updatedCart cartTotal discount
            | OTHER_TYPE => Ok h
            end;
        h ← setAppliedCoupon h updatedCart
              (Stamp.mk (Coupon._id coupon) (Coupon.code coupon)
                        (Coupon.type coupon) discount);
        Ok (h, (updatedCart, discountResult))
  | _ => Throw TypeError
  end.

(** A store holding one coupon document and one request cart, with the
    references to them. *)
Definition storeOf (coupon : Coupon.t) (items : list Item.t)
  : heap * loc * option loc :=
  let '(h1, couponRef) := alloc ∅ (CouponCell coupon) in
  let '(h2, elems) := allocItems h1 items in
  let '(h3, a) := alloc h2 (ArrayCell elems) in
  let '(h4, l) := alloc h3 (CartCell (CartObj.mk (Some a) None None None None)) in
  (h4, couponRef, Some l).

(** Buy one of 101, get one of 201, the get entry listed twice. *)
Definition doubleGet : Coupon.t :=
  withBxGy [Req.mk 101 1] [Req.mk 201 1; Req.mk 201 1] 1.

Definition cheapAndDear : list Item.t := [line 101 1 1; line 201 1 100].

(** ** Ranking *)

Module Ranked.
Record t := mk {
  couponId : Z;
  code : string;
  type : couponType;
  discount : Q;
  details : DiscountResult.t
}.
End Ranked.

Definition rankedOf (coupon : Coupon.t) (discountResult : DiscountResult.t)
  : Ranked.t :=
  Ranked.mk (Coupon._id coupon) (Coupon.code coupon) (Coupon.type coupon)
            (DiscountResult.discount discountResult) discountResult.

(** One round of the loop over the retrieved coupons. *)
Definition rankStep (now : Z) (c : cart) (acc : outcome (list Ranked.t))
    (coupon : Coupon.t) : outcome (list Ranked.t) :=
  applicableCoupons ← acc;
  discountResult ← calculateDiscount now coupon c;
  if positiveQ (DiscountResult.discount discountResult)
  then Ok (applicableCoupons ++ [rankedOf coupon discountResult])
  else Ok applicableCoupons.

(** The comparison function handed to [sort]. *)
Definition byDiscountDesc (a b : Ranked.t) : Q :=
  (Ranked.discount b - Ranked.discount a)%Q.

(** [Array.prototype.sort] with a comparison function: the language
    standard requires a stable sort, so its result on a consistent
    comparison is the one a stable insertion sort produces. *)
Fixpoint insertBy {A : Type} (cmp : A -> A -> Q) (x : A) (l : list A) : list A :=
  match l with
  | [] => [x]
  | y :: l' => if positiveQ (cmp x y) then y :: insertBy cmp x l' else x :: l
  end.

Definition sortBy {A : Type} (cmp : A -> A -> Q) (l : list A) : list A :=
  fold_right (insertBy cmp) [] l.

(** [coupons] is the awaited result of the [couponModel.find] query. *)
Definition getApplicableCoupons (now : Z) (c : cart) (coupons : list Coupon.t)
  : outcome (list Ranked.t) :=
  applicableCoupons ← fold_left (rankStep now c) coupons (Ok []);
  Ok (sortBy byDiscountDesc applicableCoupons).

(** ** Reference notions used in the statements *)

Fixpoint sumOf {A : Type} (f : A -> Q) (l : list A) : Q :=
  match l with
  | [] => 0%Q
  | x :: rest => (f x + sumOf f rest)%Q
  end.

(** The cart total as a sum of [price * quantity] over the lines. *)
Definition cartTotalOf (c : cart) : Q :=
  match c with
  | CartObject (Some items) => sumOf subtotal items
  | _ => 0%Q
  end.

(** A line is matched by a product-wise coupon when its product is listed. *)
Definition matched (coupon : Coupon.t) (item : Item.t) : bool :=
  includes (default [] (Coupon.applicableProducts coupon)) (Item.productId item).

(** How many times one buy requirement fits the quantity recorded for its
    product. *)
Definition possible (cartProducts : gmap Z Z) (r : Req.t) : Z :=
  orZ (cartProducts !! Req.productId r) 0 / Req.quantity r.

Definition minimumOf (l : list Z) : Z :=
  match l with
  | [] => 0
  | x :: rest => fold_left Z.min rest x
  end.

(** The number of applications as the specification words it: the least
    [possible] over all buy requirements, bounded by the repetition limit. *)
Definition applicationsByRule (coupon : Coupon.t) (items : list Item.t) : Z :=
  Z.min (minimumOf (List.map (possible (buildCartProducts items))
                             (default [] (Coupon.buyProducts coupon))))
        (orZ (Coupon.repetitionLimit coupon) 1).

(** A cap that is applied when it is set.  The source tests the property
    for truthiness, so a cap is set when it is present and not zero. *)
Definition capIfSet (maxDiscount : option Q) (d : Q) : Q :=
  match maxDiscount with
  | Some m => if Qeq_bool m 0 then d else Qmin d m
  | None => d
  end.

(** The per-line discount as the specification words it: the branch is
    chosen by the coupon's [discountType]. *)
Definition itemDiscountByType (coupon : Coupon.t) (item : Item.t) : Q :=
  let itemDiscount :=
    match Coupon.discountType coupon with
    | Some PERCENTAGE =>
        (Item.price item * inject_Z (Item.quantity item)
         * Coupon.discountValue coupon / 100)%Q
    | _ => (Coupon.discountValue coupon * inject_Z (Item.quantity item))%Q
    end in
  Qmin (capIfSet (Coupon.maxDiscount coupon) itemDiscount) (subtotal item).

(** The breakdown entry of a matched line. *)
Definition entryOf (coupon : Coupon.t) (item : Item.t) : ItemDiscount.t :=
  ItemDiscount.mk (Item.productId item) (Item.quantity item)
                  (productWiseItemDiscount coupon item).

(** The constraints the request validator puts on a cart line. *)
Definition validLine (item : Item.t) : bool :=
  (0 <? Item.quantity item) && positiveQ (Item.price item).

Definition validCart (items : list Item.t) : bool := forallb validLine items.

(** The numeric constraints of the coupon schema ([min: 0] on
    [discountValue] and [maxDiscount], [min: 1] on [repetitionLimit] and on
    the quantity of every buy and get entry). *)
Definition validReq (r : Req.t) : bool := 1 <=? Req.quantity r.

Definition schemaCoupon (coupon : Coupon.t) : bool :=
  Qle_bool 0 (Coupon.discountValue coupon)
  && match Coupon.maxDiscount coupon with
     | Some m => Qle_bool 0 m
     | None => true
     end
  && match Coupon.repetitionLimit coupon with
     | Some n => 1 <=? n
     | None => true
     end
  && forallb validReq (default [] (Coupon.buyProducts coupon))
  && forallb validReq (default [] (Coupon.getProducts coupon)).

(** The cells a cart reference reaches: the cart object, its array, the
    lines. *)
Definition footprint (h : heap) (r : option loc) : list loc :=
  match r with
  | None => []
  | Some l =>
      l :: match readCartObj h l ≫= CartObj.items with
           | None => []
           | Some a => a :: default [] (readArray h a)
           end
  end.

(** What a line is, apart from the annotations [applyCouponToCart] adds. *)
Definition core (item : Item.t) : Z * Z * Q :=
  (Item.productId item, Item.quantity item, Item.price item).

Definition linesOf (c : cart) : list Item.t :=
  match c with
  | CartObject (Some items) => items
  | _ => []
  end.

(** [copied h0 h l' src]: in [h], which keeps every cell of [h0] as it
    was, [l'] is a cart object allocated after [h0] whose array and lines,
    if the source cart [src] had any, were allocated after [h0] as well and
    hold the lines of the source, up to annotations. *)
Definition copied (h0 h : heap) (l' : loc) (src : option (list Item.t)) : Prop :=
  h0 ⊆ h /\
  h0 !! l' = None /\
  exists c',
    readCartObj h l' = Some c' /\
    match src with
    | None => CartObj.items c' = None
    | Some lines =>
        exists a' elems',
          CartObj.items c' = Some a' /\
          h0 !! a' = None /\
          readArray h a' = Some elems' /\
          Forall2 (fun e line =>
                     h0 !! e = None /\
                     exists item, readItem h e = Some item /\ core item = core line)
                  elems' lines
    end.

(** The entries the ranking loop collects, as a comprehension. *)
Definition candidate (now : Z) (c : cart) (coupon : Coupon.t) : option Ranked.t :=
  match calculateDiscount now coupon c with
  | Ok discountResult =>
      if positiveQ (DiscountResult.discount discountResult)
      then Some (rankedOf coupon discountResult)
      else None
  | Throw _ => None
  end.

Definition candidates (now : Z) (c : cart) (coupons : list Coupon.t)
  : list Ranked.t :=
  omap (candidate now c) coupons.

Definition descending (a b : Ranked.t) : Prop :=
  (Ranked.discount b <= Ranked.discount a)%Q.

Definition sameDiscount (d : Q) (r : Ranked.t) : bool :=
  Qeq_bool (Ranked.discount r) d.

(** ** Validation of coupon data

    [validateCouponData] is the static method of the coupon model; the two
    [custom] rules are the callbacks the request validator attaches to the
    product-wise and to the BxGy schema. *)

(** An array property is truthy whenever it is there, empty or not. *)
Definition present {A : Type} (l : option (list A)) : bool :=
  match l with
  | Some _ => true
  | None => false
  end.

Definition validateCouponData (couponData : Coupon.t) : list string :=
  match Coupon.type couponData with
  | CART_WISE =>
      (if Qle_bool (Coupon.discountValue couponData) 0
          || negb (Qle_bool (Coupon.discountValue couponData) 100)
       then ["Discount value must be between 1 and 100 for cart-wise coupons"%string]
       else [])
      ++ (if nonEmpty (Coupon.applicableProducts couponData)
          then ["Cart-wise coupons should not have applicableProducts"%string]
          else [])
      ++ (if present (Coupon.buyProducts couponData)
             || present (Coupon.getProducts couponData)
          then ["Cart-wise coupons should not have buyProducts or getProducts"%string]
          else [])
  | PRODUCT_WISE =>
      (if negb (nonEmpty (Coupon.applicableProducts couponData))
       then ["Product-wise coupons require applicableProducts"%string]
       else [])
      ++ (if present (Coupon.buyProducts couponData)
             || present (Coupon.getProducts couponData)
          then ["Product-wise coupons should not have buyProducts or getProducts"%string]
          else [])
  | BXGY =>
      (if negb (nonEmpty (Coupon.buyProducts couponData))
       then ["BxGy coupons require buyProducts"%string]
       else [])
      ++ (if negb (nonEmpty (Coupon.getProducts couponData))
          then ["BxGy coupons require getProducts"%string]
          else [])
      ++ (if nonEmpty (Coupon.applicableProducts couponData)
          then ["BxGy coupons should not have applicableProducts"%string]
          else [])
  | OTHER_TYPE => []
  end.


(** [new Set (ids).size]. *)
Definition setSize (ids : list Z) : nat := size (list_to_set ids : gset Z).

(** The rule on BxGy data, on the two arrays it reads. *)
Definition bxgyCustom (buyProducts getProducts : list Req.t) : option string :=
  let buyProductIds := List.map Req.productId buyProducts in
  let getProductIds := List.map Req.productId getProducts in
  if negb (Nat.eqb (setSize buyProductIds) (length buyProductIds))
  then Some "Buy products must have unique product IDs"%string
  else if negb (Nat.eqb (setSize getProductIds) (length getProductIds))
  then Some "Get products must have unique product IDs"%string
  else
    let overlap := List.filter (includes getProductIds) buyProductIds in
    if Nat.ltb 0 (length overlap)
    then Some "Product cannot be both in buyProducts and getProducts"%string
    else
      match List.find (fun p => Req.quantity p <=? 0) buyProducts with
      | Some _ => Some "Buy product quantities must be positive"%string
      | None =>
          match List.find (fun p => Req.quantity p <=? 0) getProducts with
          | Some _ => Some "Get product quantities must be positive"%string
          | None => None
          end
      end.

(** ** The request handlers

    The store plays the database: [Coupon.findById] is a lookup of a coupon
    cell, [coupon.save ()] writes the cell back.  What the cart validator
    decided is an argument: an error message, or the validated cart. *)

Inductive response :=
| InvalidCart (error : string)
| NotFound
| Rejected (error : exn)
| Applied (couponId : Z) (code : string) (type : couponType)
          (updatedCart : option loc) (discountResult : DiscountResult.t).

(** [coupon.currentUsage += 1]. *)
Definition incrementUsage (coupon : Coupon.t) : Coupon.t :=
  Coupon.mk (Coupon._id coupon) (Coupon.code coupon) (Coupon.type coupon)
            (Coupon.discountValue coupon) (Coupon.discountType coupon)
            (Coupon.minCartValue coupon) (Coupon.maxDiscount coupon)
            (Coupon.applicableProducts coupon) (Coupon.buyProducts coupon)
            (Coupon.getProducts coupon) (Coupon.repetitionLimit coupon)
            (Coupon.expirationDate coupon) (Coupon.isActive coupon)
            (Coupon.usageLimit coupon) (Coupon.currentUsage coupon + 1).

Definition readCoupon (h : heap) (l : loc) : option Coupon.t :=
  match h !! l with
  | Some (CouponCell coupon) => Some coupon
  | _ => None
  end.

Definition applyCoupon (now : Z) (h : heap) (validation : string + option loc)
    (id : loc) : heap * response :=
  match validation with
  | inl error => (h, InvalidCart error)
  | inr value =>
      match readCoupon h id with
      | None => (h, NotFound)
      | Some _ =>
          match applyCouponToCart now h id value with
          | Ok (h', (updatedCart, discountResult)) =>
              match readCoupon h' id with
              | Some coupon =>
                  (<[id := CouponCell (incrementUsage coupon)]> h',
                   Applied (Coupon._id coupon) (Coupon.code coupon)
                           (Coupon.type coupon) updatedCart discountResult)
              | None => (h', Rejected TypeError)
              end
          | Throw error => (h, Rejected error)
          end
      end
  end.

(** A run of requests for one coupon, each with its own clock reading. *)
Fixpoint applyCouponAll (h : heap) (id : loc)
    (requests : list (Z * (string + option loc))) : heap * list response :=
  match requests with
  | [] => (h, [])
  | (now, validation) :: rest =>
      let '(h1, r) := applyCoupon now h validation id in
      let '(h2, rs) := applyCouponAll h1 id rest in
      (h2, r :: rs)
  end.

Definition isApplied (r : response) : bool :=
  match r with
  | Applied _ _ _ _ _ => true
  | _ => false
  end.

(** The query of [getApplicableCoupons]:
    [{isActive: true, $or: [{expirationDate: {$gt: new Date ()}},
    {expirationDate: null}]}], run at [queryTime] over the stored coupons. *)
Definition activeQuery (queryTime : Z) (coupon : Coupon.t) : bool :=
  Coupon.isActive coupon
  && match Coupon.expirationDate coupon with
     | Some d => queryTime <? d
     | None => true
     end.

Definition findActive (queryTime : Z) (couponModel : list Coupon.t) : list Coupon.t :=
  List.filter (activeQuery queryTime) couponModel.

(** [getApplicableCoupons] with its query: the coupons are retrieved at
    [queryTime] and evaluated at [now]. *)
Definition getApplicableCouponsOf (queryTime now : Z) (c : cart)
    (couponModel : list Coupon.t) : outcome (list Ranked.t) :=
  getApplicableCoupons now c (findActive queryTime couponModel).

(** ** The lines of the returned cart, as values

    What the in-place writes of [applyCouponToCart] amount to on the list of
    lines: [find] picks the first line of a product, and only that line is
    rewritten. *)

Fixpoint updateFirst (productId : Z) (f : Item.t -> Item.t) (lines : list Item.t)
  : list Item.t :=
  match lines with
  | [] => []
  | item :: rest =>
      if Item.productId item =? productId
      then f item :: rest
      else item :: updateFirst productId f rest
  end.

Definition annotateItemDiscount (lines : list Item.t) (e : ItemDiscount.t)
  : list Item.t :=
  updateFirst (ItemDiscount.productId e)
              (fun item => addItemDiscount item (ItemDiscount.itemDiscount e)) lines.

Definition annotateFreeItem (lines : list Item.t) (e : FreeItem.t) : list Item.t :=
  if positiveQ (FreeItem.itemDiscount e)
  then updateFirst (FreeItem.productId e)
                   (fun item => setFreeQuantity
                                  (addItemDiscount item (FreeItem.itemDiscount e))
                                  (FreeItem.freeQuantity e)) lines
  else lines.

Definition annotatedLines (type : couponType) (discountResult : DiscountResult.t)
    (lines : list Item.t) : list Item.t :=
  match type with
  | PRODUCT_WISE =>
      fold_left annotateItemDiscount
                (default [] (DiscountResult.itemDiscounts discountResult)) lines
  | BXGY =>
      fold_left annotateFreeItem
                (default [] (DiscountResult.freeItems discountResult)) lines
  | _ => lines
  end.

(** [mirrors h l' lines]: in [h], [l'] is a cart object whose array holds
    pairwise distinct cells that read as [lines]. *)
Definition mirrors (h : heap) (l' : loc) (lines : list Item.t) : Prop :=
  exists c' a' elems',
    readCartObj h l' = Some c' /\
    CartObj.items c' = Some a' /\
    readArray h a' = Some elems' /\
    NoDup elems' /\
    Forall2 (fun e line => readItem h e = Some line) elems' lines.

(** A line as the request validator lets it through: no annotation yet. *)
Definition plainLine (item : Item.t) : bool :=
  match Item.totalDiscount item, Item.discountedPrice item, Item.freeQuantity item with
  | None, None, None => true
  | _, _, _ => false
  end.


(** The value the loop over the buy requirements ends with, said without
    the loop: the least [possible] among the requirements that follow the
    last one with [possible] 0. *)
Fixpoint afterLastZero (l : list Z) : list Z :=
  match l with
  | [] => []
  | x :: rest =>
      if existsb (Z.eqb 0) rest then afterLastZero rest
      else if x =? 0 then rest else x :: rest
  end.

(** ** More sample data *)

(** 200 off carts of 1500 and more. *)
Definition flatTwoHundred : Coupon.t := withCartWise 200 (Some 1500%Q) None.

Definition twoThousandCart : list Item.t := [line 1 2 1000].

(** A cart with the buy product of [buyOneGetOne] and without its get
    product. *)
Definition onlyBought : list Item.t := [line 101 2 10].

(** A coupon that may be used twice, and three requests for it. *)
Definition usableTwice : Coupon.t :=
  Coupon.mk 2 "PROD20" PRODUCT_WISE 20%Q (Some PERCENTAGE) None None (Some [101])
            None None None None true (Some 2) 0.

Definition threeRequests : list (Z * (string + option loc)) :=
  [(0, inr (storeOf usableTwice twoLines).2);
   (1, inr (storeOf usableTwice twoLines).2);
   (2, inr (storeOf usableTwice twoLines).2)].


(** ** The wording of the cart-wise formula

    The cap as the specification words it: [min (discount, maxDiscount)]
    whenever the coupon has a [maxDiscount], whatever its value.  The
    source's guard is [capIfSet], which leaves a stored cap of [0] out. *)
Definition capWhenPresent (maxDiscount : option Q) (d : Q) : Q :=
  match maxDiscount with
  | Some m => Qmin d m
  | None => d
  end.

Definition cartWiseAsWorded (coupon : Coupon.t) (c : cart) : Q :=
  Qmin (capWhenPresent (Coupon.maxDiscount coupon)
                       (cartTotalOf c * Coupon.discountValue coupon / 100))
       (cartTotalOf c).

(** 10 percent off, with a stored cap of 0. *)
Definition zeroCap : Coupon.t := withCartWise 10 None (Some 0%Q).

(** ** Several lines of one product, in the words of the claim *)

(** The lines that carry a product, in cart order. *)
Definition linesWith (productId : Z) (items : list Item.t) : list Item.t :=
  List.filter (fun item => Item.productId item =? productId) items.

(** The quantity of the last line carrying a product. *)
Definition lastQuantity (items : list Item.t) (productId : Z) : option Z :=
  Item.quantity <$> last (linesWith productId items).

(** The quantities of all lines carrying a product, added up. *)
Definition summedQuantity (items : list Item.t) (productId : Z) : Z :=
  fold_right (fun item total => Item.quantity item + total) 0
             (linesWith productId items).

(** The first line carrying a product. *)
Definition firstLine (items : list Item.t) (productId : Z) : option Item.t :=
  head (linesWith productId items).

(** How often a buy requirement fits the last line of its product. *)
Definition lastLinePossible (items : list Item.t) (r : Req.t) : Z :=
  orZ (lastQuantity items (Req.productId r)) 0 / Req.quantity r.

(** The update of the running value in the loop over the buy requirements:
    a value of 0 is replaced, a smaller candidate wins. *)
Definition runningLeast (acc p : Z) : Z :=
  if (acc =? 0) || (p <? acc) then p else acc.

(** What a get entry sets free, computed on the first line of its product
    alone. *)
Definition firstLineDiscount (items : list Item.t) (n : Z) (g : Req.t) : Q :=
  match firstLine items (Req.productId g) with
  | Some item =>
      (Item.price item * inject_Z (Z.min (Req.quantity g * n) (Item.quantity item)))%Q
  | None => 0%Q
  end.

(** Buy two of 101, get one of 201, once. *)
Definition buyTwoGetOne : Coupon.t := withBxGy [Req.mk 101 2] [Req.mk 201 1] 1.

(** Three of product 101 on two lines, the last of them with one. *)
Definition splitLines : list Item.t :=
  [line 101 2 10; line 101 1 10; line 201 1 100].


(** * Properties *)

(** ** Sums and folds *)

Lemma fold_sum_acc {A : Type} (f : A -> Q) (l : list A) (a : Q) :
  (fold_left (fun total x => total + f x) l a == a + sumOf f l)%Q.
Proof.
  revert a. induction l as [|x l IH]; intros a; simpl.
  - lra.
  - rewrite IH. lra.
Qed.

Lemma calculateCartTotal_sum (c : cart) :
  (calculateCartTotal c == cartTotalOf c)%Q.
Proof.
  destruct c as [|[items|]]; simpl; try reflexivity.
  rewrite (fold_sum_acc subtotal). lra.
Qed.

Lemma sumOf_nonneg {A : Type} (f : A -> Q) (l : list A) :
  Forall (fun x => (0 <= f x)%Q) l -> (0 <= sumOf f l)%Q.
Proof.
  induction 1 as [|x l Hx _ IH]; simpl; lra.
Qed.

Lemma sumOf_le {A : Type} (f g : A -> Q) (l : list A) :
  Forall (fun x => (f x <= g x)%Q) l -> (sumOf f l <= sumOf g l)%Q.
Proof.
  induction 1 as [|x l Hx _ IH]; simpl; lra.
Qed.

Lemma positiveQ_lt (q : Q) : positiveQ q = true <-> (0 < q)%Q.
Proof.
  unfold positiveQ. rewrite negb_true_iff.
  destruct (Qle_bool q 0) eqn:E.
  - apply Qle_bool_iff in E. split; [discriminate | intros H; lra].
  - split; [intros _ | reflexivity].
    destruct (Qlt_le_dec 0 q) as [H|H]; [exact H|].
    apply Qle_bool_iff in H. congruence.
Qed.

Lemma positiveQ_false (q : Q) : positiveQ q = false <-> (q <= 0)%Q.
Proof.
  unfold positiveQ. rewrite negb_false_iff. apply Qle_bool_iff.
Qed.

Lemma validLine_pos (item : Item.t) :
  validLine item = true -> 0 < Item.quantity item /\ (0 < Item.price item)%Q.
Proof.
  unfold validLine. rewrite andb_true_iff, Z.ltb_lt, positiveQ_lt. tauto.
Qed.

Lemma subtotal_pos (item : Item.t) :
  validLine item = true -> (0 < subtotal item)%Q.
Proof.
  intros [Hq Hp]%validLine_pos. unfold subtotal.
  apply Qmult_lt_0_compat; [exact Hp|].
  replace 0%Q with (inject_Z 0) by reflexivity. rewrite <- Zlt_Qlt. exact Hq.
Qed.

(** ** Shape of the applicability object *)

(** The variant of the object [isCouponApplicable] returns is the one of the
    coupon's type, so every calculator finds the context it reads. *)
Lemma dispatch_consistent (now : Z) (coupon : Coupon.t) (c : cart) (a : applicability) :
  isCouponApplicable now coupon c = Ok a ->
  match a with
  | Inapplicable _ => True
  | ApplicableCartWise cartTotal =>
      Coupon.type coupon = CART_WISE /\ cartTotal = calculateCartTotal c
  | ApplicableProductWise applicableItems applicableTotal =>
      Coupon.type coupon = PRODUCT_WISE /\
      exists items,
        c = CartObject (Some items) /\
        applicableItems = List.filter (matched coupon) items /\
        applicableItems <> [] /\
        applicableTotal =
          fold_left (fun total item => (total + subtotal item)%Q) applicableItems 0%Q
  | ApplicableBxGy maxApplications cartProducts =>
      Coupon.type coupon = BXGY /\
      exists items buy,
        c = CartObject (Some items) /\
        Coupon.buyProducts coupon = Some buy /\
        nonEmpty (Coupon.getProducts coupon) = true /\
        cartProducts = buildCartProducts items /\
        maxApplications =
          Z.min (fold_left (buyStep cartProducts) buy 0)
                (orZ (Coupon.repetitionLimit coupon) 1) /\
        maxApplications <> 0
  end.
Proof.
  unfold isCouponApplicable.
  destruct (negb (isApplicable now coupon)); [intros [= <-]; exact I|].
  destruct (belowMinimum coupon (calculateCartTotal c)); [intros [= <-]; exact I|].
  destruct (Coupon.type coupon) eqn:Ety.
  - intros [= <-]. split; reflexivity.
  - unfold checkProductWiseApplicability, matched.
    destruct (Coupon.applicableProducts coupon) as [[|p products]|];
      try (intros [= <-]; exact I).
    destruct c as [|[items|]]; simpl; try discriminate.
    destruct (List.filter _ items) as [|i0 l0] eqn:Ef; intros [= <-]; [exact I|].
    split; [reflexivity|]. exists items. rewrite Ef. repeat split. discriminate.
  - unfold checkBxGyApplicability.
    destruct (Coupon.buyProducts coupon) as [[|b buy]|] eqn:Eb; simpl;
      try (intros [= <-]; exact I).
    destruct (nonEmpty (Coupon.getProducts coupon)) eqn:Eg; simpl;
      [|intros [= <-]; exact I].
    destruct c as [|[items|]]; simpl; try discriminate.
    match goal with |- context [if ?b then _ else _] => destruct b eqn:Ez end;
      intros [= <-]; [exact I|].
    split; [reflexivity|]. exists items, (b :: buy).
    repeat split. apply Z.eqb_neq in Ez. exact Ez.
  - intros [= <-]. exact I.
Qed.

(** On a cart that is an object with an [items] array, evaluation returns. *)
Lemma isCouponApplicable_total (now : Z) (coupon : Coupon.t) (items : list Item.t) :
  exists a, isCouponApplicable now coupon (cartOf items) = Ok a.
Proof.
  unfold isCouponApplicable.
  destruct (negb (isApplicable now coupon)); [eexists; reflexivity|].
  destruct (belowMinimum _ _); [eexists; reflexivity|].
  destruct (Coupon.type coupon).
  - eexists; reflexivity.
  - unfold checkProductWiseApplicability.
    destruct (Coupon.applicableProducts coupon) as [[|p products]|];
      try (eexists; reflexivity).
    simpl. destruct (List.filter _ items); eexists; reflexivity.
  - unfold checkBxGyApplicability.
    destruct (negb _ || negb _); [eexists; reflexivity|].
    simpl. match goal with |- context [if ?b then _ else _] => destruct b end;
      eexists; reflexivity.
  - eexists; reflexivity.
Qed.

Lemma calculateDiscount_total (now : Z) (coupon : Coupon.t) (items : list Item.t) :
  exists discountResult,
    calculateDiscount now coupon (cartOf items) = Ok discountResult.
Proof.
  destruct (isCouponApplicable_total now coupon items) as [a Ha].
  pose proof (dispatch_consistent _ _ _ _ Ha) as Hd.
  unfold calculateDiscount. rewrite Ha. simpl.
  destruct a as [r|t|its tot|n cp].
  - eexists; reflexivity.
  - destruct Hd as [-> _]. eexists; reflexivity.
  - destruct Hd as [-> _]. simpl.
    destruct (fold_left _ its _). eexists; reflexivity.
  - destruct Hd as [-> (its & buy & _ & _ & Hg & _)]. simpl.
    destruct (Coupon.getProducts coupon) as [[|g get]|]; try discriminate.
    simpl. destruct (fold_left _ get _). eexists; reflexivity.
Qed.

(** ** Arithmetic with [Qmin] *)

Ltac qmin_abstract :=
  repeat match goal with
         | |- context [Qmin ?a ?b] =>
             generalize (Q.min_spec a b); generalize (Qmin a b)
         end.

Ltac qmin := qmin_abstract; intros; repeat case_bool_hyps; lra
with case_bool_hyps :=
  match goal with
  | H : _ /\ _ |- _ => destruct H
  | H : _ \/ _ |- _ => destruct H
  end.

Lemma percent_nonneg (x : Q) : (0 <= x)%Q -> (0 <= x / 100)%Q.
Proof.
  intros H. unfold Qdiv. apply Qmult_le_0_compat; [exact H|].
  unfold Qle. simpl. lia.
Qed.

Lemma capIfSet_guard (maxDiscount : option Q) (d : Q) :
  ((if truthyQ maxDiscount && negb (Qle_bool d (default 0 maxDiscount))
    then default 0 maxDiscount else d) == capIfSet maxDiscount d)%Q.
Proof.
  destruct maxDiscount as [m|]; simpl; [|reflexivity].
  destruct (Qeq_bool m 0); simpl; [reflexivity|].
  destruct (Qle_bool d m) eqn:E; simpl.
  - apply Qle_bool_iff in E. qmin.
  - assert (~ (d <= m)%Q) by (rewrite <- Qle_bool_iff; congruence). qmin.
Qed.

Lemma capIfSet_min (maxDiscount : option Q) (d : Q) :
  ((if truthyQ maxDiscount then Qmin d (default 0 maxDiscount) else d)
   = capIfSet maxDiscount d)%Q.
Proof.
  destruct maxDiscount as [m|]; simpl; [|reflexivity].
  destruct (Qeq_bool m 0); reflexivity.
Qed.

Lemma capIfSet_nonneg (maxDiscount : option Q) (d : Q) :
  (0 <= d)%Q ->
  match maxDiscount with Some m => Qle_bool 0 m | None => true end = true ->
  (0 <= capIfSet maxDiscount d)%Q.
Proof.
  intros Hd Hm. destruct maxDiscount as [m|]; simpl; [|exact Hd].
  apply Qle_bool_iff in Hm. destruct (Qeq_bool m 0); [exact Hd|]. qmin.
Qed.

Lemma capIfSet_compat (maxDiscount : option Q) (d d' : Q) :
  (d == d')%Q -> (capIfSet maxDiscount d == capIfSet maxDiscount d')%Q.
Proof.
  intros H. destruct maxDiscount as [m|]; simpl; [|exact H].
  destruct (Qeq_bool m 0); [exact H|]. qmin.
Qed.

(** ** Cart-wise coupons *)

Lemma applicable_cart_wise (now : Z) (coupon : Coupon.t) (c : cart) (a : applicability) :
  Coupon.type coupon = CART_WISE ->
  isCouponApplicable now coupon c = Ok a ->
  applicable a = true ->
  a = ApplicableCartWise (calculateCartTotal c).
Proof.
  intros Hty Ha Happ. pose proof (dispatch_consistent _ _ _ _ Ha) as Hd.
  destruct a as [r|t|its tot|n cp]; simpl in *; try discriminate.
  - destruct Hd as [_ ->]. reflexivity.
  - destruct Hd as [Hd _]. congruence.
  - destruct Hd as [Hd _]. congruence.
Qed.

(** C3.  For an applicable cart-wise coupon whose [discountValue] lies
    between 1 and 100, [calculateDiscount] returns
    [min (min (cartTotal * discountValue / 100, maxDiscount), cartTotal)],
    the inner minimum being taken when the coupon has a [maxDiscount] that
    is not 0 (a stored cap of 0 is not applied), where [cartTotal] is the
    sum of [price * quantity] over the lines of the cart; for a coupon whose
    cap, if it has one, is not 0, this is the formula with the cap taken
    whenever there is one. *)
Theorem cart_wise_discount_formula
    (now : Z) (coupon : Coupon.t) (c : cart) (a : applicability) :
  Coupon.type coupon = CART_WISE ->
  (1 <= Coupon.discountValue coupon)%Q ->
  (Coupon.discountValue coupon <= 100)%Q ->
  isCouponApplicable now coupon c = Ok a ->
  applicable a = true ->
  exists discountResult,
    calculateDiscount now coupon c = Ok discountResult /\
    (DiscountResult.discount discountResult ==
     Qmin (capIfSet (Coupon.maxDiscount coupon)
                    (cartTotalOf c * Coupon.discountValue coupon / 100))
          (cartTotalOf c))%Q /\
    ((forall m, Coupon.maxDiscount coupon = Some m -> ~ (m == 0)%Q) ->
     (DiscountResult.discount discountResult == cartWiseAsWorded coupon c)%Q).
Proof.
  intros Hty Hlo Hhi Ha Happ.
  pose proof (applicable_cart_wise _ _ _ _ Hty Ha Happ) as ->.
  unfold calculateDiscount. rewrite Ha. simpl. rewrite Hty. simpl.
  eexists. split; [reflexivity|]. simpl.
  match goal with |- ?P /\ _ => assert P as Hmain end;
    [|split; [exact Hmain|]; intros Hset; rewrite Hmain;
      unfold cartWiseAsWorded, capWhenPresent, capIfSet;
      destruct (Coupon.maxDiscount coupon) as [m|]; [|reflexivity];
      destruct (Qeq_bool m 0) eqn:Em; [|reflexivity];
      apply Qeq_bool_iff in Em; destruct (Hset m eq_refl Em)].
  apply Qle_bool_iff in Hhi. rewrite Hhi.
  pose proof (calculateCartTotal_sum c) as Ht.
  rewrite capIfSet_guard.
  pose proof (capIfSet_compat (Coupon.maxDiscount coupon)
                (calculateCartTotal c * Coupon.discountValue coupon / 100)
                (cartTotalOf c * Coupon.discountValue coupon / 100)) as Hc.
  assert (calculateCartTotal c * Coupon.discountValue coupon / 100 ==
          cartTotalOf c * Coupon.discountValue coupon / 100)%Q as He
      by (rewrite Ht; reflexivity).
  specialize (Hc He). revert Hc Ht.
  generalize (capIfSet (Coupon.maxDiscount coupon)
                (calculateCartTotal c * Coupon.discountValue coupon / 100)).
  generalize (capIfSet (Coupon.maxDiscount coupon)
                (cartTotalOf c * Coupon.discountValue coupon / 100)).
  generalize (calculateCartTotal c). generalize (cartTotalOf c).
  intros. qmin.
Qed.

(** The two readings of the cap side by side: a cap that is present and
    not zero bounds the raw percentage, anything else leaves it alone. *)
Lemma capIfSet_cases (maxDiscount : option Q) (d : Q) :
  (forall m, maxDiscount = Some m -> ~ (m == 0)%Q ->
             capIfSet maxDiscount d = Qmin d m) /\
  (maxDiscount = None -> capIfSet maxDiscount d = d) /\
  (forall m, maxDiscount = Some m -> (m == 0)%Q -> capIfSet maxDiscount d = d).
Proof.
  repeat split.
  - intros m -> Hm. simpl. destruct (Qeq_bool m 0) eqn:E; [|reflexivity].
    apply Qeq_bool_iff in E. contradiction.
  - intros ->. reflexivity.
  - intros m -> Hm. simpl. apply Qeq_bool_iff in Hm. rewrite Hm. reflexivity.
Qed.

(** ** Product-wise coupons *)

Lemma productWise_fold (coupon : Coupon.t) (l : list Item.t)
    (a : Q) (ds : list ItemDiscount.t) :
  (fold_left (productWiseStep coupon) l (a, ds)).2 = ds ++ List.map (entryOf coupon) l /\
  ((fold_left (productWiseStep coupon) l (a, ds)).1 ==
   a + sumOf (productWiseItemDiscount coupon) l)%Q.
Proof.
  revert a ds. induction l as [|x l IH]; intros a ds; simpl.
  - rewrite app_nil_r. split; [reflexivity | lra].
  - unfold productWiseStep at 2 4. simpl.
    destruct (IH (a + productWiseItemDiscount coupon x)%Q
                 (ds ++ [entryOf coupon x])) as [H2 H1].
    unfold entryOf in H2 at 1. rewrite H2, H1. split.
    + rewrite <- app_assoc. reflexivity.
    + lra.
Qed.

Lemma productWiseItemDiscount_eq (coupon : Coupon.t) (item : Item.t) :
  productWiseItemDiscount coupon item =
  Qmin (capIfSet (Coupon.maxDiscount coupon)
          (if Qle_bool (Coupon.discountValue coupon) 100
           then (Item.price item * inject_Z (Item.quantity item)
                 * Coupon.discountValue coupon / 100)%Q
           else (Coupon.discountValue coupon * inject_Z (Item.quantity item))%Q))
       (subtotal item).
Proof.
  unfold productWiseItemDiscount. rewrite capIfSet_min. reflexivity.
Qed.

Lemma productWiseItemDiscount_le (coupon : Coupon.t) (item : Item.t) :
  (productWiseItemDiscount coupon item <= subtotal item)%Q.
Proof. rewrite productWiseItemDiscount_eq. qmin. Qed.

Lemma schemaCoupon_parts (coupon : Coupon.t) :
  schemaCoupon coupon = true ->
  (0 <= Coupon.discountValue coupon)%Q /\
  match Coupon.maxDiscount coupon with Some m => Qle_bool 0 m | None => true end = true /\
  1 <= orZ (Coupon.repetitionLimit coupon) 1 /\
  Forall (fun r => 1 <= Req.quantity r) (default [] (Coupon.buyProducts coupon)) /\
  Forall (fun r => 1 <= Req.quantity r) (default [] (Coupon.getProducts coupon)).
Proof.
  unfold schemaCoupon. rewrite !andb_true_iff.
  intros ((((Hd & Hm) & Hr) & Hb) & Hg).
  apply Qle_bool_iff in Hd.
  repeat split; try assumption.
  - destruct (Coupon.repetitionLimit coupon) as [n|]; simpl; [|lia].
    apply Z.leb_le in Hr. destruct (n =? 0) eqn:E; lia.
  - apply List.Forall_forall. intros r Hr'. rewrite forallb_forall in Hb.
    apply Z.leb_le. apply (Hb r Hr').
  - apply List.Forall_forall. intros r Hr'. rewrite forallb_forall in Hg.
    apply Z.leb_le. apply (Hg r Hr').
Qed.

Lemma productWiseItemDiscount_nonneg (coupon : Coupon.t) (item : Item.t) :
  schemaCoupon coupon = true -> validLine item = true ->
  (0 <= productWiseItemDiscount coupon item)%Q.
Proof.
  intros (Hd & Hm & _)%schemaCoupon_parts Hv.
  pose proof (subtotal_pos item Hv) as Hs.
  destruct (validLine_pos item Hv) as [Hq Hp].
  assert (0 < inject_Z (Item.quantity item))%Q as Hq'
      by (replace 0%Q with (inject_Z 0) by reflexivity; rewrite <- Zlt_Qlt; exact Hq).
  rewrite productWiseItemDiscount_eq.
  assert (0 <= if Qle_bool (Coupon.discountValue coupon) 100
               then Item.price item * inject_Z (Item.quantity item)
                    * Coupon.discountValue coupon / 100
               else Coupon.discountValue coupon * inject_Z (Item.quantity item))%Q
    as Hraw.
  { destruct (Qle_bool _ 100).
    - unfold subtotal in Hs.
      assert (0 <= Item.price item * inject_Z (Item.quantity item)
                   * Coupon.discountValue coupon)%Q
        by (apply Qmult_le_0_compat; lra).
      apply percent_nonneg. assumption.
    - apply Qmult_le_0_compat; lra. }
  pose proof (capIfSet_nonneg _ _ Hraw Hm). qmin.
Qed.

Lemma validCart_Forall (items : list Item.t) :
  validCart items = true -> Forall (fun item => validLine item = true) items.
Proof.
  unfold validCart. rewrite forallb_forall. intros H.
  apply List.Forall_forall. intros x Hx. apply H. exact Hx.
Qed.

Lemma Forall_filter_keep {A : Type} (P : A -> Prop) (f : A -> bool) (l : list A) :
  Forall P l -> Forall P (List.filter f l).
Proof.
  induction 1 as [|x l Hx _ IH]; simpl; [constructor|].
  destruct (f x); [constructor|]; assumption.
Qed.

Lemma cartTotalOf_nonneg (items : list Item.t) :
  validCart items = true -> (0 <= cartTotalOf (cartOf items))%Q.
Proof.
  intros Hv%validCart_Forall. simpl. apply sumOf_nonneg.
  eapply Forall_impl; [exact Hv|]. intros x Hx%subtotal_pos. lra.
Qed.

(** ** The product-to-quantity map of the BxGy check *)

Lemma cartProducts_other (items : list Item.t) (m : gmap Z Z) (k : Z) :
  Forall (fun item => Item.productId item <> k) items ->
  fold_left (fun cartProducts item =>
               <[Item.productId item := Item.quantity item]> cartProducts)
            items m !! k = m !! k.
Proof.
  intros H. revert m. induction H as [|x l Hx _ IH]; intros m; simpl.
  - reflexivity.
  - rewrite IH. apply lookup_insert_ne. exact Hx.
Qed.

Lemma cartProducts_last (before after : list Item.t) (item : Item.t) :
  Forall (fun other => Item.productId other <> Item.productId item) after ->
  buildCartProducts (before ++ item :: after) !! Item.productId item
  = Some (Item.quantity item).
Proof.
  intros H. unfold buildCartProducts. rewrite fold_left_app. simpl.
  rewrite (cartProducts_other after _ _ H). apply lookup_insert_eq.
Qed.

Lemma cartProducts_from_line (items : list Item.t) (m : gmap Z Z) (k q : Z) :
  fold_left (fun cartProducts item =>
               <[Item.productId item := Item.quantity item]> cartProducts)
            items m !! k = Some q ->
  m !! k = Some q \/
  exists item, In item items /\ Item.productId item = k /\ Item.quantity item = q.
Proof.
  revert m. induction items as [|x l IH]; intros m; simpl.
  - intros H. left. exact H.
  - intros H. destruct (IH _ H) as [Hm|(item & Hin & Hk & Hq)].
    + destruct (decide (Item.productId x = k)) as [<-|Hne].
      * rewrite lookup_insert_eq in Hm. injection Hm as <-.
        right. exists x. auto.
      * rewrite lookup_insert_ne in Hm by exact Hne. left. exact Hm.
    + right. exists item. auto.
Qed.

Lemma cartQuantity_nonneg (items : list Item.t) (k : Z) :
  validCart items = true -> 0 <= orZ (buildCartProducts items !! k) 0.
Proof.
  intros Hv. destruct (buildCartProducts items !! k) as [q|] eqn:E; simpl; [|lia].
  destruct (cartProducts_from_line _ _ _ _ E) as [Hm|(item & Hin & _ & Hq)].
  - rewrite lookup_empty in Hm. discriminate.
  - unfold validCart in Hv. rewrite forallb_forall in Hv.
    destruct (validLine_pos item (Hv item Hin)) as [Hpos _].
    destruct (q =? 0); lia.
Qed.

Lemma findItem_In (productId : Z) (items : list Item.t) (item : Item.t) :
  findItem productId items = Some item ->
  In item items /\ Item.productId item = productId.
Proof.
  unfold findItem. intros H. apply find_some in H. destruct H as [Hin Heq].
  apply Z.eqb_eq in Heq. auto.
Qed.

Lemma findItem_first (productId : Z) (before after : list Item.t) (item : Item.t) :
  Item.productId item = productId ->
  Forall (fun other => Item.productId other <> productId) before ->
  findItem productId (before ++ item :: after) = Some item.
Proof.
  intros Hid H. unfold findItem. induction H as [|x l Hx _ IH]; simpl.
  - apply Z.eqb_eq in Hid. rewrite Hid. reflexivity.
  - apply Z.eqb_neq in Hx. rewrite Hx. exact IH.
Qed.

(** ** The loop over the buy requirements *)

Lemma buyStep_from_zero (cartProducts : gmap Z Z) (r : Req.t) :
  buyStep cartProducts 0 r = possible cartProducts r.
Proof. reflexivity. Qed.

Lemma buyStep_min (cartProducts : gmap Z Z) (acc : Z) (r : Req.t) :
  acc <> 0 -> buyStep cartProducts acc r = Z.min acc (possible cartProducts r).
Proof.
  intros H. unfold buyStep, possible. apply Z.eqb_neq in H. rewrite H. simpl.
  destruct (Z.ltb_spec (orZ (cartProducts !! Req.productId r) 0 / Req.quantity r) acc);
    lia.
Qed.

Lemma buyLoop_positive (cartProducts : gmap Z Z) (buy : list Req.t) (acc : Z) :
  0 < acc ->
  Forall (fun r => 0 < possible cartProducts r) buy ->
  fold_left (buyStep cartProducts) buy acc
  = fold_left Z.min (List.map (possible cartProducts) buy) acc
  /\ 0 < fold_left (buyStep cartProducts) buy acc.
Proof.
  intros Hacc H. revert acc Hacc.
  induction H as [|r l Hr _ IH]; intros acc Hacc; simpl.
  - auto.
  - rewrite buyStep_min by lia. apply IH. lia.
Qed.

(** Where every buy requirement fits at least once, the loop yields the
    least [possible] value. *)
Lemma buyLoop_minimum (cartProducts : gmap Z Z) (buy : list Req.t) :
  Forall (fun r => 0 < possible cartProducts r) buy ->
  fold_left (buyStep cartProducts) buy 0
  = minimumOf (List.map (possible cartProducts) buy).
Proof.
  intros H. destruct H as [|r l Hr Hl]; simpl; [reflexivity|].
  rewrite buyStep_from_zero. apply buyLoop_positive; assumption.
Qed.

Lemma buyLoop_nonneg (cartProducts : gmap Z Z) (buy : list Req.t) (acc : Z) :
  0 <= acc ->
  Forall (fun r => 0 <= possible cartProducts r) buy ->
  0 <= fold_left (buyStep cartProducts) buy acc.
Proof.
  intros Hacc H. revert acc Hacc.
  induction H as [|r l Hr _ IH]; intros acc Hacc; simpl; [exact Hacc|].
  apply IH. unfold buyStep. fold (possible cartProducts r).
  destruct ((acc =? 0) || _); assumption.
Qed.

Lemma possible_nonneg (items : list Item.t) (r : Req.t) :
  validCart items = true -> 1 <= Req.quantity r ->
  0 <= possible (buildCartProducts items) r.
Proof.
  intros Hv Hq. unfold possible. apply Z.div_pos; [|lia].
  apply cartQuantity_nonneg. exact Hv.
Qed.

(** ** BxGy discounts *)

Lemma freeItemFor_nonneg (items : list Item.t) (n : Z) (getReq : Req.t) :
  validCart items = true -> 0 <= n -> 1 <= Req.quantity getReq ->
  (0 <= FreeItem.itemDiscount (freeItemFor items n getReq))%Q.
Proof.
  intros Hv Hn Hq. unfold freeItemFor.
  destruct (findItem (Req.productId getReq) items) as [cartItem|] eqn:E; simpl; [|lra].
  apply findItem_In in E. destruct E as [Hin _].
  unfold validCart in Hv. rewrite forallb_forall in Hv.
  destruct (validLine_pos cartItem (Hv cartItem Hin)) as [Hpos Hprice].
  apply Qmult_le_0_compat; [lra|].
  replace 0%Q with (inject_Z 0) by reflexivity. rewrite <- Zle_Qle. nia.
Qed.

Lemma bxGy_fold_nonneg (items : list Item.t) (n : Z) (get : list Req.t)
    (a : Q) (fs : list FreeItem.t) :
  validCart items = true -> 0 <= n ->
  Forall (fun r => 1 <= Req.quantity r) get ->
  (0 <= a)%Q ->
  (0 <= (fold_left (bxGyStep items n) get (a, fs)).1)%Q.
Proof.
  intros Hv Hn H. revert a fs.
  induction H as [|g l Hg _ IH]; intros a fs Ha; simpl; [exact Ha|].
  apply IH. pose proof (freeItemFor_nonneg items n g Hv Hn Hg) as Hf.
  unfold bxGyStep. simpl.
  destruct (findItem (Req.productId g) items); [lra | exact Ha].
Qed.

(** ** Bounds on the discount *)

Lemma matched_subtotals_nonneg (coupon : Coupon.t) (items : list Item.t) :
  validCart items = true ->
  (0 <= sumOf subtotal (List.filter (matched coupon) items))%Q.
Proof.
  intros Hv%validCart_Forall. apply sumOf_nonneg.
  apply Forall_filter_keep.
  eapply Forall_impl; [exact Hv|]. intros x Hx%subtotal_pos. lra.
Qed.

(** C4.  For a coupon within the numeric constraints of the schema and a
    validated cart (every line with a positive quantity and price),
    [calculateDiscount] returns a discount that is never negative; for a
    cart-wise coupon it does not exceed the cart total, and for a
    product-wise coupon it does not exceed the sum of the subtotals of the
    matched lines. *)
Theorem discount_bounds (now : Z) (coupon : Coupon.t) (items : list Item.t) :
  schemaCoupon coupon = true ->
  validCart items = true ->
  exists discountResult,
    calculateDiscount now coupon (cartOf items) = Ok discountResult /\
    (0 <= DiscountResult.discount discountResult)%Q /\
    (Coupon.type coupon = CART_WISE ->
     (DiscountResult.discount discountResult <= cartTotalOf (cartOf items))%Q) /\
    (Coupon.type coupon = PRODUCT_WISE ->
     (DiscountResult.discount discountResult
      <= sumOf subtotal (List.filter (matched coupon) items))%Q).
Proof.
  intros Hs Hv.
  destruct (isCouponApplicable_total now coupon items) as [a Ha].
  pose proof (dispatch_consistent _ _ _ _ Ha) as Hd.
  pose proof (cartTotalOf_nonneg items Hv) as Htot.
  pose proof (matched_subtotals_nonneg coupon items Hv) as Hmat.
  pose proof (calculateCartTotal_sum (cartOf items)) as Hsum.
  destruct (schemaCoupon_parts coupon Hs) as (Hdv & Hmd & Hrep & Hbuy & Hget).
  unfold calculateDiscount. rewrite Ha. simpl.
  destruct a as [r|t|its tot|n cp].
  - eexists. split; [reflexivity|]. simpl in *. repeat split; intros; lra.
  - destruct Hd as [Hty ->]. rewrite Hty.
    simpl in Htot. revert Hsum. generalize (calculateCartTotal (cartOf items)).
    intros T Hsum. simpl in Hsum. simpl.
    eexists. split; [reflexivity|]. simpl.
    rewrite capIfSet_guard.
    set (raw := if Qle_bool (Coupon.discountValue coupon) 100
                then (T * Coupon.discountValue coupon / 100)%Q
                else Coupon.discountValue coupon).
    assert (0 <= raw)%Q as Hraw.
    { unfold raw. destruct (Qle_bool _ 100); [|exact Hdv].
      apply percent_nonneg. apply Qmult_le_0_compat; lra. }
    pose proof (capIfSet_nonneg _ _ Hraw Hmd) as Hcap.
    revert Hcap. generalize (capIfSet (Coupon.maxDiscount coupon) raw).
    revert Hsum Htot. generalize (sumOf subtotal items). intros T' Hsum Htot cap Hcap.
    repeat split; [|intros _|intros Hty'; congruence]; qmin.
  - destruct Hd as [Hty (items' & [= <-] & -> & Hne & ->)]. rewrite Hty. simpl.
    destruct (fold_left (productWiseStep coupon) _ _) as [total ds] eqn:Ef.
    eexists. split; [reflexivity|]. simpl.
    destruct (productWise_fold coupon (List.filter (matched coupon) items) 0%Q [])
      as [_ H1].
    rewrite Ef in H1. simpl in H1.
    assert (Forall (fun item => validLine item = true)
                   (List.filter (matched coupon) items)) as Hvm
        by (apply Forall_filter_keep, validCart_Forall, Hv).
    assert (0 <= sumOf (productWiseItemDiscount coupon)
                       (List.filter (matched coupon) items))%Q as Hlo.
    { apply sumOf_nonneg. eapply Forall_impl; [exact Hvm|].
      intros x Hx. apply productWiseItemDiscount_nonneg; assumption. }
    assert (sumOf (productWiseItemDiscount coupon) (List.filter (matched coupon) items)
            <= sumOf subtotal (List.filter (matched coupon) items))%Q as Hhi.
    { apply sumOf_le. apply Forall_forall. intros x _.
      apply productWiseItemDiscount_le. }
    repeat split; [|intros Hty'; congruence|intros _]; lra.
  - destruct Hd as [Hty (items' & buy & [= <-] & Hb & Hg & -> & Hn & Hnz)].
    rewrite Hty. simpl.
    destruct (Coupon.getProducts coupon) as [[|g get]|] eqn:Eg; try discriminate.
    cbn [cartItems cartOf mbind outcome_bind].
    destruct (fold_left _ (g :: get) _) as [total fs] eqn:Ef.
    eexists. split; [reflexivity|]. simpl.
    assert (0 <= n) as Hn0.
    { rewrite Hn. apply Z.min_glb; [|lia].
      apply buyLoop_nonneg; [lia|].
      rewrite Hb in Hbuy. simpl in Hbuy.
      eapply Forall_impl; [exact Hbuy|].
      intros r Hr. apply possible_nonneg; assumption. }
    pose proof (bxGy_fold_nonneg items n (g :: get) 0%Q [] Hv Hn0 Hget) as Hfold.
    rewrite Ef in Hfold. simpl in Hfold.
    repeat split; [apply Hfold; lra | intros Hty'; congruence
                  | intros Hty'; congruence].
Qed.

Lemma discount_bounds_holds :
  schemaCoupon percentCoupon = true /\
  validCart twoLines = true /\
  exists discountResult,
    calculateDiscount 0 percentCoupon (cartOf twoLines) = Ok discountResult /\
    (0 <= DiscountResult.discount discountResult)%Q /\
    (Coupon.type percentCoupon = CART_WISE ->
     (DiscountResult.discount discountResult <= cartTotalOf (cartOf twoLines))%Q) /\
    (Coupon.type percentCoupon = PRODUCT_WISE ->
     (DiscountResult.discount discountResult
      <= sumOf subtotal (List.filter (matched percentCoupon) twoLines))%Q).
Proof.
  split; [reflexivity|]. split; [reflexivity|].
  apply (discount_bounds 0 percentCoupon twoLines); reflexivity.
Defined.

Lemma cart_wise_discount_formula_holds :
  Coupon.type saveTen = CART_WISE /\
  (1 <= Coupon.discountValue saveTen)%Q /\
  (Coupon.discountValue saveTen <= 100)%Q /\
  isCouponApplicable 0 saveTen (cartOf bigCart)
  = Ok (ApplicableCartWise (calculateCartTotal (cartOf bigCart))) /\
  exists discountResult,
    calculateDiscount 0 saveTen (cartOf bigCart) = Ok discountResult /\
    (DiscountResult.discount discountResult ==
     Qmin (capIfSet (Coupon.maxDiscount saveTen)
                    (cartTotalOf (cartOf bigCart) * Coupon.discountValue saveTen / 100))
          (cartTotalOf (cartOf bigCart)))%Q /\
    (DiscountResult.discount discountResult
     == cartWiseAsWorded saveTen (cartOf bigCart))%Q.
Proof.
  split; [reflexivity|]. split; [simpl; lra|]. split; [simpl; lra|].
  split; [reflexivity|].
  destruct (cart_wise_discount_formula 0 saveTen (cartOf bigCart)
              (ApplicableCartWise (calculateCartTotal (cartOf bigCart))))
    as (discountResult & Hdr & Hmin & Hworded);
    try reflexivity; try (simpl; lra).
  exists discountResult. split; [exact Hdr|]. split; [exact Hmin|].
  apply Hworded. intros m [= <-] H0. vm_compute in H0. discriminate H0.
Defined.

(** A stored cap of 0.  Read as the formula is worded, with the cap taken
    whenever the coupon has one, 10 percent of a cart of 2000 come out as 0;
    [calculateDiscount] does not apply a cap of 0 and returns 200. *)
Lemma cart_wise_zero_cap_not_applied :
  Coupon.type zeroCap = CART_WISE /\
  ((1 <= Coupon.discountValue zeroCap)%Q /\
   (Coupon.discountValue zeroCap <= 100)%Q) /\
  isCouponApplicable 0 zeroCap (cartOf twoThousandCart)
  = Ok (ApplicableCartWise (calculateCartTotal (cartOf twoThousandCart))) /\
  (cartWiseAsWorded zeroCap (cartOf twoThousandCart) == 0)%Q /\
  exists discountResult,
    calculateDiscount 0 zeroCap (cartOf twoThousandCart) = Ok discountResult /\
    (DiscountResult.discount discountResult == 200)%Q /\
    ~ (DiscountResult.discount discountResult
       == cartWiseAsWorded zeroCap (cartOf twoThousandCart))%Q.
Proof.
  split; [reflexivity|]. split; [simpl; lra|]. split; [reflexivity|].
  split; [vm_compute; reflexivity|].
  eexists. split; [vm_compute; reflexivity|].
  split; [vm_compute; reflexivity|].
  intros H. vm_compute in H. discriminate H.
Qed.

(** ** The number of BxGy applications *)

(** Where every buy requirement fits at least once, the number of
    applications is the one the rule gives. *)
Lemma applications_when_all_fit (now : Z) (coupon : Coupon.t) (items : list Item.t)
    (n : Z) (cp : gmap Z Z) :
  isCouponApplicable now coupon (cartOf items) = Ok (ApplicableBxGy n cp) ->
  Forall (fun r => 0 < possible (buildCartProducts items) r)
         (default [] (Coupon.buyProducts coupon)) ->
  n = applicationsByRule coupon items.
Proof.
  intros Ha Hfit. apply dispatch_consistent in Ha.
  destruct Ha as [_ (items' & buy & [= <-] & Hb & _ & -> & -> & _)].
  unfold applicationsByRule. rewrite Hb in *. simpl in *.
  rewrite buyLoop_minimum by exact Hfit. reflexivity.
Qed.

(** C1.  Evaluation at a cart that holds none of the first buy product:
    the rule gives 0 applications, the loop restarts from the second
    requirement and reports 3, and the coupon is reported applicable. *)
Theorem applications_restart_after_zero :
  isCouponApplicable 0 twoBuyCoupon (cartOf missingFirstBuy)
  = Ok (ApplicableBxGy 3 (buildCartProducts missingFirstBuy)) /\
  applicationsByRule twoBuyCoupon missingFirstBuy = 0 /\
  List.map (possible (buildCartProducts missingFirstBuy))
           (default [] (Coupon.buyProducts twoBuyCoupon)) = [0; 3].
Proof. repeat split; vm_compute; reflexivity. Qed.

(** ** Product-wise discounts line by line *)

(** The discount of an applicable product-wise coupon is the sum of the
    per-line amounts over the matched lines, and the breakdown lists one
    entry per matched line. *)
Lemma product_wise_breakdown (now : Z) (coupon : Coupon.t) (c : cart)
    (applicableItems : list Item.t) (applicableTotal : Q) :
  isCouponApplicable now coupon c
  = Ok (ApplicableProductWise applicableItems applicableTotal) ->
  exists discountResult,
    calculateDiscount now coupon c = Ok discountResult /\
    applicableItems = List.filter (matched coupon) (linesOf c) /\
    DiscountResult.itemDiscounts discountResult
    = Some (List.map (entryOf coupon) applicableItems) /\
    (DiscountResult.discount discountResult
     == sumOf (productWiseItemDiscount coupon) applicableItems)%Q.
Proof.
  intros Ha. pose proof (dispatch_consistent _ _ _ _ Ha) as Hd.
  destruct Hd as [Hty (items & -> & Hf & _ & _)].
  unfold calculateDiscount. rewrite Ha. simpl. rewrite Hty. simpl.
  destruct (productWise_fold coupon applicableItems 0%Q []) as [H2 H1].
  destruct (fold_left (productWiseStep coupon) applicableItems _) as [total ds].
  simpl in *. eexists. split; [reflexivity|]. simpl.
  repeat split; [exact Hf | congruence | lra].
Qed.


(** C2.  Evaluation at a fixed-amount coupon of 50 per unit and three units
    of the product at 500: by [discountType] the line earns 50 * 3 = 150;
    the source reads a value up to 100 as a percentage and grants 750. *)
Theorem product_wise_ignores_discountType :
  Coupon.discountType fixedFifty = Some FIXED_AMOUNT /\
  (sumOf (itemDiscountByType fixedFifty)
         (List.filter (matched fixedFifty) threeOfB) == 150)%Q /\
  exists discountResult,
    calculateDiscount 0 fixedFifty (cartOf threeOfB) = Ok discountResult /\
    (DiscountResult.discount discountResult == 750)%Q /\
    DiscountResult.discountType discountResult = Some percentage.
Proof.
  split; [reflexivity|]. split; [vm_compute; reflexivity|].
  eexists. split; [vm_compute; reflexivity|].
  split; [vm_compute|]; reflexivity.
Qed.

(** ** Carts that are absent or have no lines array *)

(** C6.  Evaluation at [null] and at a cart object without [items]: the
    cart total is 0, yet for a product-wise and for a BxGy coupon both the
    applicability check and the calculation raise a [TypeError]; a
    cart-wise coupon without a minimum is reported applicable. *)
Theorem absent_cart_raises :
  calculateCartTotal CartNull = 0%Q /\
  calculateCartTotal (CartObject None) = 0%Q /\
  isCouponApplicable 0 percentCoupon CartNull = Throw TypeError /\
  calculateDiscount 0 percentCoupon CartNull = Throw TypeError /\
  isCouponApplicable 0 percentCoupon (CartObject None) = Throw TypeError /\
  calculateDiscount 0 percentCoupon (CartObject None) = Throw TypeError /\
  isCouponApplicable 0 buyOneGetOne CartNull = Throw TypeError /\
  calculateDiscount 0 buyOneGetOne CartNull = Throw TypeError /\
  isCouponApplicable 0 (withCartWise 10 None None) CartNull
  = Ok (ApplicableCartWise 0%Q).
Proof. repeat split. Qed.

(** ** Carts with several lines of one product *)

Lemma bxGy_fold_entries (items : list Item.t) (n : Z) (get : list Req.t)
    (a : Q) (fs : list FreeItem.t) :
  (fold_left (bxGyStep items n) get (a, fs)).2
  = fs ++ List.map (freeItemFor items n) get.
Proof.
  revert a fs. induction get as [|g l IH]; intros a fs; simpl.
  - rewrite app_nil_r. reflexivity.
  - unfold bxGyStep at 2. simpl. rewrite IH, <- app_assoc. reflexivity.
Qed.

Lemma bxgy_free_items (now : Z) (coupon : Coupon.t) (items : list Item.t)
    (n : Z) (cp : gmap Z Z) :
  isCouponApplicable now coupon (cartOf items) = Ok (ApplicableBxGy n cp) ->
  exists discountResult,
    calculateDiscount now coupon (cartOf items) = Ok discountResult /\
    DiscountResult.maxApplications discountResult = Some n /\
    DiscountResult.freeItems discountResult
    = Some (List.map (freeItemFor items n) (default [] (Coupon.getProducts coupon))).
Proof.
  intros Ha. pose proof (dispatch_consistent _ _ _ _ Ha) as Hd.
  destruct Hd as [Hty (items' & buy & [= <-] & _ & Hg & _)].
  unfold calculateDiscount. rewrite Ha. simpl. rewrite Hty. simpl.
  destruct (Coupon.getProducts coupon) as [[|g get]|]; try discriminate.
  cbn [cartItems cartOf mbind outcome_bind].
  pose proof (bxGy_fold_entries items n (g :: get) 0%Q []) as H2.
  destruct (fold_left _ (g :: get) _) as [total fs].
  simpl in H2. subst fs. eexists. repeat split.
Qed.

Lemma bxGyStep_fst (items : list Item.t) (n : Z) (acc : Q * list FreeItem.t)
    (g : Req.t) :
  ((bxGyStep items n acc g).1
   == acc.1 + FreeItem.itemDiscount (freeItemFor items n g))%Q.
Proof.
  unfold bxGyStep, freeItemFor.
  destruct (findItem (Req.productId g) items); cbn [fst FreeItem.itemDiscount]; lra.
Qed.

Lemma bxGy_fold_sum (items : list Item.t) (n : Z) (get : list Req.t)
    (a : Q) (fs : list FreeItem.t) :
  ((fold_left (bxGyStep items n) get (a, fs)).1
   == a + sumOf (fun g => FreeItem.itemDiscount (freeItemFor items n g)) get)%Q.
Proof.
  revert a fs. induction get as [|g get IH]; intros a fs; cbn [fold_left sumOf].
  - simpl. lra.
  - pose proof (bxGyStep_fst items n (a, fs) g) as Hs.
    destruct (bxGyStep items n (a, fs) g) as [a' fs'].
    rewrite IH. cbn [fst] in Hs. lra.
Qed.

Lemma sumOf_ext {A : Type} (f g : A -> Q) (l : list A) :
  (forall x, f x = g x) -> sumOf f l = sumOf g l.
Proof.
  intros H. induction l as [|x l IH]; simpl; [reflexivity|].
  rewrite H, IH. reflexivity.
Qed.

(** The map built by the check holds, for every product, the quantity of
    the last line that carries it. *)
Lemma cartProducts_lastQuantity (items : list Item.t) (productId : Z) :
  buildCartProducts items !! productId = lastQuantity items productId.
Proof.
  unfold lastQuantity, linesWith, buildCartProducts.
  induction items as [|x l IH] using rev_ind; [reflexivity|].
  rewrite fold_left_app, List.filter_app. cbn [fold_left List.filter].
  destruct (Z.eqb_spec (Item.productId x) productId) as [Heq|Hne].
  - rewrite Heq, lookup_insert_eq, last_snoc. reflexivity.
  - rewrite lookup_insert_ne by exact Hne. rewrite app_nil_r. exact IH.
Qed.

(** [find] returns the first line that carries the product. *)
Lemma findItem_firstLine (items : list Item.t) (productId : Z) :
  findItem productId items = firstLine items productId.
Proof.
  unfold findItem, firstLine, linesWith.
  induction items as [|x l IH]; [reflexivity|]. cbn [List.find List.filter].
  destruct (Item.productId x =? productId); [reflexivity | exact IH].
Qed.

Lemma buyLoop_runningLeast (items : list Item.t) (buy : list Req.t) (acc : Z) :
  fold_left (buyStep (buildCartProducts items)) buy acc
  = fold_left runningLeast (List.map (lastLinePossible items) buy) acc.
Proof.
  revert acc. induction buy as [|r buy IH]; intros acc; cbn [fold_left List.map];
    [reflexivity|].
  rewrite <- IH. f_equal.
  unfold buyStep, runningLeast, lastLinePossible.
  rewrite cartProducts_lastQuantity. reflexivity.
Qed.

Lemma last_below_sum (lines : list Item.t) :
  Forall (fun item => 0 < Item.quantity item) lines ->
  lines <> [] ->
  exists x,
    last lines = Some x /\
    Item.quantity x
    <= fold_right (fun item total => Item.quantity item + total) 0 lines /\
    ((2 <= length lines)%nat ->
     Item.quantity x
     < fold_right (fun item total => Item.quantity item + total) 0 lines).
Proof.
  induction 1 as [|a rest Ha Hrest IH]; intros Hne; [contradiction|].
  destruct rest as [|b rest'].
  - exists a. split; [reflexivity|]. cbn [fold_right length].
    split; [lia | intros H; lia].
  - destruct IH as (x & Hx & Hle & _); [discriminate|].
    exists x. split; [exact Hx|]. cbn [fold_right] in *.
    split; [lia | intros _; lia].
Qed.

(** C10.  For a BxGy coupon that passes the common checks, and every cart:
    the map the check builds holds for each product the quantity of the
    last line carrying it, which on a validated cart with two or more such
    lines is less than the sum of their quantities; the number of
    applications is computed from these last-line quantities alone, and
    decides between "Insufficient quantity of buy products" and an
    applicable result; and the discount of an applicable coupon is the sum,
    over the get entries, of the price of the first line carrying the
    product times the free quantity allowed by that line, later lines of
    the product adding nothing. *)
Theorem bxgy_duplicate_lines (now : Z) (coupon : Coupon.t) (items : list Item.t)
    (buy get : list Req.t) :
  Coupon.type coupon = BXGY ->
  isApplicable now coupon = true ->
  belowMinimum coupon (calculateCartTotal (cartOf items)) = false ->
  Coupon.buyProducts coupon = Some buy ->
  buy <> [] ->
  Coupon.getProducts coupon = Some get ->
  get <> [] ->
  let n := Z.min (fold_left runningLeast (List.map (lastLinePossible items) buy) 0)
                 (orZ (Coupon.repetitionLimit coupon) 1) in
  (forall productId,
     buildCartProducts items !! productId = lastQuantity items productId) /\
  (forall productId,
     validCart items = true ->
     (2 <= length (linesWith productId items))%nat ->
     exists q,
       lastQuantity items productId = Some q /\
       q < summedQuantity items productId) /\
  (n = 0 ->
   isCouponApplicable now coupon (cartOf items)
   = Ok (Inapplicable [Txt "Insufficient quantity of buy products"]) /\
   exists discountResult,
     calculateDiscount now coupon (cartOf items) = Ok discountResult /\
     DiscountResult.discount discountResult = 0%Q) /\
  (n <> 0 ->
   isCouponApplicable now coupon (cartOf items)
   = Ok (ApplicableBxGy n (buildCartProducts items)) /\
   exists discountResult,
     calculateDiscount now coupon (cartOf items) = Ok discountResult /\
     DiscountResult.maxApplications discountResult = Some n /\
     (DiscountResult.discount discountResult
      == sumOf (firstLineDiscount items n) get)%Q).
Proof.
  intros Hty Happ Hmin Hb Hbn Hg Hgn.
  assert (nonEmpty (Some buy) = true) as Hb1
      by (destruct buy; [contradiction | reflexivity]).
  assert (nonEmpty (Some get) = true) as Hg1
      by (destruct get; [contradiction | reflexivity]).
  intros n.
  assert (isCouponApplicable now coupon (cartOf items)
          = if n =? 0
            then Ok (Inapplicable [Txt "Insufficient quantity of buy products"])
            else Ok (ApplicableBxGy n (buildCartProducts items))) as Ha.
  { unfold isCouponApplicable. rewrite Happ, Hmin, Hty. cbn [negb].
    unfold checkBxGyApplicability. rewrite Hb, Hg, Hb1, Hg1.
    cbn [negb orb cartOf cartItems mbind outcome_bind default from_option id].
    rewrite buyLoop_runningLeast. reflexivity. }
  split; [apply cartProducts_lastQuantity|]. split; [|split].
  - intros productId Hv Hlen. unfold lastQuantity, summedQuantity.
    destruct (last_below_sum (linesWith productId items)) as (x & Hx & _ & Hlt).
    + apply List.Forall_forall. intros item Hin. apply filter_In in Hin.
      apply validCart_Forall in Hv. rewrite List.Forall_forall in Hv.
      apply validLine_pos. apply Hv. tauto.
    + intros E. rewrite E in Hlen. simpl in Hlen. lia.
    + exists (Item.quantity x). rewrite Hx. split; [reflexivity|]. apply Hlt. exact Hlen.
  - intros Hn. rewrite Hn in Ha. cbn [Z.eqb] in Ha. split; [exact Ha|].
    unfold calculateDiscount. rewrite Ha. cbn [mbind outcome_bind].
    eexists. split; reflexivity.
  - intros Hn. apply Z.eqb_neq in Hn. rewrite Hn in Ha. split; [exact Ha|].
    unfold calculateDiscount. rewrite Ha. cbn [mbind outcome_bind]. rewrite Hty.
    cbn [calculateBxGyDiscount]. rewrite Hg.
    destruct get as [|g get']; [contradiction|].
    cbn [cartItems cartOf mbind outcome_bind].
    pose proof (bxGy_fold_sum items n (g :: get') 0%Q []) as H1.
    destruct (fold_left (bxGyStep items n) (g :: get') (0%Q, [])) as [total fs].
    eexists. split; [reflexivity|]. split; [reflexivity|].
    cbn [DiscountResult.discount fst] in *. rewrite H1, Qplus_0_l.
    rewrite (sumOf_ext _ (firstLineDiscount items n)); [reflexivity|].
    intros r. unfold freeItemFor, firstLineDiscount. rewrite findItem_firstLine.
    destruct (firstLine items (Req.productId r)); reflexivity.
Qed.

(** Three of product 101 on two lines ending with a line of one: a
    requirement of two does not fit.  Product 201 on two lines: the first,
    with one piece at 100, is the one that is set free. *)
Lemma bxgy_duplicate_lines_holds :
  (buildCartProducts splitLines !! 101 = Some 1 /\
   summedQuantity splitLines 101 = 3) /\
  isCouponApplicable 0 buyTwoGetOne (cartOf splitLines)
  = Ok (Inapplicable [Txt "Insufficient quantity of buy products"]) /\
  exists discountResult,
    calculateDiscount 0 buyOneGetOne (cartOf repeatedLines) = Ok discountResult /\
    (DiscountResult.discount discountResult == 100)%Q.
Proof.
  assert ([Req.mk 101 2] <> []) as Hb2 by discriminate.
  assert ([Req.mk 101 1] <> []) as Hb1 by discriminate.
  assert ([Req.mk 201 1] <> []) as Hg by discriminate.
  pose proof (bxgy_duplicate_lines 0 buyTwoGetOne splitLines
                [Req.mk 101 2] [Req.mk 201 1]
                eq_refl eq_refl eq_refl eq_refl Hb2 eq_refl Hg) as Hsplit.
  pose proof (bxgy_duplicate_lines 0 buyOneGetOne repeatedLines
                [Req.mk 101 1] [Req.mk 201 1]
                eq_refl eq_refl eq_refl eq_refl Hb1 eq_refl Hg) as Hrep.
  cbv zeta in Hsplit, Hrep.
  destruct Hsplit as (Hmap & _ & Hzero & _).
  destruct Hrep as (_ & _ & _ & Hpos).
  split; [split; [rewrite Hmap; reflexivity | reflexivity]|].
  split; [apply Hzero; reflexivity|].
  destruct Hpos as (_ & discountResult & Hdr & _ & Hd);
    [vm_compute; discriminate|].
  exists discountResult. split; [exact Hdr|]. rewrite Hd. vm_compute. reflexivity.
Defined.

(** ** Ranking *)

Section Sorting.
Context {A : Type} (cmp : A -> A -> Q).

Lemma insertBy_perm (x : A) (l : list A) :
  Permutation (insertBy cmp x l) (x :: l).
Proof.
  induction l as [|y l IH]; simpl; [reflexivity|].
  destruct (positiveQ (cmp x y)); [|reflexivity].
  rewrite IH. apply perm_swap.
Qed.

Lemma sortBy_perm (l : list A) : Permutation (sortBy cmp l) l.
Proof.
  induction l as [|x l IH]; simpl; [reflexivity|].
  rewrite insertBy_perm, IH. reflexivity.
Qed.

(** Insertion only moves an element past elements it sorts strictly
    after, so a class of elements no two of which sort strictly apart
    keeps its order. *)
Lemma insertBy_filter (p : A -> bool) (x : A) (l : list A) :
  (forall y, p x = true -> p y = true -> positiveQ (cmp x y) = false) ->
  List.filter p (insertBy cmp x l) = List.filter p (x :: l).
Proof.
  intros Hp. induction l as [|y l IH]; simpl; [reflexivity|].
  destruct (positiveQ (cmp x y)) eqn:E; [|reflexivity].
  simpl. rewrite IH. simpl.
  destruct (p x) eqn:Ex, (p y) eqn:Ey; try reflexivity.
  rewrite (Hp y eq_refl Ey) in E. discriminate.
Qed.

Lemma sortBy_filter (p : A -> bool) (l : list A) :
  (forall x y, p x = true -> p y = true -> positiveQ (cmp x y) = false) ->
  List.filter p (sortBy cmp l) = List.filter p l.
Proof.
  intros Hp. induction l as [|x l IH]; simpl; [reflexivity|].
  rewrite insertBy_filter by (apply Hp). simpl. rewrite IH. reflexivity.
Qed.
End Sorting.

Lemma insertBy_descending (x : Ranked.t) (l : list Ranked.t) :
  StronglySorted descending l ->
  StronglySorted descending (insertBy byDiscountDesc x l).
Proof.
  induction 1 as [|y l Hl IH Hy]; simpl.
  - repeat constructor.
  - destruct (positiveQ (byDiscountDesc x y)) eqn:E.
    + apply positiveQ_lt in E. unfold byDiscountDesc in E.
      constructor; [exact IH|].
      rewrite List.Forall_forall. intros z Hz.
      apply (Permutation_in _ (insertBy_perm byDiscountDesc x l)) in Hz.
      destruct Hz as [<-|Hz].
      * unfold descending. lra.
      * rewrite List.Forall_forall in Hy. apply Hy. exact Hz.
    + apply positiveQ_false in E. unfold byDiscountDesc in E.
      constructor; [constructor; assumption|].
      constructor; [unfold descending; lra|].
      eapply Forall_impl; [exact Hy|].
      unfold descending. intros z Hz. lra.
Qed.

Lemma sortBy_descending (l : list Ranked.t) :
  StronglySorted descending (sortBy byDiscountDesc l).
Proof.
  induction l as [|x l IH]; simpl; [constructor|].
  apply insertBy_descending. exact IH.
Qed.

Lemma sortBy_stable (d : Q) (l : list Ranked.t) :
  List.filter (sameDiscount d) (sortBy byDiscountDesc l)
  = List.filter (sameDiscount d) l.
Proof.
  apply sortBy_filter. intros x y Hx Hy.
  unfold sameDiscount in *. apply Qeq_bool_iff in Hx, Hy.
  apply positiveQ_false. unfold byDiscountDesc. lra.
Qed.

Lemma rank_loop (now : Z) (c : cart) (coupons : list Coupon.t) (acc : list Ranked.t) :
  (forall coupon, In coupon coupons ->
                  exists discountResult,
                    calculateDiscount now coupon c = Ok discountResult) ->
  fold_left (rankStep now c) coupons (Ok acc)
  = Ok (acc ++ candidates now c coupons).
Proof.
  revert acc. induction coupons as [|coupon l IH]; intros acc Hall;
    cbn [fold_left].
  - unfold candidates. simpl. rewrite app_nil_r. reflexivity.
  - destruct (Hall coupon (or_introl eq_refl)) as [dr Hdr].
    assert (rankStep now c (Ok acc) coupon
            = Ok (acc ++ match candidate now c coupon with
                         | Some r => [r]
                         | None => []
                         end)) as ->.
    { unfold rankStep, candidate. simpl. rewrite Hdr. simpl.
      destruct (positiveQ (DiscountResult.discount dr)); [reflexivity|].
      rewrite app_nil_r. reflexivity. }
    rewrite IH by (intros; apply Hall; right; assumption).
    unfold candidates. simpl.
    destruct (candidate now c coupon); simpl; rewrite <- app_assoc; reflexivity.
Qed.

Lemma candidates_spec (now : Z) (c : cart) (coupons : list Coupon.t) (r : Ranked.t) :
  In r (candidates now c coupons) <->
  exists coupon discountResult,
    In coupon coupons /\
    calculateDiscount now coupon c = Ok discountResult /\
    (0 < DiscountResult.discount discountResult)%Q /\
    r = rankedOf coupon discountResult.
Proof.
  unfold candidates. rewrite <- list_elem_of_In, list_elem_of_omap. split.
  - intros (coupon & Hin & Hc). apply list_elem_of_In in Hin.
    unfold candidate in Hc.
    destruct (calculateDiscount now coupon c) as [dr|] eqn:E; [|discriminate].
    destruct (positiveQ (DiscountResult.discount dr)) eqn:Ep; [|discriminate].
    injection Hc as <-. apply positiveQ_lt in Ep. exists coupon, dr. auto.
  - intros (coupon & dr & Hin & Hdr & Hpos & ->).
    exists coupon. split; [apply list_elem_of_In; exact Hin|].
    unfold candidate. rewrite Hdr.
    apply positiveQ_lt in Hpos. rewrite Hpos. reflexivity.
Qed.

(** C9.  For every list of retrieved coupons and every cart,
    [getApplicableCoupons] returns exactly the entries of the coupons whose
    computed discount is positive, each as often as its coupon occurs, in
    descending order of discount, entries of equal discount in the order of
    the input; coupons that yield 50, 200 and 0 come back as the one of 200
    followed by the one of 50. *)
Theorem ranking_filtered_sorted_stable
    (now : Z) (items : list Item.t) (coupons : list Coupon.t) :
  (exists ranked,
     getApplicableCoupons now (cartOf items) coupons = Ok ranked /\
     (forall r,
        In r ranked <->
        exists coupon discountResult,
          In coupon coupons /\
          calculateDiscount now coupon (cartOf items) = Ok discountResult /\
          (0 < DiscountResult.discount discountResult)%Q /\
          r = rankedOf coupon discountResult) /\
     Permutation ranked (candidates now (cartOf items) coupons) /\
     StronglySorted descending ranked /\
     (forall d, List.filter (sameDiscount d) ranked
                = List.filter (sameDiscount d)
                              (candidates now (cartOf items) coupons))) /\
  (exists ranked,
     getApplicableCoupons now (cartOf thousandCart)
                          [fivePercent; twentyPercent; switchedOff] = Ok ranked /\
     List.map Ranked.code ranked
     = [Coupon.code twentyPercent; Coupon.code fivePercent] /\
     Forall2 Qeq (List.map Ranked.discount ranked) [200%Q; 50%Q]).
Proof.
  split.
  - exists (sortBy byDiscountDesc (candidates now (cartOf items) coupons)).
    split.
    { unfold getApplicableCoupons.
      rewrite rank_loop by (intros; apply calculateDiscount_total).
      reflexivity. }
    split; [|split; [apply sortBy_perm|split;
                      [apply sortBy_descending | intros d; apply sortBy_stable]]].
    intros r. rewrite <- candidates_spec. split; intros H.
    + eapply Permutation_in; [apply sortBy_perm | exact H].
    + eapply Permutation_in; [symmetry; apply sortBy_perm | exact H].
  - eexists. split; [vm_compute; reflexivity|].
    split; [reflexivity|].
    repeat constructor.
Qed.

(** ** Cells and allocation *)

Lemma alloc_spec (h h1 : heap) (c : cell) (l : loc) :
  alloc h c = (h1, l) -> h !! l = None /\ h1 = <[l := c]> h.
Proof.
  unfold alloc. intros [= <- <-].
  split; [apply not_elem_of_dom, is_fresh | reflexivity].
Qed.

Lemma fresh_weaken (h0 h : heap) (l : loc) :
  h0 ⊆ h -> h !! l = None -> h0 !! l = None.
Proof. intros Hsub Hl. eapply lookup_weaken_None; eassumption. Qed.

Lemma readItem_weaken (h h1 : heap) (l : loc) (item : Item.t) :
  h ⊆ h1 -> readItem h l = Some item -> readItem h1 l = Some item.
Proof.
  unfold readItem. intros Hsub.
  destruct (h !! l) as [[]|] eqn:E; try discriminate.
  rewrite (lookup_weaken _ _ _ _ E Hsub). auto.
Qed.

Lemma readArray_weaken (h h1 : heap) (l : loc) (elems : list loc) :
  h ⊆ h1 -> readArray h l = Some elems -> readArray h1 l = Some elems.
Proof.
  unfold readArray. intros Hsub.
  destruct (h !! l) as [[]|] eqn:E; try discriminate.
  rewrite (lookup_weaken _ _ _ _ E Hsub). auto.
Qed.

Lemma readCartObj_weaken (h h1 : heap) (l : loc) (c : CartObj.t) :
  h ⊆ h1 -> readCartObj h l = Some c -> readCartObj h1 l = Some c.
Proof.
  unfold readCartObj. intros Hsub.
  destruct (h !! l) as [[]|] eqn:E; try discriminate.
  rewrite (lookup_weaken _ _ _ _ E Hsub). auto.
Qed.

Lemma readItems_weaken (h h1 : heap) (a : loc) (items : list Item.t) :
  h ⊆ h1 -> readItems h a = Some items -> readItems h1 a = Some items.
Proof.
  unfold readItems. intros Hsub.
  destruct (readArray h a) as [elems|] eqn:E; simpl; [|discriminate].
  rewrite (readArray_weaken _ _ _ _ Hsub E). simpl.
  rewrite !mapM_Some. intros H.
  eapply Forall2_impl; [exact H|].
  intros e item. apply readItem_weaken. exact Hsub.
Qed.

(** A cart with an array of lines reads the same in every store that keeps
    the cells of the one it was read in. *)
Lemma readCart_weaken (h h1 : heap) (r : option loc) (items : list Item.t) :
  h ⊆ h1 -> readCart h r = cartOf items -> readCart h1 r = cartOf items.
Proof.
  intros Hsub. unfold readCart. destruct r as [l|]; [|discriminate].
  destruct (readCartObj h l) as [c|] eqn:E; [|discriminate].
  rewrite (readCartObj_weaken _ _ _ _ Hsub E).
  destruct (CartObj.items c) as [a|]; simpl; [|discriminate].
  destruct (readItems h a) as [its|] eqn:Ei; [|discriminate].
  intros [= <-]. rewrite (readItems_weaken _ _ _ _ Hsub Ei). reflexivity.
Qed.

Lemma readItem_insert_item (h : heap) (l k : loc) (item : Item.t) :
  readItem (<[l := ItemCell item]> h) k
  = if decide (l = k) then Some item else readItem h k.
Proof.
  unfold readItem. destruct (decide (l = k)) as [->|Hne].
  - rewrite lookup_insert_eq. reflexivity.
  - rewrite lookup_insert_ne by exact Hne. reflexivity.
Qed.

Lemma readItem_insert_other (h : heap) (l k : loc) (c : cell) (item : Item.t) :
  readItem h k = Some item -> readCartObj h l <> None \/ readArray h l <> None ->
  readItem (<[l := c]> h) k = Some item.
Proof.
  unfold readItem, readCartObj, readArray. intros Hk Hl.
  destruct (decide (l = k)) as [->|Hne].
  - destruct (h !! k) as [[]|]; try discriminate; destruct Hl; congruence.
  - rewrite lookup_insert_ne by exact Hne. exact Hk.
Qed.

Lemma readArray_insert_other (h : heap) (l k : loc) (c : cell) (elems : list loc) :
  readArray h k = Some elems -> readCartObj h l <> None \/ readItem h l <> None ->
  readArray (<[l := c]> h) k = Some elems.
Proof.
  unfold readItem, readCartObj, readArray. intros Hk Hl.
  destruct (decide (l = k)) as [->|Hne].
  - destruct (h !! k) as [[]|]; try discriminate; destruct Hl; congruence.
  - rewrite lookup_insert_ne by exact Hne. exact Hk.
Qed.

Lemma readCartObj_insert_other (h : heap) (l k : loc) (c : cell) (o : CartObj.t) :
  readCartObj h k = Some o -> readItem h l <> None \/ readArray h l <> None ->
  readCartObj (<[l := c]> h) k = Some o.
Proof.
  unfold readItem, readCartObj, readArray. intros Hk Hl.
  destruct (decide (l = k)) as [->|Hne].
  - destruct (h !! k) as [[]|]; try discriminate; destruct Hl; congruence.
  - rewrite lookup_insert_ne by exact Hne. exact Hk.
Qed.

Lemma readCartObj_insert_cart (h : heap) (l : loc) (c : CartObj.t) :
  readCartObj (<[l := CartCell c]> h) l = Some c.
Proof. unfold readCartObj. rewrite lookup_insert_eq. reflexivity. Qed.

Lemma allocItems_spec (items : list Item.t) (h h1 : heap) (elems : list loc) :
  allocItems h items = (h1, elems) ->
  h ⊆ h1 /\
  Forall2 (fun e item => h !! e = None /\ readItem h1 e = Some item) elems items.
Proof.
  revert h h1 elems. induction items as [|item rest IH]; intros h h1 elems;
    cbn [allocItems].
  - intros [= <- <-]. split; [reflexivity | constructor].
  - destruct (alloc h (ItemCell item)) as [h' l] eqn:Ea.
    destruct (allocItems h' rest) as [h2 ls] eqn:Er.
    intros [= <- <-].
    destruct (alloc_spec _ _ _ _ Ea) as [Hl ->].
    destruct (IH _ _ _ Er) as [Hsub Hall].
    assert (h ⊆ <[l := ItemCell item]> h) as Hstep
        by (apply insert_subseteq; exact Hl).
    split; [etransitivity; eassumption|].
    constructor.
    + split; [exact Hl|]. apply (readItem_weaken _ _ _ _ Hsub).
      unfold readItem. rewrite lookup_insert_eq. reflexivity.
    + eapply Forall2_impl; [exact Hall|].
      intros e it [He Hr]. split; [|exact Hr].
      eapply fresh_weaken; eassumption.
Qed.

(** The copy made by [jsonClone] is a copy in the sense of [copied]. *)
Lemma jsonClone_spec (h h1 : heap) (r updatedCart : option loc) :
  jsonClone h r = (h1, updatedCart) ->
  match updatedCart with
  | None => h1 = h /\ readCart h r = CartNull
  | Some l' => exists src, readCart h r = CartObject src /\ copied h h1 l' src
  end.
Proof.
  unfold jsonClone, readCart. destruct r as [l|]; [|intros [= <- <-]; auto].
  destruct (readCartObj h l) as [c|] eqn:Ec; [|intros [= <- <-]; auto].
  destruct (CartObj.items c ≫= readItems h) as [items|] eqn:Ei.
  - destruct (allocItems h items) as [h' elems'] eqn:Ea.
    destruct (alloc h' (ArrayCell elems')) as [h2 a'] eqn:Eb.
    destruct (alloc h2 _) as [h3 l'] eqn:Ed.
    intros [= <- <-].
    destruct (allocItems_spec _ _ _ _ Ea) as [Hsub1 Hall].
    destruct (alloc_spec _ _ _ _ Eb) as [Ha' ->].
    destruct (alloc_spec _ _ _ _ Ed) as [Hl' ->].
    assert (h' ⊆ <[a' := ArrayCell elems']> h') as Hsub2
        by (apply insert_subseteq; exact Ha').
    assert (<[a' := ArrayCell elems']> h' ⊆ <[l' := CartCell
              (CartObj.mk (Some a') (CartObj.totalPrice c) (CartObj.totalDiscount c)
                          (CartObj.finalPrice c) (CartObj.appliedCoupon c))]>
              (<[a' := ArrayCell elems']> h')) as Hsub3
        by (apply insert_subseteq; exact Hl').
    exists (Some items). split; [reflexivity|].
    split; [etransitivity; [exact Hsub1|]; etransitivity; eassumption|].
    split; [eapply fresh_weaken; [|exact Hl']; etransitivity; eassumption|].
    eexists. split; [apply readCartObj_insert_cart|]. simpl.
    exists a', elems'. split; [reflexivity|].
    split; [eapply fresh_weaken; eassumption|].
    split.
    + apply (readArray_weaken _ _ _ _ Hsub3). unfold readArray.
      rewrite lookup_insert_eq. reflexivity.
    + eapply Forall2_impl; [exact Hall|].
      intros e it [He Hr]. split; [exact He|]. exists it. split; [|reflexivity].
      apply (readItem_weaken h'); [etransitivity; eassumption | exact Hr].
  - destruct (alloc h _) as [h' l'] eqn:Ea. intros [= <- <-].
    destruct (alloc_spec _ _ _ _ Ea) as [Hl' ->].
    exists None. split; [reflexivity|].
    split; [apply insert_subseteq; exact Hl'|]. split; [exact Hl'|].
    eexists. split; [apply readCartObj_insert_cart|]. reflexivity.
Qed.

(** ** Writes of [applyCouponToCart] land in the copy *)

Lemma Forall2_In_l {A B : Type} (P : A -> B -> Prop) (l : list A) (k : list B) (x : A) :
  Forall2 P l k -> In x l -> exists y, P x y.
Proof.
  induction 1 as [|a b l k Hab _ IH]; intros Hin; [destruct Hin|].
  destruct Hin as [<-|Hin]; [exists b; exact Hab | apply IH; exact Hin].
Qed.

Lemma findItemLoc_some (h : heap) (productId : Z) (elems : list loc) (l : loc) :
  findItemLoc h productId elems = Some l ->
  In l elems /\ exists item, readItem h l = Some item.
Proof.
  unfold findItemLoc. intros H. apply find_some in H. destruct H as [Hin Hp].
  split; [exact Hin|]. destruct (readItem h l) as [item|]; [eauto | discriminate].
Qed.

Lemma copied_items (h0 h : heap) (l' : loc) (src : option (list Item.t))
    (elems : list loc) :
  copied h0 h l' src ->
  updatedCartItems h (Some l') = Ok elems ->
  Forall (fun e => h0 !! e = None) elems.
Proof.
  intros (_ & _ & c' & Hc & Hsrc). unfold updatedCartItems. simpl.
  rewrite Hc. destruct src as [lines|].
  - destruct Hsrc as (a' & elems' & -> & _ & Ha & Hall). simpl. rewrite Ha.
    intros [= <-]. apply List.Forall_forall. intros e He.
    destruct (Forall2_In_l _ _ _ _ Hall He) as (line & Hfresh & _). exact Hfresh.
  - rewrite Hsrc. discriminate.
Qed.

Lemma copied_item_update (h0 h : heap) (l' : loc) (src : option (list Item.t))
    (l : loc) (item item2 : Item.t) :
  copied h0 h l' src ->
  readItem h l = Some item ->
  h0 !! l = None ->
  core item2 = core item ->
  copied h0 (<[l := ItemCell item2]> h) l' src.
Proof.
  intros (Hsub & Hl' & c' & Hc & Hsrc) Hitem Hfresh Hcore.
  assert (readItem h l <> None) as Hkind by congruence.
  split; [apply insert_subseteq_r; assumption|]. split; [exact Hl'|].
  exists c'. split; [apply readCartObj_insert_other; auto|].
  destruct src as [lines|]; [|exact Hsrc].
  destruct Hsrc as (a' & elems' & Hi & Ha' & Ha & Hall).
  exists a', elems'. repeat split; try assumption.
  - apply readArray_insert_other; auto.
  - eapply Forall2_impl; [exact Hall|].
    intros e line (He & it & Hit & Hco). split; [exact He|].
    rewrite readItem_insert_item. destruct (decide (l = e)) as [<-|Hne].
    + exists item2. split; [reflexivity|]. congruence.
    + exists it. auto.
Qed.

Lemma copied_cart_update (h0 h : heap) (l' : loc) (src : option (list Item.t))
    (c c2 : CartObj.t) :
  copied h0 h l' src ->
  readCartObj h l' = Some c ->
  CartObj.items c2 = CartObj.items c ->
  copied h0 (<[l' := CartCell c2]> h) l' src.
Proof.
  intros (Hsub & Hl' & c' & Hc & Hsrc) Hread Hitems.
  assert (c' = c) as -> by congruence.
  assert (readCartObj h l' <> None) as Hkind by congruence.
  split; [apply insert_subseteq_r; assumption|]. split; [exact Hl'|].
  exists c2. split; [apply readCartObj_insert_cart|].
  rewrite Hitems. destruct src as [lines|]; [|exact Hsrc].
  destruct Hsrc as (a' & elems' & Hi & Ha' & Ha & Hall).
  exists a', elems'. repeat split; try assumption.
  - apply readArray_insert_other; auto.
  - eapply Forall2_impl; [exact Hall|].
    intros e line (He & it & Hit & Hco). split; [exact He|].
    exists it. split; [|exact Hco]. apply readItem_insert_other; auto.
Qed.

Lemma addItemDiscount_core (item : Item.t) (d : Q) :
  core (addItemDiscount item d) = core item.
Proof. reflexivity. Qed.

Lemma setFreeQuantity_core (item : Item.t) (n : Z) :
  core (setFreeQuantity item n) = core item.
Proof. reflexivity. Qed.

Lemma applyItemDiscount_copied (h0 h h2 : heap) (l' : loc)
    (src : option (list Item.t)) (e : ItemDiscount.t) :
  copied h0 h l' src ->
  applyItemDiscount (Some l') (Ok h) e = Ok h2 ->
  copied h0 h2 l' src.
Proof.
  intros Hcop. unfold applyItemDiscount, mbind, outcome_bind.
  destruct (updatedCartItems h (Some l')) as [elems|] eqn:Eu; [|discriminate].
  pose proof (copied_items _ _ _ _ _ Hcop Eu) as Hfresh.
  destruct (findItemLoc h _ elems) as [l|] eqn:Ef; [|intros [= <-]; exact Hcop].
  destruct (findItemLoc_some _ _ _ _ Ef) as [Hin _].
  destruct (readItem h l) as [item|] eqn:Er; intros [= <-]; [|exact Hcop].
  eapply copied_item_update; try eassumption.
  - rewrite List.Forall_forall in Hfresh. apply Hfresh. exact Hin.
  - reflexivity.
Qed.

Lemma applyFreeItem_copied (h0 h h2 : heap) (l' : loc)
    (src : option (list Item.t)) (e : FreeItem.t) :
  copied h0 h l' src ->
  applyFreeItem (Some l') (Ok h) e = Ok h2 ->
  copied h0 h2 l' src.
Proof.
  intros Hcop. unfold applyFreeItem, mbind, outcome_bind.
  destruct (updatedCartItems h (Some l')) as [elems|] eqn:Eu; [|discriminate].
  pose proof (copied_items _ _ _ _ _ Hcop Eu) as Hfresh.
  destruct (findItemLoc h _ elems) as [l|] eqn:Ef; [|intros [= <-]; exact Hcop].
  destruct (findItemLoc_some _ _ _ _ Ef) as [Hin _].
  destruct (readItem h l) as [item|] eqn:Er; [|intros [= <-]; exact Hcop].
  destruct (positiveQ _); intros [= <-]; [|exact Hcop].
  eapply copied_item_update; try eassumption.
  - rewrite List.Forall_forall in Hfresh. apply Hfresh. exact Hin.
  - reflexivity.
Qed.

Section Loops.
Context {E : Type} (step : outcome heap -> E -> outcome heap).
Context (h0 : heap) (l' : loc) (src : option (list Item.t)).
Hypothesis step_throw : forall err e, step (Throw err) e = Throw err.
Hypothesis step_copied :
  forall h h2 e, copied h0 h l' src -> step (Ok h) e = Ok h2 -> copied h0 h2 l' src.

Lemma loop_throw (es : list E) (err : exn) :
  fold_left step es (Throw err) = Throw err.
Proof.
  induction es as [|e es IH]; simpl; [reflexivity|].
  rewrite step_throw. exact IH.
Qed.

Lemma loop_copied (es : list E) (h h2 : heap) :
  copied h0 h l' src ->
  fold_left step es (Ok h) = Ok h2 ->
  copied h0 h2 l' src.
Proof.
  revert h. induction es as [|e es IH]; intros h Hcop; simpl.
  - intros [= <-]. exact Hcop.
  - destruct (step (Ok h) e) as [h1|err] eqn:Es.
    + apply IH. eapply step_copied; eassumption.
    + rewrite loop_throw. discriminate.
Qed.

Hypothesis step_progress :
  forall h e, copied h0 h l' src -> exists h2, step (Ok h) e = Ok h2.

Lemma loop_progress (es : list E) (h : heap) :
  copied h0 h l' src -> exists h2, fold_left step es (Ok h) = Ok h2.
Proof.
  revert h. induction es as [|e es IH]; intros h Hcop; simpl.
  - eexists; reflexivity.
  - destruct (step_progress h e Hcop) as [h1 Hs]. rewrite Hs.
    apply IH. eapply step_copied; eassumption.
Qed.
End Loops.

Lemma updatedCartItems_progress (h0 h : heap) (l' : loc) (lines : list Item.t) :
  copied h0 h l' (Some lines) ->
  exists elems, updatedCartItems h (Some l') = Ok elems.
Proof.
  intros (_ & _ & c' & Hc & a' & elems' & Hi & _ & Ha & _).
  unfold updatedCartItems. simpl. rewrite Hc, Hi. simpl. rewrite Ha. eauto.
Qed.

Lemma applyItemDiscount_progress (h0 h : heap) (l' : loc) (lines : list Item.t)
    (e : ItemDiscount.t) :
  copied h0 h l' (Some lines) ->
  exists h2, applyItemDiscount (Some l') (Ok h) e = Ok h2.
Proof.
  intros Hcop. destruct (updatedCartItems_progress _ _ _ _ Hcop) as [elems Hu].
  unfold applyItemDiscount, mbind, outcome_bind. rewrite Hu.
  destruct (findItemLoc h _ elems) as [l|]; [|eauto].
  destruct (readItem h l); eauto.
Qed.

Lemma applyFreeItem_progress (h0 h : heap) (l' : loc) (lines : list Item.t)
    (e : FreeItem.t) :
  copied h0 h l' (Some lines) ->
  exists h2, applyFreeItem (Some l') (Ok h) e = Ok h2.
Proof.
  intros Hcop. destruct (updatedCartItems_progress _ _ _ _ Hcop) as [elems Hu].
  unfold applyFreeItem, mbind, outcome_bind. rewrite Hu.
  destruct (findItemLoc h _ elems) as [l|]; [|eauto].
  destruct (readItem h l); [|eauto]. destruct (positiveQ _); eauto.
Qed.

Lemma setTotals_copied (h0 h h2 : heap) (l' : loc) (src : option (list Item.t))
    (cartTotal discount : Q) :
  copied h0 h l' src ->
  setTotals h (Some l') cartTotal discount = Ok h2 ->
  copied h0 h2 l' src /\
  exists c, readCartObj h2 l' = Some c /\
            CartObj.totalPrice c = Some cartTotal /\
            CartObj.totalDiscount c = Some discount /\
            CartObj.finalPrice c = Some (cartTotal - discount)%Q.
Proof.
  intros Hcop. unfold setTotals.
  destruct (readCartObj h l') as [c|] eqn:Ec; [|discriminate].
  intros [= <-]. split.
  - eapply copied_cart_update; [exact Hcop | exact Ec | reflexivity].
  - eexists. split; [apply readCartObj_insert_cart|]. repeat split.
Qed.

Lemma setTotals_progress (h0 h : heap) (l' : loc) (src : option (list Item.t))
    (cartTotal discount : Q) :
  copied h0 h l' src ->
  exists h2, setTotals h (Some l') cartTotal discount = Ok h2.
Proof.
  intros (_ & _ & c' & Hc & _). unfold setTotals. rewrite Hc. eauto.
Qed.

Lemma setAppliedCoupon_copied (h0 h h2 : heap) (l' : loc)
    (src : option (list Item.t)) (s : Stamp.t) :
  copied h0 h l' src ->
  setAppliedCoupon h (Some l') s = Ok h2 ->
  copied h0 h2 l' src /\
  exists c c2, readCartObj h l' = Some c /\ readCartObj h2 l' = Some c2 /\
               CartObj.totalPrice c2 = CartObj.totalPrice c /\
               CartObj.totalDiscount c2 = CartObj.totalDiscount c /\
               CartObj.finalPrice c2 = CartObj.finalPrice c /\
               CartObj.appliedCoupon c2 = Some s.
Proof.
  intros Hcop. unfold setAppliedCoupon.
  destruct (readCartObj h l') as [c|] eqn:Ec; [|discriminate].
  intros [= <-]. split.
  - eapply copied_cart_update; [exact Hcop | exact Ec | reflexivity].
  - exists c. eexists. split; [reflexivity|].
    split; [apply readCartObj_insert_cart|]. repeat split.
Qed.

Lemma setAppliedCoupon_progress (h0 h : heap) (l' : loc)
    (src : option (list Item.t)) (s : Stamp.t) :
  copied h0 h l' src ->
  exists h2, setAppliedCoupon h (Some l') s = Ok h2.
Proof.
  intros (_ & _ & c' & Hc & _). unfold setAppliedCoupon. rewrite Hc. eauto.
Qed.

(** ** What a successful application returns *)

Lemma applyItemDiscount_throw (updatedCart : option loc) (err : exn)
    (e : ItemDiscount.t) :
  applyItemDiscount updatedCart (Throw err) e = Throw err.
Proof. reflexivity. Qed.

Lemma applyFreeItem_throw (updatedCart : option loc) (err : exn) (e : FreeItem.t) :
  applyFreeItem updatedCart (Throw err) e = Throw err.
Proof. reflexivity. Qed.

Lemma other_type_zero (now : Z) (coupon : Coupon.t) (c : cart)
    (discountResult : DiscountResult.t) :
  Coupon.type coupon = OTHER_TYPE ->
  calculateDiscount now coupon c = Ok discountResult ->
  DiscountResult.discount discountResult = 0%Q.
Proof.
  intros Hty. unfold calculateDiscount, isCouponApplicable. rewrite Hty.
  destruct (negb _); [intros [= <-]; reflexivity|].
  destruct (belowMinimum _ _); intros [= <-]; reflexivity.
Qed.

Lemma apply_finish (h0 h2 h' : heap) (l' : loc) (src : option (list Item.t))
    (s : Stamp.t) (cartTotal discount : Q) (updatedCart : option loc)
    (dr discountResult : DiscountResult.t) :
  copied h0 h2 l' src /\
  (exists c, readCartObj h2 l' = Some c /\
             CartObj.totalPrice c = Some cartTotal /\
             CartObj.totalDiscount c = Some discount /\
             CartObj.finalPrice c = Some (cartTotal - discount)%Q) ->
  match setAppliedCoupon h2 (Some l') s with
  | Ok h3 => Ok (h3, (Some l', dr))
  | Throw e => Throw e
  end = Ok (h', (updatedCart, discountResult)) ->
  updatedCart = Some l' /\ discountResult = dr /\
  copied h0 h' l' src /\
  exists c, readCartObj h' l' = Some c /\
            CartObj.totalPrice c = Some cartTotal /\
            CartObj.totalDiscount c = Some discount /\
            CartObj.finalPrice c = Some (cartTotal - discount)%Q /\
            CartObj.appliedCoupon c = Some s.
Proof.
  intros (Hc2 & c & Hrc & Htp & Htd & Hfp).
  destruct (setAppliedCoupon h2 _ _) as [h3|] eqn:Es; [|discriminate].
  intros [= <- <- <-].
  destruct (setAppliedCoupon_copied _ _ _ _ _ _ Hc2 Es)
    as (Hc3 & c0 & c3 & Hr0 & Hr3 & Ht1 & Ht2 & Ht3 & Hst).
  assert (c0 = c) as -> by congruence.
  split; [reflexivity|]. split; [reflexivity|]. split; [exact Hc3|].
  exists c3. split; [exact Hr3|]. repeat split; congruence.
Qed.

Lemma apply_success (now : Z) (h h' : heap) (couponRef : loc)
    (cartRef updatedCart : option loc) (discountResult : DiscountResult.t) :
  applyCouponToCart now h couponRef cartRef = Ok (h', (updatedCart, discountResult)) ->
  exists coupon l' src c,
    h !! couponRef = Some (CouponCell coupon) /\
    calculateDiscount now coupon (readCart h cartRef) = Ok discountResult /\
    ~ (DiscountResult.discount discountResult == 0)%Q /\
    updatedCart = Some l' /\
    readCart h cartRef = CartObject src /\
    copied h h' l' src /\
    readCartObj h' l' = Some c /\
    CartObj.totalPrice c = Some (calculateCartTotal (readCart h cartRef)) /\
    CartObj.totalDiscount c = Some (DiscountResult.discount discountResult) /\
    CartObj.finalPrice c
    = Some (calculateCartTotal (readCart h cartRef)
            - DiscountResult.discount discountResult)%Q /\
    CartObj.appliedCoupon c
    = Some (Stamp.mk (Coupon._id coupon) (Coupon.code coupon) (Coupon.type coupon)
                     (DiscountResult.discount discountResult)).
Proof.
  unfold applyCouponToCart.
  destruct (h !! couponRef) as [[| | |coupon]|] eqn:Ecp; try discriminate.
  unfold mbind, outcome_bind.
  destruct (calculateDiscount now coupon (readCart h cartRef)) as [dr|] eqn:Edr;
    [|discriminate].
  destruct (Qeq_bool (DiscountResult.discount dr) 0) eqn:Ez; [discriminate|].
  assert (~ (DiscountResult.discount dr == 0)%Q) as Hnz
      by (rewrite <- Qeq_bool_iff; congruence).
  destruct (jsonClone h cartRef) as [h1 uc] eqn:Ej.
  pose proof (jsonClone_spec _ _ _ _ Ej) as Hclone.
  destruct uc as [l'|].
  2:{ destruct (Coupon.type coupon); simpl;
      repeat match goal with
             | |- context [property ?v] => destruct (property v)
             | |- context [fold_left ?f ?l ?a] => destruct (fold_left f l a)
             end; discriminate. }
  destruct Hclone as (src & Hsrc & Hcop).
  match goal with
  | |- _ -> ?G =>
      assert (forall h2,
                copied h h2 l' src /\
                (exists c, readCartObj h2 l' = Some c /\
                   CartObj.totalPrice c
                   = Some (calculateCartTotal (readCart h cartRef)) /\
                   CartObj.totalDiscount c = Some (DiscountResult.discount dr) /\
                   CartObj.finalPrice c
                   = Some (calculateCartTotal (readCart h cartRef)
                           - DiscountResult.discount dr)%Q) ->
                match setAppliedCoupon h2 (Some l')
                        (Stamp.mk (Coupon._id coupon) (Coupon.code coupon)
                                  (Coupon.type coupon)
                                  (DiscountResult.discount dr)) with
                | Ok h3 => Ok (h3, (Some l', dr))
                | Throw e => Throw e
                end = Ok (h', (updatedCart, discountResult)) -> G) as Hfinish
  end.
  { intros h2 Hh2 Hfin.
    destruct (apply_finish _ _ _ _ _ _ _ _ _ _ _ Hh2 Hfin)
      as (-> & -> & Hc3 & c & Hr & Htp & Htd & Hfp & Hst).
    exists coupon, l', src, c.
    split; [reflexivity|]. split; [exact Edr|]. split; [exact Hnz|].
    split; [reflexivity|]. split; [exact Hsrc|]. split; [exact Hc3|].
    split; [exact Hr|]. repeat split; assumption. }
  revert Hfinish. destruct (Coupon.type coupon) eqn:Ety; intros Hfinish.
  - destruct (setTotals h1 _ _ _) as [h2|] eqn:Et; [|discriminate].
    apply Hfinish. eapply setTotals_copied; eassumption.
  - destruct (property (DiscountResult.itemDiscounts dr)) as [ids|]; [|discriminate].
    destruct (fold_left _ ids (Ok h1)) as [h1'|] eqn:Ef; [|discriminate].
    destruct (setTotals h1' _ _ _) as [h2|] eqn:Et; [|discriminate].
    apply Hfinish. eapply setTotals_copied; [|exact Et].
    eapply (loop_copied (applyItemDiscount (Some l'))); try eassumption.
    + apply applyItemDiscount_throw.
    + intros; eapply applyItemDiscount_copied; eassumption.
  - destruct (property (DiscountResult.freeItems dr)) as [fis|]; [|discriminate].
    destruct (fold_left _ fis (Ok h1)) as [h1'|] eqn:Ef; [|discriminate].
    destruct (setTotals h1' _ _ _) as [h2|] eqn:Et; [|discriminate].
    apply Hfinish. eapply setTotals_copied; [|exact Et].
    eapply (loop_copied (applyFreeItem (Some l'))); try eassumption.
    + apply applyFreeItem_throw.
    + intros; eapply applyFreeItem_copied; eassumption.
  - rewrite (other_type_zero _ _ _ _ Ety Edr) in Ez. discriminate.
Qed.

Lemma copied_lines (h0 h : heap) (l' : loc) (src : option (list Item.t)) :
  copied h0 h l' src ->
  Forall (fun l => h0 !! l = None) (footprint h (Some l')) /\
  List.map core (linesOf (readCart h (Some l')))
  = List.map core (linesOf (CartObject src)).
Proof.
  intros (_ & Hl' & c' & Hc & Hsrc). unfold footprint, readCart. rewrite Hc. simpl.
  destruct src as [lines|].
  - destruct Hsrc as (a' & elems' & -> & Ha' & Ha & Hall). simpl.
    unfold readItems. rewrite Ha. simpl.
    assert (Forall (fun l => h0 !! l = None) elems' /\
            exists its, mapM (readItem h) elems' = Some its /\
                        List.map core its = List.map core lines) as [Hf (its & -> & Hm)].
    { clear Ha. induction Hall as [|e line elems' lines (He & it & Hit & Hco) _ IH].
      - split; [constructor|]. exists []. split; reflexivity.
      - destruct IH as [Hf (its & Hmap & Hcore)]. split; [constructor; assumption|].
        exists (it :: its). simpl. rewrite Hit, Hmap. simpl.
        split; [reflexivity|]. congruence. }
    split; [|exact Hm]. repeat constructor; assumption.
  - rewrite Hsrc. simpl. split; [|reflexivity]. repeat constructor. exact Hl'.
Qed.

Lemma itemDiscounts_present (now : Z) (coupon : Coupon.t) (c : cart)
    (discountResult : DiscountResult.t) :
  Coupon.type coupon = PRODUCT_WISE ->
  calculateDiscount now coupon c = Ok discountResult ->
  Qeq_bool (DiscountResult.discount discountResult) 0 = false ->
  exists ids, DiscountResult.itemDiscounts discountResult = Some ids.
Proof.
  intros Hty. unfold calculateDiscount.
  destruct (isCouponApplicable now coupon c) as [a|] eqn:Ea; [|discriminate].
  pose proof (dispatch_consistent _ _ _ _ Ea) as Hd. simpl. rewrite Hty.
  destruct a as [r|t|its tot|n cp]; simpl.
  - intros [= <-]. discriminate.
  - destruct Hd as [Hd _]. congruence.
  - destruct (fold_left (productWiseStep coupon) its (0%Q, [])) as [t ds].
    intros [= <-] _. simpl. eauto.
  - destruct Hd as [Hd _]. congruence.
Qed.

Lemma freeItems_present (now : Z) (coupon : Coupon.t) (c : cart)
    (discountResult : DiscountResult.t) :
  Coupon.type coupon = BXGY ->
  calculateDiscount now coupon c = Ok discountResult ->
  Qeq_bool (DiscountResult.discount discountResult) 0 = false ->
  exists fis, DiscountResult.freeItems discountResult = Some fis.
Proof.
  intros Hty. unfold calculateDiscount.
  destruct (isCouponApplicable now coupon c) as [a|] eqn:Ea; [|discriminate].
  pose proof (dispatch_consistent _ _ _ _ Ea) as Hd. simpl. rewrite Hty.
  destruct a as [r|t|its tot|n cp]; simpl.
  - intros [= <-]. discriminate.
  - destruct Hd as [Hd _]. congruence.
  - destruct Hd as [Hd _]. congruence.
  - destruct (Coupon.getProducts coupon) as [[|g get]|]; try discriminate.
    + intros [= <-]. simpl. eauto.
    + destruct (cartItems c) as [items|]; simpl; [|discriminate].
      destruct (fold_left (bxGyStep items n) get _) as [t fs].
      intros [= <-] _. simpl. eauto.
Qed.

Lemma apply_progress (now : Z) (h : heap) (couponRef : loc) (cartRef : option loc)
    (coupon : Coupon.t) (items : list Item.t) (discountResult : DiscountResult.t) :
  h !! couponRef = Some (CouponCell coupon) ->
  readCart h cartRef = cartOf items ->
  calculateDiscount now coupon (cartOf items) = Ok discountResult ->
  Qeq_bool (DiscountResult.discount discountResult) 0 = false ->
  exists h' updatedCart,
    applyCouponToCart now h couponRef cartRef
    = Ok (h', (updatedCart, discountResult)).
Proof.
  intros Hcp Hcart Hdr Hz. unfold applyCouponToCart.
  rewrite Hcp, Hcart. unfold cartOf in Hcart. unfold mbind, outcome_bind. rewrite Hdr, Hz.
  destruct (jsonClone h cartRef) as [h1 uc] eqn:Ej.
  pose proof (jsonClone_spec _ _ _ _ Ej) as Hclone.
  destruct uc as [l'|]; [|destruct Hclone as [_ Hnull]; congruence].
  destruct Hclone as (src & Hsrc & Hcop).
  assert (src = Some items) as -> by congruence.
  assert (forall h2, copied h h2 l' (Some items) ->
            exists h' updatedCart,
              match
                match setTotals h2 (Some l') (calculateCartTotal (cartOf items))
                        (DiscountResult.discount discountResult) with
                | Ok h3 =>
                    setAppliedCoupon h3 (Some l')
                      (Stamp.mk (Coupon._id coupon) (Coupon.code coupon)
                                (Coupon.type coupon)
                                (DiscountResult.discount discountResult))
                | Throw e => Throw e
                end
              with
              | Ok h4 => Ok (h4, (Some l', discountResult))
              | Throw e => Throw e
              end = Ok (h', (updatedCart, discountResult))) as Hend.
  { intros h2 Hc2.
    destruct (setTotals_progress _ _ _ _ (calculateCartTotal (cartOf items))
                (DiscountResult.discount discountResult) Hc2) as [h3 Ht].
    rewrite Ht.
    destruct (setTotals_copied _ _ _ _ _ _ _ Hc2 Ht) as [Hc3 _].
    destruct (setAppliedCoupon_progress _ _ _ _
                (Stamp.mk (Coupon._id coupon) (Coupon.code coupon)
                          (Coupon.type coupon)
                          (DiscountResult.discount discountResult)) Hc3) as [h4 Hs].
    rewrite Hs. eauto. }
  revert Hend. destruct (Coupon.type coupon) eqn:Ety; intros Hend.
  - destruct (Hend h1 Hcop) as (h' & uc & He).
    destruct (setTotals h1 _ _ _); [|discriminate]. eauto.
  - destruct (itemDiscounts_present _ _ _ _ Ety Hdr Hz) as [ids ->]. cbn [property].
    destruct (loop_progress (applyItemDiscount (Some l')) h (l') (Some items)
                (fun ha hb e => applyItemDiscount_copied h ha hb l' (Some items) e)
                (fun h2 e Hc => applyItemDiscount_progress h h2 l' items e Hc)
                ids h1 Hcop) as [h2 Hloop].
    rewrite Hloop.
    assert (copied h h2 l' (Some items)) as Hc2.
    { eapply (loop_copied (applyItemDiscount (Some l'))); try eassumption.
      - apply applyItemDiscount_throw.
      - intros; eapply applyItemDiscount_copied; eassumption. }
    destruct (Hend h2 Hc2) as (h' & uc & He).
    destruct (setTotals h2 _ _ _); [|discriminate]. eauto.
  - destruct (freeItems_present _ _ _ _ Ety Hdr Hz) as [fis ->]. cbn [property].
    destruct (loop_progress (applyFreeItem (Some l')) h (l') (Some items)
                (fun ha hb e => applyFreeItem_copied h ha hb l' (Some items) e)
                (fun h2 e Hc => applyFreeItem_progress h h2 l' items e Hc)
                fis h1 Hcop) as [h2 Hloop].
    rewrite Hloop.
    assert (copied h h2 l' (Some items)) as Hc2.
    { eapply (loop_copied (applyFreeItem (Some l'))); try eassumption.
      - apply applyFreeItem_throw.
      - intros; eapply applyFreeItem_copied; eassumption. }
    destruct (Hend h2 Hc2) as (h' & uc & He).
    destruct (setTotals h2 _ _ _); [|discriminate]. eauto.
  - rewrite (other_type_zero _ _ _ _ Ety Hdr) in Hz. discriminate.
Qed.

(** ** The cart mutator *)

(** C7.  When [applyCouponToCart] succeeds, the cart it returns carries
    [totalPrice] equal to the cart total of the input, [totalDiscount] equal
    to the discount computed by [calculateDiscount] (which is not 0), and
    [finalPrice] equal to their difference, with nothing done to keep it
    from going below zero. *)
Theorem applied_cart_totals (now : Z) (h h' : heap) (couponRef : loc)
    (cartRef updatedCart : option loc) (discountResult : DiscountResult.t) :
  applyCouponToCart now h couponRef cartRef = Ok (h', (updatedCart, discountResult)) ->
  exists coupon l' c,
    h !! couponRef = Some (CouponCell coupon) /\
    calculateDiscount now coupon (readCart h cartRef) = Ok discountResult /\
    ~ (DiscountResult.discount discountResult == 0)%Q /\
    updatedCart = Some l' /\
    readCartObj h' l' = Some c /\
    (calculateCartTotal (readCart h cartRef) == cartTotalOf (readCart h cartRef))%Q /\
    CartObj.totalPrice c = Some (calculateCartTotal (readCart h cartRef)) /\
    CartObj.totalDiscount c = Some (DiscountResult.discount discountResult) /\
    CartObj.finalPrice c
    = Some (calculateCartTotal (readCart h cartRef)
            - DiscountResult.discount discountResult)%Q.
Proof.
  intros H. apply apply_success in H.
  destruct H as (coupon & l' & src & c & Hcp & Hdr & Hnz & -> & _ & _ & Hc
                 & Htp & Htd & Hfp & _).
  exists coupon, l', c. repeat split; try assumption.
  apply calculateCartTotal_sum.
Qed.

(** A discount above the cart total: the final price is 101 - 200. *)
Lemma applied_cart_totals_holds :
  exists h' l' c discountResult,
    applyCouponToCart 0 (storeOf doubleGet cheapAndDear).1.1
                      (storeOf doubleGet cheapAndDear).1.2
                      (storeOf doubleGet cheapAndDear).2
    = Ok (h', (Some l', discountResult)) /\
    readCartObj h' l' = Some c /\
    CartObj.finalPrice c
    = Some (calculateCartTotal (cartOf cheapAndDear)
            - DiscountResult.discount discountResult)%Q /\
    (calculateCartTotal (cartOf cheapAndDear)
     - DiscountResult.discount discountResult == -99)%Q.
Proof.
  eassert (applyCouponToCart 0 (storeOf doubleGet cheapAndDear).1.1
                             (storeOf doubleGet cheapAndDear).1.2
                             (storeOf doubleGet cheapAndDear).2 = Ok (_, (_, _))) as E
      by (vm_compute; reflexivity).
  destruct (applied_cart_totals _ _ _ _ _ _ _ E)
    as (coupon & l' & c & _ & _ & _ & Hl & Hc & _ & _ & _ & Hfp).
  do 4 eexists. rewrite <- Hl. split; [exact E|].
  split; [exact Hc|]. split; [exact Hfp|]. vm_compute. reflexivity.
Defined.

(** C8.  When [applyCouponToCart] succeeds, every cell that existed before
    the call (the cart object, its array, its lines, the coupon document
    with its [currentUsage]) holds afterwards what it held before; the cart
    it returns lives entirely in cells allocated during the call, and its
    lines are those of the input apart from the annotations. *)
Theorem apply_leaves_inputs_untouched (now : Z) (h h' : heap) (couponRef : loc)
    (cartRef updatedCart : option loc) (discountResult : DiscountResult.t) :
  applyCouponToCart now h couponRef cartRef = Ok (h', (updatedCart, discountResult)) ->
  (forall l c, h !! l = Some c -> h' !! l = Some c) /\
  (forall items, readCart h cartRef = cartOf items ->
                 readCart h' cartRef = cartOf items) /\
  (exists coupon,
     h !! couponRef = Some (CouponCell coupon) /\
     h' !! couponRef = Some (CouponCell coupon)) /\
  Forall (fun l => h !! l = None) (footprint h' updatedCart) /\
  List.map core (linesOf (readCart h' updatedCart))
  = List.map core (linesOf (readCart h cartRef)).
Proof.
  intros H. apply apply_success in H.
  destruct H as (coupon & l' & src & c & Hcp & _ & _ & -> & Hsrc & Hcop & _).
  pose proof Hcop as (Hsub & _).
  destruct (copied_lines _ _ _ _ Hcop) as [Hfresh Hlines].
  split; [intros l x Hl; eapply lookup_weaken; eassumption|].
  split; [intros items Hi; eapply readCart_weaken; eassumption|].
  split; [exists coupon; split; [exact Hcp | eapply lookup_weaken; eassumption]|].
  split; [exact Hfresh|]. rewrite Hsrc. exact Hlines.
Qed.

Lemma apply_leaves_inputs_untouched_holds :
  exists h' updatedCart discountResult,
    applyCouponToCart 0 (storeOf percentCoupon twoLines).1.1
                      (storeOf percentCoupon twoLines).1.2
                      (storeOf percentCoupon twoLines).2
    = Ok (h', (updatedCart, discountResult)) /\
    readCart h' (storeOf percentCoupon twoLines).2 = cartOf twoLines /\
    h' !! (storeOf percentCoupon twoLines).1.2 = Some (CouponCell percentCoupon) /\
    Forall (fun l => (storeOf percentCoupon twoLines).1.1 !! l = None)
           (footprint h' updatedCart) /\
    List.map core (linesOf (readCart h' updatedCart)) = List.map core twoLines.
Proof.
  eassert (applyCouponToCart 0 (storeOf percentCoupon twoLines).1.1
                             (storeOf percentCoupon twoLines).1.2
                             (storeOf percentCoupon twoLines).2 = Ok (_, (_, _))) as E
      by (vm_compute; reflexivity).
  destruct (apply_leaves_inputs_untouched _ _ _ _ _ _ _ E)
    as (Hframe & Hcart & _ & Hfresh & Hlines).
  do 3 eexists. split; [exact E|].
  split; [apply Hcart; reflexivity|].
  split; [apply Hframe; reflexivity|].
  split; [exact Hfresh | exact Hlines].
Defined.

(** ** When the mutator refuses *)

Lemma below_minimum (coupon : Coupon.t) (items : list Item.t) (m : Q) :
  Coupon.minCartValue coupon = Some m ->
  ~ (m == 0)%Q ->
  (cartTotalOf (cartOf items) < m)%Q ->
  belowMinimum coupon (calculateCartTotal (cartOf items)) = true.
Proof.
  intros Hm Hnz Hlt. unfold belowMinimum. rewrite Hm. simpl.
  pose proof (calculateCartTotal_sum (cartOf items)) as Hs. simpl in Hs.
  apply andb_true_iff. split.
  - apply negb_true_iff. destruct (Qeq_bool m 0) eqn:E; [|reflexivity].
    apply Qeq_bool_iff in E. contradiction.
  - apply negb_true_iff. destruct (Qle_bool m _) eqn:E; [|reflexivity].
    apply Qle_bool_iff in E. simpl in Hlt. lra.
Qed.

(** C5.  For a coupon document and a request cart in the store,
    [calculateDiscount] returns a result, and [applyCouponToCart] throws
    exactly when the discount of that result is 0: it then throws an error
    whose message is "Cannot apply coupon: " followed by the reason of the
    result, and otherwise returns.  Below the minimum cart value, the
    applicability check reports a reason that names the cart total and the
    minimum, the calculation returns discount 0 with that reason, and the
    application throws with it. *)
Theorem apply_throws_iff_zero_discount (now : Z) (h : heap) (couponRef : loc)
    (cartRef : option loc) (coupon : Coupon.t) (items : list Item.t) :
  h !! couponRef = Some (CouponCell coupon) ->
  readCart h cartRef = cartOf items ->
  exists discountResult,
    calculateDiscount now coupon (cartOf items) = Ok discountResult /\
    ((DiscountResult.discount discountResult == 0)%Q ->
     applyCouponToCart now h couponRef cartRef
     = Throw (Error (Txt "Cannot apply coupon: "
                     :: default [Txt "Invalid coupon"]
                                (DiscountResult.reason discountResult)))) /\
    (~ (DiscountResult.discount discountResult == 0)%Q ->
     exists h' updatedCart,
       applyCouponToCart now h couponRef cartRef
       = Ok (h', (updatedCart, discountResult))) /\
    (forall m,
       isApplicable now coupon = true ->
       Coupon.minCartValue coupon = Some m ->
       ~ (m == 0)%Q ->
       (cartTotalOf (cartOf items) < m)%Q ->
       exists reason,
         isCouponApplicable now coupon (cartOf items) = Ok (Inapplicable reason) /\
         In (Num (calculateCartTotal (cartOf items))) reason /\
         In (Num m) reason /\
         DiscountResult.discount discountResult = 0%Q /\
         DiscountResult.reason discountResult = Some reason /\
         applyCouponToCart now h couponRef cartRef
         = Throw (Error (Txt "Cannot apply coupon: " :: reason))).
Proof.
  intros Hcp Hcart.
  destruct (calculateDiscount_total now coupon items) as [dr Hdr].
  exists dr. split; [exact Hdr|].
  assert ((DiscountResult.discount dr == 0)%Q ->
          applyCouponToCart now h couponRef cartRef
          = Throw (Error (Txt "Cannot apply coupon: "
                          :: default [Txt "Invalid coupon"]
                                     (DiscountResult.reason dr)))) as Hzero.
  { intros Hz. apply Qeq_bool_iff in Hz. unfold applyCouponToCart.
    rewrite Hcp, Hcart. unfold mbind, outcome_bind. rewrite Hdr, Hz. reflexivity. }
  split; [exact Hzero|]. split.
  - intros Hnz. eapply apply_progress; try eassumption.
    destruct (Qeq_bool (DiscountResult.discount dr) 0) eqn:E; [|reflexivity].
    apply Qeq_bool_iff in E. contradiction.
  - intros m Happ Hm Hnz Hlt.
    pose proof (below_minimum coupon items m Hm Hnz Hlt) as Hbelow.
    assert (isCouponApplicable now coupon (cartOf items)
            = Ok (Inapplicable
                    [Txt "Cart total ("; Num (calculateCartTotal (cartOf items));
                     Txt ") is less than minimum required ("; Num m; Txt ")"]))
      as Ha.
    { unfold isCouponApplicable. rewrite Happ, Hbelow, Hm. reflexivity. }
    eexists. split; [exact Ha|].
    unfold calculateDiscount in Hdr. rewrite Ha in Hdr. simpl in Hdr.
    injection Hdr as <-.
    split; [simpl; auto|]. split; [simpl; auto|].
    split; [reflexivity|]. split; [reflexivity|].
    apply Hzero. reflexivity.
Qed.

Lemma apply_throws_iff_zero_discount_holds :
  (storeOf saveTen smallCart).1.1 !! (storeOf saveTen smallCart).1.2
  = Some (CouponCell saveTen) /\
  readCart (storeOf saveTen smallCart).1.1 (storeOf saveTen smallCart).2
  = cartOf smallCart /\
  (cartTotalOf (cartOf smallCart) == 500)%Q /\
  exists discountResult,
    calculateDiscount 0 saveTen (cartOf smallCart) = Ok discountResult /\
    isCouponApplicable 0 saveTen (cartOf smallCart)
    = Ok (Inapplicable
            [Txt "Cart total ("; Num (calculateCartTotal (cartOf smallCart));
             Txt ") is less than minimum required ("; Num 1000%Q; Txt ")"]) /\
    DiscountResult.discount discountResult = 0%Q /\
    applyCouponToCart 0 (storeOf saveTen smallCart).1.1
                      (storeOf saveTen smallCart).1.2
                      (storeOf saveTen smallCart).2
    = Throw (Error (Txt "Cannot apply coupon: "
                    :: [Txt "Cart total ("; Num (calculateCartTotal (cartOf smallCart));
                        Txt ") is less than minimum required (";
                        Num 1000%Q; Txt ")"])).
Proof.
  split; [reflexivity|]. split; [reflexivity|]. split; [vm_compute; reflexivity|].
  destruct (apply_throws_iff_zero_discount 0
              (storeOf saveTen smallCart).1.1 (storeOf saveTen smallCart).1.2
              (storeOf saveTen smallCart).2 saveTen smallCart eq_refl eq_refl)
    as (dr & Hdr & _ & _ & Hbelow).
  exists dr. split; [exact Hdr|].
  destruct (Hbelow 1000%Q) as (reason & Ha & _ & _ & Hd & _ & Hthrow).
  - reflexivity.
  - reflexivity.
  - intros H. vm_compute in H. discriminate.
  - vm_compute. reflexivity.
  - assert (reason = [Txt "Cart total ("; Num (calculateCartTotal (cartOf smallCart));
                      Txt ") is less than minimum required ("; Num 1000%Q; Txt ")"])
      as -> by (vm_compute in Ha; injection Ha as <-; reflexivity).
    split; [reflexivity|]. split; [exact Hd | exact Hthrow].
Defined.

(** * Further properties of the code *)

(** ** The coupon's own predicate *)

(** X1.  A coupon is usable at [now] exactly when it is active, its
    expiration date, if any, is not before [now] (a coupon expiring at this
    very instant still counts), and its usage limit, if any and not 0, is
    above the current usage. *)
Theorem coupon_usable_iff (now : Z) (c : Coupon.t) :
  isApplicable now c = true <->
  Coupon.isActive c = true /\
  (forall d, Coupon.expirationDate c = Some d -> now <= d) /\
  (forall u, Coupon.usageLimit c = Some u -> u = 0 \/ Coupon.currentUsage c < u).
Proof.
  unfold isApplicable, isExpired, isUsageLimitReached.
  rewrite !andb_true_iff, !negb_true_iff. split.
  - intros [[Ha He] Hu]. split; [exact Ha|]. split.
    + intros d Hd. rewrite Hd in He. apply Z.ltb_ge in He. exact He.
    + intros u Hu'. rewrite Hu' in Hu. simpl in Hu.
      destruct (u =? 0) eqn:E; simpl in Hu; [left; apply Z.eqb_eq; exact E|].
      right. apply Z.leb_gt in Hu. exact Hu.
  - intros (Ha & He & Hu). split; [split; [exact Ha|]|].
    + destruct (Coupon.expirationDate c) as [d|]; [|reflexivity].
      apply Z.ltb_ge. apply He. reflexivity.
    + destruct (Coupon.usageLimit c) as [u|]; [|reflexivity]. simpl.
      destruct (u =? 0) eqn:E; [reflexivity|]. simpl.
      apply Z.leb_gt. destruct (Hu u eq_refl) as [H0|Hlt]; [|exact Hlt].
      apply Z.eqb_neq in E. contradiction.
Qed.

(** ** When evaluation raises *)

Lemma unusable_reason (now : Z) (coupon : Coupon.t) (c : cart) :
  isApplicable now coupon = false ->
  isCouponApplicable now coupon c
  = Ok (Inapplicable [Txt "Coupon is not active, expired, or usage limit reached"]).
Proof. intros H. unfold isCouponApplicable. rewrite H. reflexivity. Qed.

Lemma calculateDiscount_of_applicability (now : Z) (coupon : Coupon.t) (c : cart)
    (a : applicability) :
  isCouponApplicable now coupon c = Ok a ->
  exists discountResult, calculateDiscount now coupon c = Ok discountResult.
Proof.
  intros Ha. pose proof (dispatch_consistent _ _ _ _ Ha) as Hd.
  unfold calculateDiscount. rewrite Ha. simpl.
  destruct a as [r|t|its tot|n cp].
  - eexists; reflexivity.
  - destruct Hd as [-> _]. eexists; reflexivity.
  - destruct Hd as [-> _]. simpl.
    destruct (fold_left (productWiseStep coupon) its (0%Q, [])). eexists; reflexivity.
  - destruct Hd as [-> (its & buy & -> & _ & Hg & _)]. simpl.
    destruct (Coupon.getProducts coupon) as [[|g get]|]; try discriminate.
    simpl. destruct (fold_left (bxGyStep its n) get _). eexists; reflexivity.
Qed.

(** X2.  Evaluating a coupon raises exactly when the coupon is usable, the
    cart is [null] or has no [items] array, no minimum cart value turns the
    cart down first (its total counts as 0), and the coupon is product-wise
    with products listed or BxGy with both lists filled.  What is raised is
    a [TypeError], and [calculateDiscount] raises in the same cases and in
    no other. *)
Theorem evaluation_raises_iff (now : Z) (coupon : Coupon.t) (c : cart) :
  ((exists e, isCouponApplicable now coupon c = Throw e) <->
   isApplicable now coupon = true /\
   belowMinimum coupon 0%Q = false /\
   (c = CartNull \/ c = CartObject None) /\
   (Coupon.type coupon = PRODUCT_WISE /\
    nonEmpty (Coupon.applicableProducts coupon) = true \/
    Coupon.type coupon = BXGY /\
    nonEmpty (Coupon.buyProducts coupon) = true /\
    nonEmpty (Coupon.getProducts coupon) = true)) /\
  (forall e, isCouponApplicable now coupon c = Throw e -> e = TypeError) /\
  (forall e, calculateDiscount now coupon c = Throw e <->
             isCouponApplicable now coupon c = Throw e).
Proof.
  assert (forall e, isCouponApplicable now coupon c = Throw e ->
            e = TypeError /\
            isApplicable now coupon = true /\
            belowMinimum coupon 0%Q = false /\
            (c = CartNull \/ c = CartObject None) /\
            (Coupon.type coupon = PRODUCT_WISE /\
             nonEmpty (Coupon.applicableProducts coupon) = true \/
             Coupon.type coupon = BXGY /\
             nonEmpty (Coupon.buyProducts coupon) = true /\
             nonEmpty (Coupon.getProducts coupon) = true)) as Hraise.
  { intros e. unfold isCouponApplicable.
    destruct (isApplicable now coupon); simpl; [|discriminate].
    destruct (belowMinimum coupon (calculateCartTotal c)) eqn:Eb; [discriminate|].
    destruct (Coupon.type coupon); try discriminate.
    - unfold checkProductWiseApplicability.
      destruct (Coupon.applicableProducts coupon) as [[|p ps]|]; try discriminate.
      destruct c as [|[items|]]; simpl.
      + intros [= <-]. simpl in Eb. auto 10.
      + destruct (List.filter _ items); discriminate.
      + intros [= <-]. simpl in Eb. auto 10.
    - unfold checkBxGyApplicability.
      destruct (nonEmpty (Coupon.buyProducts coupon)); simpl; [|discriminate].
      destruct (nonEmpty (Coupon.getProducts coupon)); simpl; [|discriminate].
      destruct c as [|[items|]]; simpl.
      + intros [= <-]. simpl in Eb. auto 10.
      + match goal with |- context [if ?b then _ else _] => destruct b end;
          discriminate.
      + intros [= <-]. simpl in Eb. auto 10. }
  split; [split|split].
  - intros [e He]. apply Hraise in He. tauto.
  - intros (Happ & Hmin & Hc & Hty). exists TypeError.
    unfold isCouponApplicable. rewrite Happ. simpl.
    assert (calculateCartTotal c = 0%Q) as -> by (destruct Hc as [-> | ->]; reflexivity).
    rewrite Hmin.
    destruct Hty as [[-> Hp]|(-> & Hb & Hg)].
    + unfold checkProductWiseApplicability.
      destruct (Coupon.applicableProducts coupon) as [[|p ps]|]; try discriminate.
      destruct Hc as [-> | ->]; reflexivity.
    + unfold checkBxGyApplicability. rewrite Hb, Hg. simpl.
      destruct Hc as [-> | ->]; reflexivity.
  - intros e He. apply Hraise in He. tauto.
  - intros e. split.
    + intros Hd. destruct (isCouponApplicable now coupon c) as [a|e'] eqn:Ea.
      * destruct (calculateDiscount_of_applicability _ _ _ _ Ea) as [dr Hdr].
        congruence.
      * unfold calculateDiscount in Hd. rewrite Ea in Hd. simpl in Hd. congruence.
    + intros Ha. unfold calculateDiscount. rewrite Ha. reflexivity.
Qed.

(** ** Product-wise eligibility *)

(** X3.  Once the common checks have passed, a product-wise coupon is
    turned down with "No applicable products defined" when its product list
    is missing or empty, with "No applicable products in cart" when no line
    of the cart carries a listed product, and is otherwise applicable, the
    context holding the matching lines in cart order and a total equal to
    the sum of their subtotals. *)
Theorem product_wise_eligibility (now : Z) (coupon : Coupon.t) (items : list Item.t) :
  Coupon.type coupon = PRODUCT_WISE ->
  isApplicable now coupon = true ->
  belowMinimum coupon (calculateCartTotal (cartOf items)) = false ->
  (nonEmpty (Coupon.applicableProducts coupon) = false ->
   isCouponApplicable now coupon (cartOf items)
   = Ok (Inapplicable [Txt "No applicable products defined"])) /\
  (nonEmpty (Coupon.applicableProducts coupon) = true ->
   List.filter (matched coupon) items = [] ->
   isCouponApplicable now coupon (cartOf items)
   = Ok (Inapplicable [Txt "No applicable products in cart"])) /\
  (nonEmpty (Coupon.applicableProducts coupon) = true ->
   List.filter (matched coupon) items <> [] ->
   exists applicableTotal,
     isCouponApplicable now coupon (cartOf items)
     = Ok (ApplicableProductWise (List.filter (matched coupon) items) applicableTotal) /\
     (applicableTotal == sumOf subtotal (List.filter (matched coupon) items))%Q).
Proof.
  intros Hty Happ Hmin. unfold isCouponApplicable. rewrite Happ, Hmin, Hty.
  cbn [negb]. unfold checkProductWiseApplicability, matched.
  destruct (Coupon.applicableProducts coupon) as [[|p ps]|];
    cbn [nonEmpty default from_option id cartOf cartItems mbind outcome_bind].
  - repeat split; try discriminate; reflexivity.
  - set (f := fun item : Item.t => includes (p :: ps) (Item.productId item)).
    split; [discriminate|]. split.
    + intros _ Hf. rewrite Hf. reflexivity.
    + intros _ Hf. destruct (List.filter f items) as [|i0 l0] eqn:Ef; [contradiction|].
      eexists. split; [reflexivity|].
      rewrite (fold_sum_acc subtotal). lra.
  - repeat split; try discriminate; reflexivity.
Qed.

Lemma product_wise_eligibility_holds :
  exists applicableTotal,
    isCouponApplicable 0 percentCoupon (cartOf twoLines)
    = Ok (ApplicableProductWise [line 101 3 500] applicableTotal) /\
    (applicableTotal == 1500)%Q.
Proof.
  destruct (product_wise_eligibility 0 percentCoupon twoLines eq_refl eq_refl eq_refl)
    as (_ & _ & H).
  destruct H as (t & Ht & Hsum); [reflexivity | discriminate |].
  exists t. split; [exact Ht|]. rewrite Hsum. vm_compute. reflexivity.
Defined.

(** ** The BxGy check, without the loop *)

Lemma buyLoop_afterLastZero (cartProducts : gmap Z Z) (buy : list Req.t) (acc : Z) :
  0 <= acc ->
  Forall (fun r => 0 <= possible cartProducts r) buy ->
  fold_left (buyStep cartProducts) buy acc
  = if existsb (Z.eqb 0) (List.map (possible cartProducts) buy)
    then minimumOf (afterLastZero (List.map (possible cartProducts) buy))
    else if acc =? 0
         then minimumOf (List.map (possible cartProducts) buy)
         else fold_left Z.min (List.map (possible cartProducts) buy) acc.
Proof.
  intros Hacc H. revert acc Hacc.
  induction H as [|r rest Hr _ IH]; intros acc Hacc.
  - simpl. destruct (acc =? 0) eqn:E; [apply Z.eqb_eq in E; exact E | reflexivity].
  - cbn [fold_left List.map existsb afterLastZero].
    set (x := possible cartProducts r) in *.
    set (l := List.map (possible cartProducts) rest) in *.
    assert (buyStep cartProducts acc r = if acc =? 0 then x else Z.min acc x) as Hstep.
    { destruct (acc =? 0) eqn:E.
      - apply Z.eqb_eq in E. subst acc. reflexivity.
      - apply Z.eqb_neq in E. apply buyStep_min. exact E. }
    rewrite Hstep. rewrite IH by (destruct (acc =? 0); lia).
    destruct (existsb (Z.eqb 0) l) eqn:El.
    + rewrite orb_true_r. reflexivity.
    + rewrite orb_false_r. destruct (Z.eqb_spec 0 x) as [H0|H0].
      * assert ((x =? 0) = true) as Hx by (apply Z.eqb_eq; lia). rewrite Hx.
        assert ((if acc =? 0 then x else Z.min acc x) = 0) as ->
            by (destruct (acc =? 0); lia).
        reflexivity.
      * destruct (acc =? 0) eqn:E.
        -- assert ((x =? 0) = false) as -> by (apply Z.eqb_neq; lia). reflexivity.
        -- apply Z.eqb_neq in E.
           assert ((Z.min acc x =? 0) = false) as -> by (apply Z.eqb_neq; lia).
           reflexivity.
Qed.

Lemma possible_all_nonneg (items : list Item.t) (buy : list Req.t) :
  validCart items = true ->
  Forall (fun r => 1 <= Req.quantity r) buy ->
  Forall (fun r => 0 <= possible (buildCartProducts items) r) buy.
Proof.
  intros Hv H. eapply Forall_impl; [exact H|].
  intros r Hr. apply possible_nonneg; assumption.
Qed.

(** X4.  For a usable BxGy coupon with both lists filled and quantities of
    at least 1, checked against a validated cart that clears the minimum,
    the number of applications is the least [possible] value among the buy
    requirements that come after the last requirement fitting 0 times (all
    of them when every requirement fits), bounded by the repetition limit;
    the coupon is reported applicable with that number, or turned down with
    "Insufficient quantity of buy products" when the number is 0. *)
Theorem bxgy_applications_exact (now : Z) (coupon : Coupon.t) (items : list Item.t)
    (buy : list Req.t) :
  Coupon.type coupon = BXGY ->
  isApplicable now coupon = true ->
  belowMinimum coupon (calculateCartTotal (cartOf items)) = false ->
  Coupon.buyProducts coupon = Some buy ->
  nonEmpty (Coupon.buyProducts coupon) = true ->
  nonEmpty (Coupon.getProducts coupon) = true ->
  Forall (fun r => 1 <= Req.quantity r) buy ->
  validCart items = true ->
  isCouponApplicable now coupon (cartOf items)
  = let k := Z.min (minimumOf
                      (afterLastZero
                         (List.map (possible (buildCartProducts items)) buy)))
                   (orZ (Coupon.repetitionLimit coupon) 1) in
    if k =? 0
    then Ok (Inapplicable [Txt "Insufficient quantity of buy products"])
    else Ok (ApplicableBxGy k (buildCartProducts items)).
Proof.
  intros Hty Happ Hmin Hb Hbn Hgn Hq Hv.
  unfold isCouponApplicable. rewrite Happ, Hmin, Hty. cbn [negb].
  unfold checkBxGyApplicability. rewrite Hbn, Hgn, Hb.
  cbn [negb orb cartOf cartItems mbind outcome_bind default from_option id].
  pose proof (possible_all_nonneg items buy Hv Hq) as Hnn.
  rewrite (buyLoop_afterLastZero _ _ 0 (Z.le_refl 0) Hnn).
  assert ((if existsb (Z.eqb 0) (List.map (possible (buildCartProducts items)) buy)
           then minimumOf (afterLastZero
                             (List.map (possible (buildCartProducts items)) buy))
           else if 0 =? 0
                then minimumOf (List.map (possible (buildCartProducts items)) buy)
                else fold_left Z.min
                       (List.map (possible (buildCartProducts items)) buy) 0)
          = minimumOf (afterLastZero
                         (List.map (possible (buildCartProducts items)) buy))) as ->.
  { generalize (List.map (possible (buildCartProducts items)) buy). intros l.
    destruct (existsb (Z.eqb 0) l) eqn:E; [reflexivity|]. simpl.
    clear -E. destruct l as [|x rest]; [reflexivity|].
    cbn [existsb] in E. apply orb_false_iff in E. destruct E as [Ex Er].
    cbn [afterLastZero]. rewrite Er.
    assert ((x =? 0) = false) as -> by (apply Z.eqb_neq; apply Z.eqb_neq in Ex; lia).
    reflexivity. }
  reflexivity.
Qed.

Lemma bxgy_applications_exact_holds :
  isCouponApplicable 0 twoBuyCoupon (cartOf missingFirstBuy)
  = Ok (ApplicableBxGy 3 (buildCartProducts missingFirstBuy)).
Proof.
  rewrite (bxgy_applications_exact 0 twoBuyCoupon missingFirstBuy
             [Req.mk 101 2; Req.mk 102 1]); try reflexivity.
  repeat constructor; simpl; lia.
Defined.

(** X5.  Whenever a coupon within the numeric constraints of the schema is
    reported applicable as BxGy on a validated cart, the number of
    applications handed on is at least 1 and at most the repetition limit
    (1 when the coupon has none). *)
Theorem bxgy_applications_bounds (now : Z) (coupon : Coupon.t) (items : list Item.t)
    (n : Z) (cp : gmap Z Z) :
  schemaCoupon coupon = true ->
  validCart items = true ->
  isCouponApplicable now coupon (cartOf items) = Ok (ApplicableBxGy n cp) ->
  1 <= n <= orZ (Coupon.repetitionLimit coupon) 1.
Proof.
  intros Hs Hv Ha. apply dispatch_consistent in Ha.
  destruct Ha as [_ (items' & buy & [= <-] & Hb & _ & -> & -> & Hnz)].
  destruct (schemaCoupon_parts coupon Hs) as (_ & _ & Hrep & Hbuy & _).
  rewrite Hb in Hbuy. simpl in Hbuy.
  pose proof (buyLoop_nonneg (buildCartProducts items) buy 0 (Z.le_refl 0)
                (possible_all_nonneg items buy Hv Hbuy)) as Hnn.
  lia.
Qed.

Lemma bxgy_applications_bounds_holds :
  1 <= 3 <= orZ (Coupon.repetitionLimit twoBuyCoupon) 1.
Proof.
  apply (bxgy_applications_bounds 0 twoBuyCoupon missingFirstBuy 3
           (buildCartProducts missingFirstBuy)); reflexivity.
Defined.

(** ** Get products that are not in the cart *)

Lemma bxGy_fold_absent (items : list Item.t) (n : Z) (get : list Req.t)
    (a : Q) (fs : list FreeItem.t) :
  Forall (fun g => findItem (Req.productId g) items = None) get ->
  (fold_left (bxGyStep items n) get (a, fs)).1 = a.
Proof.
  intros H. revert a fs. induction H as [|g l Hg _ IH]; intros a fs;
    cbn [fold_left].
  - reflexivity.
  - unfold bxGyStep at 2. rewrite IH, Hg. reflexivity.
Qed.

(** X6.  When a BxGy coupon is applicable but none of its get products is
    in the cart, the calculation grants nothing: the discount is 0, no
    reason is given, every get entry is listed with the quantity it would
    have set free, a discount of 0 and the note "Item not in cart"; and
    [applyCouponToCart] then throws "Cannot apply coupon: Invalid coupon". *)
Theorem bxgy_get_products_absent (now : Z) (coupon : Coupon.t) (items : list Item.t)
    (n : Z) (cp : gmap Z Z) :
  isCouponApplicable now coupon (cartOf items) = Ok (ApplicableBxGy n cp) ->
  Forall (fun g => findItem (Req.productId g) items = None)
         (default [] (Coupon.getProducts coupon)) ->
  (exists discountResult,
     calculateDiscount now coupon (cartOf items) = Ok discountResult /\
     DiscountResult.discount discountResult = 0%Q /\
     DiscountResult.reason discountResult = None /\
     DiscountResult.freeItems discountResult
     = Some (List.map (fun g => FreeItem.mk (Req.productId g) (Req.quantity g * n)
                                            0%Q (Some "Item not in cart"%string))
                      (default [] (Coupon.getProducts coupon)))) /\
  (forall h couponRef cartRef,
     h !! couponRef = Some (CouponCell coupon) ->
     readCart h cartRef = cartOf items ->
     applyCouponToCart now h couponRef cartRef
     = Throw (Error [Txt "Cannot apply coupon: "; Txt "Invalid coupon"])).
Proof.
  intros Ha Habs. pose proof (dispatch_consistent _ _ _ _ Ha) as Hd.
  destruct Hd as [Hty (items' & buy & [= <-] & _ & Hg & _)].
  assert (exists get,
            calculateDiscount now coupon (cartOf items)
            = Ok (DiscountResult.mk 0%Q None None None None None (Some n)
                    (Some (List.map (freeItemFor items n) get)) (Some free_items)) /\
            default [] (Coupon.getProducts coupon) = get) as (get & Hdr & Hget).
  { unfold calculateDiscount. rewrite Ha. simpl. rewrite Hty. simpl.
    destruct (Coupon.getProducts coupon) as [[|g get]|]; try discriminate.
    exists (g :: get). split; [|reflexivity].
    cbn [cartItems cartOf mbind outcome_bind].
    pose proof (bxGy_fold_entries items n (g :: get) 0%Q []) as H2.
    pose proof (bxGy_fold_absent items n (g :: get) 0%Q [] Habs) as H1.
    destruct (fold_left (bxGyStep items n) (g :: get) (0%Q, [])) as [total fs].
    simpl in H1, H2. subst total fs. reflexivity. }
  split.
  - eexists. split; [exact Hdr|]. simpl. repeat split.
    rewrite Hget in *. f_equal. apply map_ext_in. intros g Hin.
    rewrite List.Forall_forall in Habs. unfold freeItemFor.
    rewrite (Habs g Hin). reflexivity.
  - intros h couponRef cartRef Hcp Hcart. unfold applyCouponToCart.
    rewrite Hcp, Hcart. unfold mbind, outcome_bind. rewrite Hdr. reflexivity.
Qed.

Lemma bxgy_get_products_absent_holds :
  exists discountResult,
    calculateDiscount 0 buyOneGetOne (cartOf onlyBought) = Ok discountResult /\
    DiscountResult.discount discountResult = 0%Q /\
    DiscountResult.freeItems discountResult
    = Some [FreeItem.mk 201 1 0%Q (Some "Item not in cart"%string)].
Proof.
  destruct (bxgy_get_products_absent 0 buyOneGetOne onlyBought 1
              (buildCartProducts onlyBought) eq_refl) as [(dr & Hdr & Hz & _ & Hf) _].
  - repeat constructor.
  - exists dr. split; [exact Hdr|]. split; [exact Hz | exact Hf].
Defined.

(** ** Cart-wise coupons above 100 *)

(** X7.  For an applicable cart-wise coupon whose [discountValue] is above
    100 the value is an amount, not a percentage: the discount is
    [min (discountValue, cap, cartTotal)], the cap counting when it is set,
    and the result is labelled "fixed". *)
Theorem cart_wise_fixed_amount
    (now : Z) (coupon : Coupon.t) (c : cart) (a : applicability) :
  Coupon.type coupon = CART_WISE ->
  (100 < Coupon.discountValue coupon)%Q ->
  isCouponApplicable now coupon c = Ok a ->
  applicable a = true ->
  exists discountResult,
    calculateDiscount now coupon c = Ok discountResult /\
    (DiscountResult.discount discountResult ==
     Qmin (capIfSet (Coupon.maxDiscount coupon) (Coupon.discountValue coupon))
          (cartTotalOf c))%Q /\
    DiscountResult.discountType discountResult = Some fixed.
Proof.
  intros Hty Hhi Ha Happ.
  pose proof (applicable_cart_wise _ _ _ _ Hty Ha Happ) as ->.
  unfold calculateDiscount. rewrite Ha. simpl. rewrite Hty. simpl.
  assert (Qle_bool (Coupon.discountValue coupon) 100 = false) as Hb.
  { destruct (Qle_bool (Coupon.discountValue coupon) 100) eqn:E; [|reflexivity].
    apply Qle_bool_iff in E. lra. }
  eexists. split; [reflexivity|]. simpl. unfold labelOf. rewrite Hb.
  split; [|reflexivity].
  rewrite capIfSet_guard.
  pose proof (calculateCartTotal_sum c) as Ht. revert Ht.
  generalize (capIfSet (Coupon.maxDiscount coupon) (Coupon.discountValue coupon)).
  generalize (calculateCartTotal c). generalize (cartTotalOf c).
  intros. qmin.
Qed.

Lemma cart_wise_fixed_amount_holds :
  exists discountResult,
    calculateDiscount 0 flatTwoHundred (cartOf twoThousandCart) = Ok discountResult /\
    (DiscountResult.discount discountResult == 200)%Q /\
    DiscountResult.discountType discountResult = Some fixed.
Proof.
  destruct (cart_wise_fixed_amount 0 flatTwoHundred (cartOf twoThousandCart)
              (ApplicableCartWise (calculateCartTotal (cartOf twoThousandCart))))
    as (dr & Hdr & Hd & Hl); try reflexivity.
  exists dr. split; [exact Hdr|]. split; [|exact Hl].
  rewrite Hd. vm_compute. reflexivity.
Defined.

(** ** The final price under cart-wise and product-wise coupons *)


Lemma sumOf_filter_le {A : Type} (f : A -> Q) (p : A -> bool) (l : list A) :
  Forall (fun x => (0 <= f x)%Q) l ->
  (sumOf f (List.filter p l) <= sumOf f l)%Q.
Proof.
  induction 1 as [|x l Hx _ IH]; simpl; [lra|].
  destruct (p x); simpl; lra.
Qed.

Lemma subtotals_nonneg (items : list Item.t) :
  validCart items = true -> Forall (fun item => (0 <= subtotal item)%Q) items.
Proof.
  intros Hv%validCart_Forall. eapply Forall_impl; [exact Hv|].
  intros x Hx%subtotal_pos. lra.
Qed.

(** A cart-wise discount is clamped to the cart total, a product-wise
    discount line by line to the subtotal of the line. *)
Lemma clamped_discount_le_total (now : Z) (coupon : Coupon.t) (items : list Item.t)
    (discountResult : DiscountResult.t) :
  validCart items = true ->
  Coupon.type coupon <> BXGY ->
  calculateDiscount now coupon (cartOf items) = Ok discountResult ->
  (DiscountResult.discount discountResult <= sumOf subtotal items)%Q.
Proof.
  intros Hv Hnb. pose proof (subtotals_nonneg items Hv) as Hnn.
  pose proof (sumOf_nonneg subtotal items Hnn) as Htot.
  unfold calculateDiscount.
  destruct (isCouponApplicable now coupon (cartOf items)) as [a|] eqn:Ha;
    [|discriminate].
  pose proof (dispatch_consistent _ _ _ _ Ha) as Hd. simpl.
  destruct a as [r|t|its tot|n cp].
  - intros [= <-]. simpl. exact Htot.
  - destruct Hd as [Hty ->]. rewrite Hty. simpl. intros [= <-]. simpl.
    pose proof (calculateCartTotal_sum (cartOf items)) as Hs. simpl in Hs.
    revert Hs.
    generalize (fold_left (fun total item => (total + subtotal item)%Q) items 0%Q).
    intros T Hs. qmin.
  - destruct Hd as [Hty (items' & [= <-] & -> & _ & _)]. rewrite Hty. simpl.
    destruct (productWise_fold coupon (List.filter (matched coupon) items) 0%Q [])
      as [_ H1].
    destruct (fold_left (productWiseStep coupon) _ _) as [total ds].
    intros [= <-]. simpl in *.
    assert (sumOf (productWiseItemDiscount coupon) (List.filter (matched coupon) items)
            <= sumOf subtotal (List.filter (matched coupon) items))%Q as Hhi.
    { apply sumOf_le. apply Forall_forall. intros x _.
      apply productWiseItemDiscount_le. }
    pose proof (sumOf_filter_le subtotal (matched coupon) items Hnn). lra.
  - destruct Hd as [Hty _]. contradiction.
Qed.

(** X9.  When [applyCouponToCart] succeeds on a validated cart with a
    cart-wise or a product-wise coupon, the final price of the returned
    cart is not negative: a cart-wise discount has been clamped to the cart
    total, and a product-wise discount line by line to the subtotal of the
    line, before it is subtracted. *)
Theorem final_price_not_negative (now : Z) (h h' : heap) (couponRef : loc)
    (cartRef updatedCart : option loc) (discountResult : DiscountResult.t)
    (coupon : Coupon.t) (items : list Item.t) :
  h !! couponRef = Some (CouponCell coupon) ->
  readCart h cartRef = cartOf items ->
  validCart items = true ->
  Coupon.type coupon <> BXGY ->
  applyCouponToCart now h couponRef cartRef = Ok (h', (updatedCart, discountResult)) ->
  exists l' c final,
    updatedCart = Some l' /\
    readCartObj h' l' = Some c /\
    CartObj.finalPrice c = Some final /\
    (0 <= final)%Q.
Proof.
  intros Hcp Hcart Hv Hnb H. apply apply_success in H.
  destruct H as (coupon' & l' & src & c & Hcp' & Hdr & Hnz & -> & _ & _ & Hc
                 & Htp & _ & Hfp & _).
  assert (coupon' = coupon) as -> by congruence.
  rewrite Hcart in *.
  pose proof (clamped_discount_le_total _ _ _ _ Hv Hnb Hdr) as Hle.
  pose proof (calculateCartTotal_sum (cartOf items)) as Hs. simpl in Hs.
  exists l', c. eexists.
  split; [reflexivity|]. split; [exact Hc|]. split; [exact Hfp|].
  simpl. lra.
Qed.

Lemma final_price_not_negative_holds :
  exists h' l' c final discountResult,
    applyCouponToCart 0 (storeOf percentCoupon twoLines).1.1
                      (storeOf percentCoupon twoLines).1.2
                      (storeOf percentCoupon twoLines).2
    = Ok (h', (Some l', discountResult)) /\
    readCartObj h' l' = Some c /\
    CartObj.finalPrice c = Some final /\
    (0 <= final)%Q.
Proof.
  eassert (applyCouponToCart 0 (storeOf percentCoupon twoLines).1.1
                             (storeOf percentCoupon twoLines).1.2
                             (storeOf percentCoupon twoLines).2
           = Ok (_, (_, _))) as E
      by (vm_compute; reflexivity).
  assert (Coupon.type percentCoupon <> BXGY) as Hnb by discriminate.
  destruct (final_price_not_negative 0
              (storeOf percentCoupon twoLines).1.1 _
              (storeOf percentCoupon twoLines).1.2
              (storeOf percentCoupon twoLines).2 _ _ percentCoupon twoLines
              eq_refl eq_refl eq_refl Hnb E)
    as (l' & c & final & Hl & Hc & Hf & Hpos).
  injection Hl as <-. do 5 eexists. split; [exact E|].
  split; [exact Hc|]. split; [exact Hf | exact Hpos].
Defined.

(** ** Validation of coupon data *)

Lemma guard_nil (b : bool) (msg : string) :
  (if b then [msg] else []) = [] <-> b = false.
Proof. destruct b; split; intros H; try discriminate; reflexivity. Qed.

Lemma app_nil_iff {A : Type} (l1 l2 : list A) :
  l1 ++ l2 = [] <-> l1 = [] /\ l2 = [].
Proof.
  split; [apply app_eq_nil|]. intros [-> ->]. reflexivity.
Qed.

Lemma present_false {A : Type} (l : option (list A)) :
  present l = false <-> l = None.
Proof. destruct l; split; intros H; try discriminate; reflexivity. Qed.

Lemma validateCouponData_accepts_iff_aux (couponData : Coupon.t) :
  validateCouponData couponData = [] ->
  match Coupon.type couponData with
  | PRODUCT_WISE => nonEmpty (Coupon.applicableProducts couponData) = true /\ True
  | BXGY =>
      nonEmpty (Coupon.buyProducts couponData) = true /\
      nonEmpty (Coupon.getProducts couponData) = true
  | _ => True
  end.
Proof.
  unfold validateCouponData. destruct (Coupon.type couponData); try tauto.
  - destruct (nonEmpty (Coupon.applicableProducts couponData)); [tauto|].
    discriminate.
  - destruct (nonEmpty (Coupon.buyProducts couponData)); [|discriminate].
    destruct (nonEmpty (Coupon.getProducts couponData)); [tauto|]. discriminate.
Qed.

(** X10.  [validateCouponData] reports no error exactly when: for a
    cart-wise coupon, the discount value is above 0 and at most 100, no
    applicable product is listed, and neither [buyProducts] nor
    [getProducts] is there at all (an empty array already counts as
    there); for a product-wise coupon, at least one applicable product is
    listed and the two BxGy arrays are not there; for a BxGy coupon, both
    arrays hold an entry and no applicable product is listed. *)
Theorem validateCouponData_accepts_iff (couponData : Coupon.t) :
  validateCouponData couponData = [] <->
  match Coupon.type couponData with
  | CART_WISE =>
      (0 < Coupon.discountValue couponData)%Q /\
      (Coupon.discountValue couponData <= 100)%Q /\
      nonEmpty (Coupon.applicableProducts couponData) = false /\
      Coupon.buyProducts couponData = None /\
      Coupon.getProducts couponData = None
  | PRODUCT_WISE =>
      nonEmpty (Coupon.applicableProducts couponData) = true /\
      Coupon.buyProducts couponData = None /\
      Coupon.getProducts couponData = None
  | BXGY =>
      nonEmpty (Coupon.buyProducts couponData) = true /\
      nonEmpty (Coupon.getProducts couponData) = true /\
      nonEmpty (Coupon.applicableProducts couponData) = false
  | OTHER_TYPE => True
  end.
Proof.
  unfold validateCouponData.
  destruct (Coupon.type couponData); rewrite ?app_nil_iff, ?guard_nil;
    rewrite ?orb_false_iff, ?negb_false_iff, ?present_false; try tauto.
  rewrite Qle_bool_iff. split.
  - intros ((H0 & H1) & Hp & Hb & Hg). repeat split; try assumption.
    destruct (Qlt_le_dec 0 (Coupon.discountValue couponData)) as [H|H]; [exact H|].
    apply Qle_bool_iff in H. congruence.
  - intros (H0 & H1 & Hp & Hb & Hg). repeat split; try assumption.
    destruct (Qle_bool (Coupon.discountValue couponData) 0) eqn:E; [|reflexivity].
    apply Qle_bool_iff in E. lra.
Qed.

(** X11.  A coupon whose data [validateCouponData] lets through is never
    turned down for its configuration: whatever the cart and the clock,
    the reason of an inapplicable result is neither "No applicable products
    defined" nor "Invalid BxGy configuration". *)
Theorem accepted_data_is_configured (now : Z) (coupon : Coupon.t) (c : cart)
    (reason : message) :
  validateCouponData coupon = [] ->
  isCouponApplicable now coupon c = Ok (Inapplicable reason) ->
  reason <> [Txt "No applicable products defined"] /\
  reason <> [Txt "Invalid BxGy configuration"].
Proof.
  intros Hv. apply validateCouponData_accepts_iff_aux in Hv.
  unfold isCouponApplicable.
  destruct (negb (isApplicable now coupon)); [intros [= <-]; split; discriminate|].
  destruct (belowMinimum coupon (calculateCartTotal c));
    [intros [= <-]; split; discriminate|].
  destruct (Coupon.type coupon).
  - discriminate.
  - destruct Hv as [Hp _]. unfold checkProductWiseApplicability.
    destruct (Coupon.applicableProducts coupon) as [[|p ps]|]; try discriminate.
    destruct (cartItems c) as [items|]; simpl; [|discriminate].
    destruct (List.filter _ items); [|discriminate].
    intros [= <-]. split; discriminate.
  - destruct Hv as [Hb Hg]. unfold checkBxGyApplicability. rewrite Hb, Hg. simpl.
    destruct (cartItems c) as [items|]; simpl; [|discriminate].
    match goal with |- context [if ?b then _ else _] => destruct b end;
      [|discriminate].
    intros [= <-]. split; discriminate.
  - intros [= <-]. split; discriminate.
Qed.

Lemma accepted_data_is_configured_holds :
  validateCouponData percentCoupon = [] /\
  exists reason,
    isCouponApplicable 0 percentCoupon (cartOf thousandCart)
    = Ok (Inapplicable reason) /\
    reason <> [Txt "No applicable products defined"] /\
    reason <> [Txt "Invalid BxGy configuration"].
Proof.
  split; [reflexivity|]. eexists. split; [vm_compute; reflexivity|].
  apply (accepted_data_is_configured 0 percentCoupon (cartOf thousandCart));
    [reflexivity | vm_compute; reflexivity].
Defined.

(** ** The rules of the request validator *)

Lemma setSize_cons (x : Z) (l : list Z) :
  setSize (x :: l) = if decide (x ∈ l) then setSize l else S (setSize l).
Proof.
  unfold setSize. rewrite list_to_set_cons. destruct (decide (x ∈ l)) as [Hin|Hnot].
  - f_equal. apply set_eq. intros y. rewrite elem_of_union, elem_of_singleton.
    rewrite !elem_of_list_to_set. split; [intros [->|H]; assumption | auto].
  - rewrite size_union.
    + rewrite size_singleton. reflexivity.
    + intros y Hy Hy'. apply elem_of_singleton in Hy. subst y.
      apply elem_of_list_to_set in Hy'. contradiction.
Qed.

Lemma setSize_le (l : list Z) : (setSize l <= length l)%nat.
Proof.
  induction l as [|x l IH].
  { unfold setSize. change (list_to_set [] : gset Z) with (∅ : gset Z).
    rewrite size_empty. simpl. lia. }
  rewrite setSize_cons. simpl. destruct (decide (x ∈ l)); lia.
Qed.

Lemma setSize_NoDup (l : list Z) : setSize l = length l <-> NoDup l.
Proof.
  split.
  - induction l as [|x l IH]; intros H; [constructor|].
    rewrite setSize_cons in H. simpl in H. pose proof (setSize_le l).
    destruct (decide (x ∈ l)) as [Hin|Hnot]; [lia|].
    constructor; [exact Hnot | apply IH; lia].
  - intros H. apply size_list_to_set. exact H.
Qed.

Lemma find_none_iff {A : Type} (f : A -> bool) (l : list A) :
  List.find f l = None <-> Forall (fun x => f x = false) l.
Proof.
  split.
  - intros H. apply List.Forall_forall. apply find_none. exact H.
  - induction 1 as [|x l Hx _ IH]; simpl; [reflexivity|]. rewrite Hx. exact IH.
Qed.

Lemma filter_nil_iff {A : Type} (f : A -> bool) (l : list A) :
  List.filter f l = [] <-> Forall (fun x => f x = false) l.
Proof.
  induction l as [|x l IH]; simpl.
  - split; [constructor | reflexivity].
  - destruct (f x) eqn:E.
    + split; [discriminate|]. intros H. inversion H; subst. congruence.
    + rewrite IH. split; [constructor; assumption|]. intros H. inversion H; subst.
      assumption.
Qed.

Lemma includes_In (products : list Z) (productId : Z) :
  includes products productId = true <-> In productId products.
Proof.
  unfold includes. rewrite existsb_exists. split.
  - intros (x & Hin & Heq). apply Z.eqb_eq in Heq. subst. exact Hin.
  - intros Hin. exists productId. split; [exact Hin | apply Z.eqb_refl].
Qed.

(** X12.  The BxGy rule of the request validator lets a value through
    exactly when the product ids of the buy entries are pairwise distinct,
    those of the get entries are pairwise distinct, no product is on both
    lists, and every quantity on either list is positive. *)
Theorem bxgyCustom_accepts_iff (buyProducts getProducts : list Req.t) :
  bxgyCustom buyProducts getProducts = None <->
  NoDup (List.map Req.productId buyProducts) /\
  NoDup (List.map Req.productId getProducts) /\
  (forall id, In id (List.map Req.productId buyProducts) ->
              ~ In id (List.map Req.productId getProducts)) /\
  Forall (fun p => 0 < Req.quantity p) buyProducts /\
  Forall (fun p => 0 < Req.quantity p) getProducts.
Proof.
  unfold bxgyCustom.
  set (buyIds := List.map Req.productId buyProducts).
  set (getIds := List.map Req.productId getProducts).
  rewrite <- (setSize_NoDup buyIds), <- (setSize_NoDup getIds).
  assert (forall l : list Req.t,
            List.find (fun p => Req.quantity p <=? 0) l = None <->
            Forall (fun p => 0 < Req.quantity p) l) as Hq.
  { intros l. rewrite find_none_iff. split; intros H;
      (eapply Forall_impl; [exact H|]); intros p Hp; simpl in *.
    - apply Z.leb_gt in Hp. exact Hp.
    - apply Z.leb_gt. exact Hp. }
  assert (List.filter (includes getIds) buyIds = [] <->
          (forall id, In id buyIds -> ~ In id getIds)) as Ho.
  { rewrite filter_nil_iff, List.Forall_forall. split; intros H id Hin.
    - intros Hg. apply includes_In in Hg. rewrite (H id Hin) in Hg. discriminate.
    - destruct (includes getIds id) eqn:E; [|reflexivity].
      apply includes_In in E. exfalso. exact (H id Hin E). }
  destruct (Nat.eqb_spec (setSize buyIds) (length buyIds)) as [Hb|Hb]; simpl;
    [|split; [discriminate | intros (H & _); contradiction]].
  destruct (Nat.eqb_spec (setSize getIds) (length getIds)) as [Hg|Hg]; simpl;
    [|split; [discriminate | intros (_ & H & _); contradiction]].
  destruct (List.filter (includes getIds) buyIds) as [|o os] eqn:Ef; simpl.
  - destruct (List.find _ buyProducts) as [p|] eqn:Efb.
    + split; [discriminate|]. intros (_ & _ & _ & H & _).
      apply Hq in H. congruence.
    + destruct (List.find _ getProducts) as [p|] eqn:Efg.
      * split; [discriminate|]. intros (_ & _ & _ & _ & H).
        apply Hq in H. congruence.
      * split; [|reflexivity]. intros _.
        repeat split; try assumption; try (apply Hq; assumption).
        apply Ho. reflexivity.
  - split; [discriminate|]. intros (_ & _ & H & _). apply Ho in H. discriminate.
Qed.



(** ** The request handlers *)

Lemma usable_parts (now : Z) (c : Coupon.t) :
  isApplicable now c = true ->
  Coupon.isActive c = true /\
  (forall d, Coupon.expirationDate c = Some d -> now <= d) /\
  (forall u, Coupon.usageLimit c = Some u -> u <> 0 -> Coupon.currentUsage c < u).
Proof.
  unfold isApplicable, isExpired, isUsageLimitReached.
  rewrite !andb_true_iff, !negb_true_iff. intros [[Ha He] Hu].
  split; [exact Ha|]. split.
  - intros d Hd. rewrite Hd in He. apply Z.ltb_ge in He. exact He.
  - intros u Hu' Hnz. rewrite Hu' in Hu. simpl in Hu.
    apply Z.eqb_neq in Hnz. rewrite Hnz in Hu. simpl in Hu.
    apply Z.leb_gt in Hu. exact Hu.
Qed.

Lemma nonzero_discount_usable (now : Z) (coupon : Coupon.t) (c : cart)
    (discountResult : DiscountResult.t) :
  calculateDiscount now coupon c = Ok discountResult ->
  ~ (DiscountResult.discount discountResult == 0)%Q ->
  isApplicable now coupon = true.
Proof.
  intros Hdr Hnz. destruct (isApplicable now coupon) eqn:E; [reflexivity|].
  unfold calculateDiscount in Hdr. rewrite (unusable_reason _ _ _ E) in Hdr.
  simpl in Hdr. injection Hdr as <-. exfalso. apply Hnz. reflexivity.
Qed.

Lemma readCoupon_weaken (h h1 : heap) (l : loc) (coupon : Coupon.t) :
  h ⊆ h1 -> readCoupon h l = Some coupon -> readCoupon h1 l = Some coupon.
Proof.
  unfold readCoupon. intros Hsub.
  destruct (h !! l) as [[]|] eqn:E; try discriminate.
  rewrite (lookup_weaken _ _ _ _ E Hsub). auto.
Qed.

Lemma readCoupon_cell (h : heap) (l : loc) (coupon : Coupon.t) :
  readCoupon h l = Some coupon <-> h !! l = Some (CouponCell coupon).
Proof.
  unfold readCoupon. destruct (h !! l) as [[]|]; split; intros H;
    try discriminate; congruence.
Qed.

(** The cases of a request, spelled out. *)
Lemma applyCoupon_cases (now : Z) (h h' : heap) (validation : string + option loc)
    (id : loc) (r : response) :
  applyCoupon now h validation id = (h', r) ->
  (isApplied r = false /\ h' = h) \/
  (exists coupon value updatedCart discountResult h1,
     validation = inr value /\
     readCoupon h id = Some coupon /\
     applyCouponToCart now h id value = Ok (h1, (updatedCart, discountResult)) /\
     h ⊆ h1 /\
     h' = <[id := CouponCell (incrementUsage coupon)]> h1 /\
     r = Applied (Coupon._id coupon) (Coupon.code coupon) (Coupon.type coupon)
                 updatedCart discountResult /\
     isApplicable now coupon = true).
Proof.
  unfold applyCoupon. destruct validation as [error|value];
    [intros [= <- <-]; left; auto|].
  destruct (readCoupon h id) as [coupon|] eqn:Ec; [|intros [= <- <-]; left; auto].
  destruct (applyCouponToCart now h id value) as [[h1 [uc dr]]|e] eqn:Ea;
    [|intros [= <- <-]; left; auto].
  pose proof (apply_success _ _ _ _ _ _ _ Ea)
    as (coupon' & l' & src & c & Hcp & Hdr & Hnz & _ & _ & (Hsub & _) & _).
  apply readCoupon_cell in Hcp. assert (coupon' = coupon) as -> by congruence.
  rewrite (readCoupon_weaken _ _ _ _ Hsub Ec). intros [= <- <-]. right.
  exists coupon, value, uc, dr, h1. repeat split; try assumption.
  eapply nonzero_discount_usable; eassumption.
Qed.

(** X14.  A request to apply a coupon that is answered with success has
    raised the stored [currentUsage] of that coupon by exactly 1, has left
    every other property of the coupon and every other cell that was in the
    store as they were, and carries the discount [calculateDiscount] gives
    for the validated cart, which is not 0; a request answered in any other
    way leaves the store as it was. *)
Theorem applyCoupon_effect (now : Z) (h h' : heap) (validation : string + option loc)
    (id : loc) (r : response) :
  applyCoupon now h validation id = (h', r) ->
  match r with
  | Applied couponId code type updatedCart discountResult =>
      exists coupon value,
        validation = inr value /\
        readCoupon h id = Some coupon /\
        readCoupon h' id = Some (incrementUsage coupon) /\
        Coupon.currentUsage (incrementUsage coupon) = Coupon.currentUsage coupon + 1 /\
        Coupon.usageLimit (incrementUsage coupon) = Coupon.usageLimit coupon /\
        (forall l c, l <> id -> h !! l = Some c -> h' !! l = Some c) /\
        (couponId, code, type)
        = (Coupon._id coupon, Coupon.code coupon, Coupon.type coupon) /\
        calculateDiscount now coupon (readCart h value) = Ok discountResult /\
        ~ (DiscountResult.discount discountResult == 0)%Q
  | _ => h' = h
  end.
Proof.
  intros H. destruct (applyCoupon_cases _ _ _ _ _ _ H)
    as [[Hr ->]|(coupon & value & uc & dr & h1 & -> & Hc & Ha & Hsub & -> & -> & _)].
  - destruct r; try reflexivity. discriminate.
  - pose proof (apply_success _ _ _ _ _ _ _ Ha)
      as (coupon' & l' & src & c & Hcp & Hdr & Hnz & _).
    apply readCoupon_cell in Hcp. assert (coupon' = coupon) as -> by congruence.
    exists coupon, value. split; [reflexivity|]. split; [exact Hc|].
    split; [apply readCoupon_cell; apply lookup_insert_eq|].
    split; [reflexivity|]. split; [reflexivity|].
    split; [|split; [reflexivity|split; assumption]].
    intros l x Hne Hl. rewrite lookup_insert_ne by congruence.
    eapply lookup_weaken; eassumption.
Qed.

Lemma applyCoupon_effect_holds :
  exists h' updatedCart discountResult,
    applyCoupon 0 (storeOf percentCoupon twoLines).1.1
                (inr (storeOf percentCoupon twoLines).2)
                (storeOf percentCoupon twoLines).1.2
    = (h', Applied 2 "PROD20" PRODUCT_WISE updatedCart discountResult) /\
    readCoupon h' (storeOf percentCoupon twoLines).1.2
    = Some (incrementUsage percentCoupon).
Proof.
  eassert (applyCoupon 0 (storeOf percentCoupon twoLines).1.1
                       (inr (storeOf percentCoupon twoLines).2)
                       (storeOf percentCoupon twoLines).1.2
           = (_, Applied _ _ _ _ _)) as E by (vm_compute; reflexivity).
  pose proof (applyCoupon_effect _ _ _ _ _ _ E) as (coupon & value & _ & Hc & Hc' & _).
  do 3 eexists. split; [exact E|].
  vm_compute in Hc. injection Hc as <-. exact Hc'.
Defined.

(** X15.  However many requests to apply a coupon with a usage limit are
    served one after the other, whatever their carts and clock readings,
    the number answered with success is at most the limit less the usage
    the coupon started with, and the stored usage ends at the starting
    usage plus that number. *)
Theorem usage_limit_respected (requests : list (Z * (string + option loc)))
    (h : heap) (id : loc) (coupon : Coupon.t) (u : Z) :
  readCoupon h id = Some coupon ->
  Coupon.usageLimit coupon = Some u ->
  u <> 0 ->
  exists coupon',
    readCoupon (applyCouponAll h id requests).1 id = Some coupon' /\
    Coupon.usageLimit coupon' = Some u /\
    Coupon.currentUsage coupon'
    = Coupon.currentUsage coupon
      + Z.of_nat (length (List.filter isApplied (applyCouponAll h id requests).2)) /\
    Z.of_nat (length (List.filter isApplied (applyCouponAll h id requests).2))
    <= Z.max 0 (u - Coupon.currentUsage coupon).
Proof.
  revert h coupon.
  induction requests as [|[now validation] rest IH]; intros h coupon Hc Hu Hnz.
  - simpl. exists coupon. repeat split; try assumption; lia.
  - cbn [applyCouponAll].
    destruct (applyCoupon now h validation id) as [h1 r] eqn:E1.
    destruct (applyCoupon_cases _ _ _ _ _ _ E1)
      as [[Hr ->]|(coupon0 & value & uc & dr & h0 & _ & Hc0 & _ & _ & -> & -> & Happ)].
    + destruct (IH h coupon Hc Hu Hnz) as (coupon' & Hc' & Hu' & Hk & Hle).
      destruct (applyCouponAll h id rest) as [h2 rs]. simpl in *.
      rewrite Hr. exists coupon'. auto.
    + assert (coupon0 = coupon) as -> by congruence.
      destruct (usable_parts _ _ Happ) as (_ & _ & Hlim).
      specialize (Hlim u Hu Hnz).
      destruct (IH (<[id := CouponCell (incrementUsage coupon)]> h0)
                   (incrementUsage coupon))
        as (coupon' & Hc' & Hu' & Hk & Hle).
      * apply readCoupon_cell. apply lookup_insert_eq.
      * exact Hu.
      * exact Hnz.
      * destruct (applyCouponAll _ id rest) as [h2 rs]. simpl in *.
        exists coupon'. repeat split; try assumption; lia.
Qed.

Lemma usage_limit_respected_holds :
  List.map isApplied
           (applyCouponAll (storeOf usableTwice twoLines).1.1
                           (storeOf usableTwice twoLines).1.2 threeRequests).2
  = [true; true; false] /\
  Z.of_nat (length (List.filter isApplied
                      (applyCouponAll (storeOf usableTwice twoLines).1.1
                                      (storeOf usableTwice twoLines).1.2
                                      threeRequests).2))
  <= Z.max 0 (2 - 0).
Proof.
  split; [vm_compute; reflexivity|].
  destruct (usage_limit_respected threeRequests
              (storeOf usableTwice twoLines).1.1
              (storeOf usableTwice twoLines).1.2 usableTwice 2 eq_refl eq_refl)
    as (coupon' & _ & _ & _ & Hle).
  - discriminate.
  - exact Hle.
Defined.

(** X16.  [getApplicableCoupons] with the query it sends, which retrieves
    the stored coupons at [queryTime] before they are evaluated at [now],
    answers for every cart that has lines, and every entry it lists belongs
    to a stored
    coupon that is switched on, whose expiration date, if it has one, lies
    strictly after the time of the query and not before the time of the
    evaluation, whose usage is below its limit if it has one, and whose
    discount on the cart is positive. *)
Theorem listing_only_current_coupons (queryTime now : Z) (items : list Item.t)
    (couponModel : list Coupon.t) :
  exists ranked,
    getApplicableCouponsOf queryTime now (cartOf items) couponModel = Ok ranked /\
    forall r,
      In r ranked ->
      exists coupon discountResult,
        In coupon couponModel /\
        r = rankedOf coupon discountResult /\
        calculateDiscount now coupon (cartOf items) = Ok discountResult /\
        (0 < DiscountResult.discount discountResult)%Q /\
        Coupon.isActive coupon = true /\
        (forall d, Coupon.expirationDate coupon = Some d -> queryTime < d /\ now <= d) /\
        (forall u, Coupon.usageLimit coupon = Some u -> u <> 0 ->
                   Coupon.currentUsage coupon < u).
Proof.
  exists (sortBy byDiscountDesc
            (candidates now (cartOf items) (findActive queryTime couponModel))).
  split.
  { unfold getApplicableCouponsOf, getApplicableCoupons.
    rewrite rank_loop by (intros; apply calculateDiscount_total). reflexivity. }
  intros r Hr.
  apply (Permutation_in _ (sortBy_perm _ _)) in Hr.
  apply candidates_spec in Hr. destruct Hr as (coupon & dr & Hin & Hdr & Hpos & ->).
  unfold findActive in Hin. apply filter_In in Hin. destruct Hin as [Hin Hq].
  unfold activeQuery in Hq. apply andb_true_iff in Hq. destruct Hq as [Ha Hq].
  assert (isApplicable now coupon = true) as Happ.
  { eapply nonzero_discount_usable; [exact Hdr|]. intros H0. rewrite H0 in Hpos. lra. }
  destruct (usable_parts _ _ Happ) as (_ & He & Hu).
  exists coupon, dr. repeat split; try assumption.
  - rewrite H in Hq. apply Z.ltb_lt in Hq. exact Hq.
  - apply He. assumption.
Qed.

(** X17.  When the ranking of [getApplicableCoupons] is not empty, no
    retrieved coupon gives the cart a larger discount than the one listed
    first. *)
Theorem first_listed_is_best (now : Z) (items : list Item.t)
    (coupons : list Coupon.t) (best : Ranked.t) (rest : list Ranked.t)
    (coupon : Coupon.t) (discountResult : DiscountResult.t) :
  getApplicableCoupons now (cartOf items) coupons = Ok (best :: rest) ->
  In coupon coupons ->
  calculateDiscount now coupon (cartOf items) = Ok discountResult ->
  (DiscountResult.discount discountResult <= Ranked.discount best)%Q.
Proof.
  unfold getApplicableCoupons.
  rewrite rank_loop by (intros; apply calculateDiscount_total).
  cbn [app mbind outcome_bind]. intros [= Hs] Hin Hdr.
  pose proof (sortBy_descending (candidates now (cartOf items) coupons)) as Hsorted.
  pose proof (sortBy_perm byDiscountDesc (candidates now (cartOf items) coupons))
    as Hperm.
  rewrite Hs in Hsorted, Hperm.
  assert (0 < Ranked.discount best)%Q as Hbest.
  { assert (In best (candidates now (cartOf items) coupons)) as Hb
      by (eapply Permutation_in; [exact Hperm | left; reflexivity]).
    apply candidates_spec in Hb. destruct Hb as (c0 & d0 & _ & _ & Hpos & ->).
    exact Hpos. }
  destruct (positiveQ (DiscountResult.discount discountResult)) eqn:Ep.
  - apply positiveQ_lt in Ep.
    assert (In (rankedOf coupon discountResult) (best :: rest)) as Hr.
    { eapply Permutation_in; [symmetry; exact Hperm|].
      apply candidates_spec. exists coupon, discountResult. auto. }
    destruct Hr as [Hb|Hr]; [rewrite Hb; simpl; lra|].
    apply StronglySorted_inv in Hsorted. destruct Hsorted as [_ Hall].
    rewrite List.Forall_forall in Hall. apply (Hall _ Hr).
  - apply positiveQ_false in Ep. lra.
Qed.

Lemma first_listed_is_best_holds :
  exists best rest discountResult,
    getApplicableCoupons 0 (cartOf thousandCart)
                         [fivePercent; twentyPercent; switchedOff]
    = Ok (best :: rest) /\
    calculateDiscount 0 fivePercent (cartOf thousandCart) = Ok discountResult /\
    (DiscountResult.discount discountResult <= Ranked.discount best)%Q.
Proof.
  eassert (getApplicableCoupons 0 (cartOf thousandCart)
                                [fivePercent; twentyPercent; switchedOff]
           = Ok (_ :: _)) as E by (vm_compute; reflexivity).
  eassert (calculateDiscount 0 fivePercent (cartOf thousandCart) = Ok _) as Ed
    by (vm_compute; reflexivity).
  do 3 eexists. split; [exact E|]. split; [exact Ed|].
  apply (first_listed_is_best _ _ _ _ _ fivePercent _ E);
    [left; reflexivity | exact Ed].
Defined.

(** ** The returned cart, line by line *)

Lemma allocItems_NoDup (items : list Item.t) (h h1 : heap) (elems : list loc) :
  allocItems h items = (h1, elems) -> NoDup elems.
Proof.
  revert h h1 elems. induction items as [|item rest IH]; intros h h1 elems;
    cbn [allocItems].
  - intros [= <- <-]. constructor.
  - destruct (alloc h (ItemCell item)) as [h' l] eqn:Ea.
    destruct (allocItems h' rest) as [h2 ls] eqn:Er.
    intros [= <- <-].
    destruct (alloc_spec _ _ _ _ Ea) as [_ ->].
    destruct (allocItems_spec _ _ _ _ Er) as [_ Hall].
    constructor; [|eapply IH; exact Er].
    intros Hin. apply list_elem_of_In in Hin.
    destruct (Forall2_In_l _ _ _ _ Hall Hin) as (y & Hl & _).
    rewrite lookup_insert_eq in Hl. discriminate.
Qed.

Lemma mirrors_read (h : heap) (l' : loc) (lines : list Item.t) :
  mirrors h l' lines -> readCart h (Some l') = CartObject (Some lines).
Proof.
  intros (c' & a' & elems' & Hc & Hi & Ha & _ & Hall).
  unfold readCart. rewrite Hc, Hi. cbn [mbind option_bind].
  unfold readItems. rewrite Ha. cbn [mbind option_bind].
  apply mapM_Some in Hall. rewrite Hall. reflexivity.
Qed.

Lemma jsonClone_mirrors (h h1 : heap) (r updatedCart : option loc)
    (lines : list Item.t) :
  jsonClone h r = (h1, updatedCart) ->
  readCart h r = CartObject (Some lines) ->
  exists l', updatedCart = Some l' /\ mirrors h1 l' lines.
Proof.
  unfold jsonClone, readCart. destruct r as [l|]; [|discriminate].
  destruct (readCartObj h l) as [c|] eqn:Ec; [|discriminate].
  destruct (CartObj.items c ≫= readItems h) as [items|] eqn:Ei; [|discriminate].
  destruct (allocItems h items) as [h' elems'] eqn:Ea.
  destruct (alloc h' (ArrayCell elems')) as [h2 a'] eqn:Eb.
  destruct (alloc h2 _) as [h3 l'] eqn:Ed.
  intros [= <- <-] [= ->].
  destruct (allocItems_spec _ _ _ _ Ea) as [_ Hall].
  pose proof (allocItems_NoDup _ _ _ _ Ea) as Hnd.
  destruct (alloc_spec _ _ _ _ Eb) as [Ha' ->].
  destruct (alloc_spec _ _ _ _ Ed) as [Hl' ->].
  assert (h' ⊆ <[a' := ArrayCell elems']> h') as Hsub2
      by (apply insert_subseteq; exact Ha').
  assert (<[a' := ArrayCell elems']> h' ⊆ <[l' := CartCell
            (CartObj.mk (Some a') (CartObj.totalPrice c) (CartObj.totalDiscount c)
                        (CartObj.finalPrice c) (CartObj.appliedCoupon c))]>
            (<[a' := ArrayCell elems']> h')) as Hsub3
      by (apply insert_subseteq; exact Hl').
  exists l'. split; [reflexivity|].
  eexists _, a', elems'. split; [apply readCartObj_insert_cart|].
  split; [reflexivity|]. split.
  { apply (readArray_weaken _ _ _ _ Hsub3). unfold readArray.
    rewrite lookup_insert_eq. reflexivity. }
  split; [exact Hnd|].
  eapply Forall2_impl; [exact Hall|].
  intros e it [_ Hr].
  apply (readItem_weaken h'); [etransitivity; eassumption | exact Hr].
Qed.

Lemma Forall2_impl_In {A B : Type} (P R : A -> B -> Prop) (l : list A) (k : list B) :
  Forall2 P l k -> (forall x y, In x l -> P x y -> R x y) -> Forall2 R l k.
Proof.
  induction 1 as [|a b l k Hab _ IH]; intros Himp; constructor.
  - apply Himp; [left; reflexivity | exact Hab].
  - apply IH. intros x y Hin. apply Himp. right. exact Hin.
Qed.

(** [find] on the cells and [updateFirst] on the lines pick the same line. *)
Lemma find_update (h : heap) (productId : Z) (f : Item.t -> Item.t)
    (elems : list loc) (lines : list Item.t) :
  NoDup elems ->
  Forall2 (fun e line => readItem h e = Some line) elems lines ->
  match findItemLoc h productId elems with
  | Some l =>
      exists item,
        readItem h l = Some item /\ In l elems /\
        Forall2 (fun e line => readItem (<[l := ItemCell (f item)]> h) e = Some line)
                elems (updateFirst productId f lines)
  | None => updateFirst productId f lines = lines
  end.
Proof.
  intros Hnd Hall. induction Hall as [|e line es ls He Hall IH].
  - reflexivity.
  - apply NoDup_cons in Hnd. destruct Hnd as [Hnot Hnd].
    unfold findItemLoc. cbn [List.find updateFirst]. rewrite He.
    destruct (Item.productId line =? productId) eqn:Ep.
    + exists line. split; [exact He|]. split; [left; reflexivity|].
      constructor.
      * rewrite readItem_insert_item. destruct (decide (e = e)); congruence.
      * eapply Forall2_impl_In; [exact Hall|]. intros e' line' Hin Hr.
        rewrite readItem_insert_item. destruct (decide (e = e')) as [<-|]; [|exact Hr].
        exfalso. apply Hnot. apply list_elem_of_In. exact Hin.
    + specialize (IH Hnd). fold (findItemLoc h productId es).
      destruct (findItemLoc h productId es) as [l|].
      * destruct IH as (item & Hr & Hin & HF). exists item.
        split; [exact Hr|]. split; [right; exact Hin|].
        constructor; [|exact HF].
        rewrite readItem_insert_item. destruct (decide (l = e)) as [->|]; [|exact He].
        exfalso. apply Hnot. apply list_elem_of_In. exact Hin.
      * rewrite IH. reflexivity.
Qed.

Lemma write_first (h : heap) (l' : loc) (lines : list Item.t) (productId : Z)
    (f : Item.t -> Item.t) :
  mirrors h l' lines ->
  exists elems,
    updatedCartItems h (Some l') = Ok elems /\
    match findItemLoc h productId elems with
    | Some l =>
        exists item,
          readItem h l = Some item /\
          mirrors (<[l := ItemCell (f item)]> h) l' (updateFirst productId f lines)
    | None => updateFirst productId f lines = lines
    end.
Proof.
  intros (c' & a' & elems' & Hc & Hi & Ha & Hnd & Hall). exists elems'. split.
  { unfold updatedCartItems. cbn [mbind option_bind]. rewrite Hc, Hi.
    cbn [mbind option_bind]. rewrite Ha. reflexivity. }
  pose proof (find_update h productId f _ _ Hnd Hall) as Hf.
  destruct (findItemLoc h productId elems') as [l|]; [|exact Hf].
  destruct Hf as (item & Hr & Hin & HF). exists item. split; [exact Hr|].
  exists c', a', elems'.
  split; [apply readCartObj_insert_other; [exact Hc | left; congruence]|].
  split; [exact Hi|].
  split; [apply readArray_insert_other; [exact Ha | right; congruence]|].
  split; assumption.
Qed.

Lemma applyItemDiscount_mirrors (h : heap) (l' : loc) (lines : list Item.t)
    (e : ItemDiscount.t) :
  mirrors h l' lines ->
  exists h2,
    applyItemDiscount (Some l') (Ok h) e = Ok h2 /\
    mirrors h2 l' (annotateItemDiscount lines e).
Proof.
  intros Hm.
  destruct (write_first h l' lines (ItemDiscount.productId e)
              (fun item => addItemDiscount item (ItemDiscount.itemDiscount e)) Hm)
    as (elems & Hu & Hf).
  unfold applyItemDiscount, annotateItemDiscount, mbind, outcome_bind. rewrite Hu.
  destruct (findItemLoc h (ItemDiscount.productId e) elems) as [l|].
  - destruct Hf as (item & Hr & Hm'). rewrite Hr. eexists. split; [reflexivity|].
    exact Hm'.
  - rewrite Hf. eexists. split; [reflexivity | exact Hm].
Qed.

Lemma applyFreeItem_mirrors (h : heap) (l' : loc) (lines : list Item.t)
    (e : FreeItem.t) :
  mirrors h l' lines ->
  exists h2,
    applyFreeItem (Some l') (Ok h) e = Ok h2 /\
    mirrors h2 l' (annotateFreeItem lines e).
Proof.
  intros Hm.
  destruct (write_first h l' lines (FreeItem.productId e)
              (fun item => setFreeQuantity
                             (addItemDiscount item (FreeItem.itemDiscount e))
                             (FreeItem.freeQuantity e)) Hm)
    as (elems & Hu & Hf).
  unfold applyFreeItem, annotateFreeItem, mbind, outcome_bind. rewrite Hu.
  destruct (findItemLoc h (FreeItem.productId e) elems) as [l|].
  - destruct Hf as (item & Hr & Hm'). rewrite Hr.
    destruct (positiveQ (FreeItem.itemDiscount e));
      eexists; (split; [reflexivity|]); assumption.
  - rewrite Hf. exists h. split; [reflexivity|].
    destruct (positiveQ (FreeItem.itemDiscount e)); exact Hm.
Qed.

Lemma itemDiscounts_mirrors (l' : loc) (ds : list ItemDiscount.t) (h : heap)
    (lines : list Item.t) :
  mirrors h l' lines ->
  exists h2,
    fold_left (applyItemDiscount (Some l')) ds (Ok h) = Ok h2 /\
    mirrors h2 l' (fold_left annotateItemDiscount ds lines).
Proof.
  revert h lines. induction ds as [|e ds IH]; intros h lines Hm; cbn [fold_left].
  - exists h. auto.
  - destruct (applyItemDiscount_mirrors _ _ _ e Hm) as (h1 & -> & Hm1).
    apply IH. exact Hm1.
Qed.

Lemma freeItems_mirrors (l' : loc) (fs : list FreeItem.t) (h : heap)
    (lines : list Item.t) :
  mirrors h l' lines ->
  exists h2,
    fold_left (applyFreeItem (Some l')) fs (Ok h) = Ok h2 /\
    mirrors h2 l' (fold_left annotateFreeItem fs lines).
Proof.
  revert h lines. induction fs as [|e fs IH]; intros h lines Hm; cbn [fold_left].
  - exists h. auto.
  - destruct (applyFreeItem_mirrors _ _ _ e Hm) as (h1 & -> & Hm1).
    apply IH. exact Hm1.
Qed.

Lemma mirrors_cart_update (h : heap) (l' : loc) (lines : list Item.t)
    (c c' : CartObj.t) :
  mirrors h l' lines ->
  readCartObj h l' = Some c ->
  CartObj.items c' = CartObj.items c ->
  mirrors (<[l' := CartCell c']> h) l' lines.
Proof.
  intros (c0 & a' & elems' & Hc & Hi & Ha & Hnd & Hall) Hc' Hitems.
  assert (c0 = c) as -> by congruence.
  exists c', a', elems'. split; [apply readCartObj_insert_cart|].
  split; [congruence|].
  split; [apply readArray_insert_other; [exact Ha | left; congruence]|].
  split; [exact Hnd|].
  eapply Forall2_impl; [exact Hall|]. intros e line Hr.
  apply readItem_insert_other; [exact Hr | left; congruence].
Qed.

Lemma setTotals_mirrors (h : heap) (l' : loc) (lines : list Item.t)
    (cartTotal discount : Q) :
  mirrors h l' lines ->
  exists h2,
    setTotals h (Some l') cartTotal discount = Ok h2 /\ mirrors h2 l' lines.
Proof.
  intros Hm. pose proof Hm as (c & _ & _ & Hc & _).
  unfold setTotals. rewrite Hc. eexists. split; [reflexivity|].
  eapply mirrors_cart_update; [exact Hm | exact Hc | reflexivity].
Qed.

Lemma setAppliedCoupon_mirrors (h : heap) (l' : loc) (lines : list Item.t)
    (s : Stamp.t) :
  mirrors h l' lines ->
  exists h2,
    setAppliedCoupon h (Some l') s = Ok h2 /\ mirrors h2 l' lines.
Proof.
  intros Hm. pose proof Hm as (c & _ & _ & Hc & _).
  unfold setAppliedCoupon. rewrite Hc. eexists. split; [reflexivity|].
  eapply mirrors_cart_update; [exact Hm | exact Hc | reflexivity].
Qed.

(** X18.  The lines of the cart [applyCouponToCart] returns are the lines
    of the request cart after the writes spelled out by [annotatedLines]:
    for a product-wise coupon each entry of [itemDiscounts] in turn, and for
    a BxGy coupon each entry of [freeItems] with a positive discount in
    turn, is added to the first line carrying its product; every other
    line, and every line under a cart-wise coupon, is as in the request. *)
Theorem returned_lines_refine (now : Z) (h h' : heap) (couponRef : loc)
    (cartRef updatedCart : option loc) (discountResult : DiscountResult.t)
    (coupon : Coupon.t) (lines : list Item.t) :
  applyCouponToCart now h couponRef cartRef
  = Ok (h', (updatedCart, discountResult)) ->
  readCoupon h couponRef = Some coupon ->
  readCart h cartRef = CartObject (Some lines) ->
  readCart h' updatedCart
  = CartObject (Some (annotatedLines (Coupon.type coupon) discountResult lines)).
Proof.
  intros Ha Hc Hl. apply readCoupon_cell in Hc.
  unfold applyCouponToCart in Ha. rewrite Hc in Ha.
  unfold mbind, outcome_bind in Ha.
  destruct (calculateDiscount now coupon (readCart h cartRef)) as [dr|] eqn:Hdr;
    [|discriminate].
  destruct (Qeq_bool (DiscountResult.discount dr) 0); [discriminate|].
  destruct (jsonClone h cartRef) as [h1 uc] eqn:Ej.
  destruct (jsonClone_mirrors _ _ _ _ _ Ej Hl) as (l' & -> & Hm).
  assert (forall h2,
            match Coupon.type coupon with
            | CART_WISE =>
                setTotals h1 (Some l') (calculateCartTotal (readCart h cartRef))
                          (DiscountResult.discount dr)
            | PRODUCT_WISE =>
                match property (DiscountResult.itemDiscounts dr) with
                | Ok itemDiscounts =>
                    match fold_left (applyItemDiscount (Some l')) itemDiscounts (Ok h1)
                    with
                    | Ok h0 => setTotals h0 (Some l')
                                (calculateCartTotal (readCart h cartRef))
                                (DiscountResult.discount dr)
                    | Throw e => Throw e
                    end
                | Throw e => Throw e
                end
            | BXGY =>
                match property (DiscountResult.freeItems dr) with
                | Ok freeItems =>
                    match fold_left (applyFreeItem (Some l')) freeItems (Ok h1) with
                    | Ok h0 => setTotals h0 (Some l')
                                (calculateCartTotal (readCart h cartRef))
                                (DiscountResult.discount dr)
                    | Throw e => Throw e
                    end
                | Throw e => Throw e
                end
            | OTHER_TYPE => Ok h1
            end = Ok h2 ->
            mirrors h2 l' (annotatedLines (Coupon.type coupon) dr lines)) as Hstep.
  { intros h2. unfold annotatedLines. destruct (Coupon.type coupon).
    - destruct (setTotals_mirrors h1 l' lines
                  (calculateCartTotal (readCart h cartRef))
                  (DiscountResult.discount dr) Hm) as (h3 & -> & Hm3).
      intros [= <-]. exact Hm3.
    - destruct (DiscountResult.itemDiscounts dr) as [ds|]; cbn [property default];
        [|discriminate].
      destruct (itemDiscounts_mirrors l' ds h1 lines Hm) as (h3 & E3 & Hm3).
      rewrite E3. cbv beta iota.
      destruct (setTotals_mirrors h3 l' _
                  (calculateCartTotal (readCart h cartRef))
                  (DiscountResult.discount dr) Hm3) as (h4 & -> & Hm4).
      intros [= <-]. exact Hm4.
    - destruct (DiscountResult.freeItems dr) as [fs|]; cbn [property default];
        [|discriminate].
      destruct (freeItems_mirrors l' fs h1 lines Hm) as (h3 & E3 & Hm3).
      rewrite E3. cbv beta iota.
      destruct (setTotals_mirrors h3 l' _
                  (calculateCartTotal (readCart h cartRef))
                  (DiscountResult.discount dr) Hm3) as (h4 & -> & Hm4).
      intros [= <-]. exact Hm4.
    - intros [= <-]. exact Hm. }
  match type of Ha with
  | match ?step with Ok _ => _ | Throw _ => _ end = _ =>
      destruct step as [h2|] eqn:E2; [|discriminate]
  end.
  specialize (Hstep h2 eq_refl).
  match type of Ha with
  | match setAppliedCoupon h2 (Some l') ?s with Ok _ => _ | Throw _ => _ end = _ =>
      destruct (setAppliedCoupon_mirrors h2 l' _ s Hstep) as (h3 & E3 & Hm3);
      rewrite E3 in Ha
  end.
  injection Ha as <- <- <-. apply mirrors_read. exact Hm3.
Qed.

Lemma returned_lines_refine_holds :
  exists h' updatedCart discountResult,
    applyCouponToCart 0 (storeOf percentCoupon twoLines).1.1
                      (storeOf percentCoupon twoLines).1.2
                      (storeOf percentCoupon twoLines).2
    = Ok (h', (updatedCart, discountResult)) /\
    readCart h' updatedCart
    = CartObject (Some (annotatedLines PRODUCT_WISE discountResult twoLines)).
Proof.
  eassert (applyCouponToCart 0 (storeOf percentCoupon twoLines).1.1
                             (storeOf percentCoupon twoLines).1.2
                             (storeOf percentCoupon twoLines).2
           = Ok (_, (_, _))) as E by (vm_compute; reflexivity).
  do 3 eexists. split; [exact E|].
  apply (returned_lines_refine _ _ _ _ _ _ _ percentCoupon twoLines E);
    vm_compute; reflexivity.
Defined.

(** ** What the lines record *)












Lemma updateFirst_Forall2 (R : Item.t -> Item.t -> Prop) (productId : Z)
    (f : Item.t -> Item.t) (lines cur : list Item.t) :
  (forall line x, R line x -> R line (f x)) ->
  Forall2 R lines cur ->
  Forall2 R lines (updateFirst productId f cur).
Proof.
  intros Hf Hall. induction Hall as [|line x lines cur Hx Hall IH];
    cbn [updateFirst]; [constructor|].
  destruct (Item.productId x =? productId); constructor; auto.
Qed.

Lemma addItemDiscount_shape (line x : Item.t) (d : Q) :
  core x = core line ->
  core (addItemDiscount x d) = core line /\
  exists t,
    Item.totalDiscount (addItemDiscount x d) = Some t /\
    Item.discountedPrice (addItemDiscount x d)
    = Some (Item.price line * inject_Z (Item.quantity line) - t)%Q.
Proof.
  unfold core. intros [= Hp Hq Hpr]. split; [simpl; congruence|].
  eexists. split; [reflexivity|]. simpl. rewrite Hq, Hpr. reflexivity.
Qed.

(** X20.  Whatever the coupon and the result, the writes of
    [annotatedLines] leave the product, the quantity and the price of every
    line as they were, keep the lines in their places, and leave a line
    either exactly as it was or with a [totalDiscount] and a
    [discountedPrice] equal to the line's price times its quantity less
    that [totalDiscount]. *)
Theorem annotated_lines_keep_shape (type : couponType)
    (discountResult : DiscountResult.t) (lines : list Item.t) :
  Forall2 (fun line line' =>
             core line' = core line /\
             (line' = line \/
              exists t,
                Item.totalDiscount line' = Some t /\
                Item.discountedPrice line'
                = Some (Item.price line * inject_Z (Item.quantity line) - t)%Q))
          lines (annotatedLines type discountResult lines).
Proof.
  set (R := fun line line' : Item.t =>
              core line' = core line /\
              (line' = line \/
               exists t,
                 Item.totalDiscount line' = Some t /\
                 Item.discountedPrice line'
                 = Some (Item.price line * inject_Z (Item.quantity line) - t)%Q)).
  assert (Forall2 R lines lines) as Hstart.
  { clear. induction lines; constructor; [|assumption]. split; auto. }
  assert (forall d line x, R line x -> R line (addItemDiscount x d)) as Hadd.
  { intros d line x [Hc _].
    destruct (addItemDiscount_shape line x d Hc) as [Hc' Ht].
    split; [exact Hc' | right; exact Ht]. }
  assert (forall d n line x,
            R line x -> R line (setFreeQuantity (addItemDiscount x d) n)) as Hfree.
  { intros d n line x Hx. destruct (Hadd d line x Hx) as [Hc [Heq|Ht]].
    - split; [exact Hc|]. right.
      destruct Hx as [Hc0 _].
      destruct (addItemDiscount_shape line x d Hc0) as [_ Ht]. exact Ht.
    - split; [exact Hc | right; exact Ht]. }
  unfold annotatedLines. destruct type; try exact Hstart.
  - generalize (default [] (DiscountResult.itemDiscounts discountResult)).
    intros ds.
    assert (forall cur, Forall2 R lines cur ->
                        Forall2 R lines (fold_left annotateItemDiscount ds cur))
      as Hfold; [|apply Hfold; exact Hstart].
    induction ds as [|e ds IH]; intros cur Hcur; cbn [fold_left]; [exact Hcur|].
    apply IH. apply updateFirst_Forall2; [apply Hadd | exact Hcur].
  - generalize (default [] (DiscountResult.freeItems discountResult)).
    intros fs.
    assert (forall cur, Forall2 R lines cur ->
                        Forall2 R lines (fold_left annotateFreeItem fs cur))
      as Hfold; [|apply Hfold; exact Hstart].
    induction fs as [|e fs IH]; intros cur Hcur; cbn [fold_left]; [exact Hcur|].
    apply IH. unfold annotateFreeItem.
    destruct (positiveQ (FreeItem.itemDiscount e)); [|exact Hcur].
    apply updateFirst_Forall2; [apply Hfree | exact Hcur].
Qed.

(** X21.  The cart [applyCouponToCart] returns is stamped with the coupon:
    [appliedCoupon] holds the id, the code and the type of the coupon, and
    as [discountValue] the amount granted, which is the [totalDiscount] of
    the cart and not the [discountValue] the coupon is configured with. *)
Theorem applied_coupon_stamp (now : Z) (h h' : heap) (couponRef : loc)
    (cartRef updatedCart : option loc) (discountResult : DiscountResult.t) :
  applyCouponToCart now h couponRef cartRef
  = Ok (h', (updatedCart, discountResult)) ->
  exists coupon l' c,
    readCoupon h couponRef = Some coupon /\
    updatedCart = Some l' /\
    readCartObj h' l' = Some c /\
    CartObj.appliedCoupon c
    = Some (Stamp.mk (Coupon._id coupon) (Coupon.code coupon) (Coupon.type coupon)
                     (DiscountResult.discount discountResult)) /\
    CartObj.totalDiscount c = Some (DiscountResult.discount discountResult).
Proof.
  intros H. apply apply_success in H.
  destruct H as (coupon & l' & src & c & Hcp & _ & _ & -> & _ & _ & Hc
                 & _ & Htd & _ & Hst).
  exists coupon, l', c. split; [apply readCoupon_cell; exact Hcp|].
  repeat split; assumption.
Qed.

Lemma applied_coupon_stamp_holds :
  exists h' l' c discountResult,
    applyCouponToCart 0 (storeOf percentCoupon twoLines).1.1
                      (storeOf percentCoupon twoLines).1.2
                      (storeOf percentCoupon twoLines).2
    = Ok (h', (Some l', discountResult)) /\
    readCartObj h' l' = Some c /\
    CartObj.appliedCoupon c
    = Some (Stamp.mk 2 "PROD20" PRODUCT_WISE
                     (DiscountResult.discount discountResult)).
Proof.
  eassert (applyCouponToCart 0 (storeOf percentCoupon twoLines).1.1
                             (storeOf percentCoupon twoLines).1.2
                             (storeOf percentCoupon twoLines).2
           = Ok (_, (Some _, _))) as E by (vm_compute; reflexivity).
  destruct (applied_coupon_stamp _ _ _ _ _ _ _ E)
    as (coupon & l' & c & Hcp & Hl & Hc & Hst & _).
  injection Hl as <-. vm_compute in Hcp. injection Hcp as <-.
  do 4 eexists. split; [exact E|]. split; [exact Hc|]. exact Hst.
Defined.
